(** * Link reconciliation of the EVE-NG Terraform provider

    A shallow embedding of [internal/provider/node_link_resource.go]: the
    [eveng_node_link] resource with its Create / Read / Update / Delete entry
    points, the two reconciliation paths ([MakeNodeLinkNet],
    [MakeNodeLinkNode]), the two drift-detection paths
    ([NewNodeLinkModelNet], [NewNodeLinkModelNode]), the conditional unbind
    helper ([ensureInterfaceDeleted]), the implicit network manager
    ([createOrUpdateNetwork]) and the style synchroniser
    ([GetTopologyForTargetNode], [MakeNodeStyle]).

    The remote API client ([evengsdk.Client]) is an external collaborator. It
    is taken as an interface ([Client]) over an arbitrary type of remote
    worlds; every theorem holds for every implementation of it. The resource
    code runs in a small monad that threads the remote world, records every
    client call in order, and can crash (a failed Go type assertion).

    The second part of the file embeds the rest of the provider the link
    resource lives in: the provider's [Configure], the network resource
    ([network_resource.go]), the lab resource's [MoveLab] and [Read], the
    start-nodes resource ([StartLab]) and the topology data source's
    [harmonizeMaps], each over the operations of the client it calls. *)

From Stdlib Require Import ZArith String Ascii List Bool Lia DecimalString
  DecimalPos.
From stdpp Require Import base strings gmap list.

Local Open Scope string_scope.
Local Open Scope list_scope.
Local Open Scope Z_scope.

(** ** Go and Terraform framework values *)

(** [types.Int64], [types.String], ...: a framework value is null, unknown
    or known. The zero value of the Go struct is the null state. *)
Inductive tfvalue (A : Type) : Type :=
| Null
| Unknown
| Known (a : A).
Arguments Null {A}.
Arguments Unknown {A}.
Arguments Known {A} a.

Definition IsNull {A} (v : tfvalue A) : bool :=
  match v with Null => true | _ => false end.

Definition IsUnknown {A} (v : tfvalue A) : bool :=
  match v with Unknown => true | _ => false end.

(** [ValueInt64()], [ValueInt32()]: the known value, or 0. *)
Definition ValueInt64 (v : tfvalue Z) : Z :=
  match v with Known z => z | _ => 0 end.

Definition ValueInt32 (v : tfvalue Z) : Z :=
  match v with Known z => z | _ => 0 end.

(** [ValueString()]: the known value, or the empty string. *)
Definition ValueString (v : tfvalue string) : string :=
  match v with Known s => s | _ => "" end.

(** Go's [error]: nil, or a value with a message ([err.Error()]). *)
Definition error : Type := option string.

(** [(T, error)] results whose value is only read when the error is nil. *)
Inductive result (A : Type) : Type :=
| Ok (a : A)
| Err (msg : string).
Arguments Ok {A} a.
Arguments Err {A} msg.

(** Integers. [int] and [int64] have the same width on the 64-bit targets
    the provider is built for, so [int(x)] and [int64(x)] are the identity
    and ids are plain [Z]. [int32(x)] on an [int] is two's complement
    truncation. *)
Definition int32 (z : Z) : Z := (z + 2 ^ 31) mod 2 ^ 32 - 2 ^ 31.

(** [strconv.Itoa]. *)
Definition Itoa (z : Z) : string := NilZero.string_of_int (Z.to_int z).

(** [fmt.Sprintf("%t", b)]. *)
Definition fmt_bool (b : bool) : string := if b then "true" else "false".

(** [strconv.Atoi], through its general path [ParseInt(s, 10, 0)] (the fast
    path for short strings computes the same value). A decimal digit, [None]
    on any other byte. *)
Definition digit_of (c : ascii) : option Z :=
  let n := Z.of_N (N_of_ascii c) in
  if (48 <=? n) && (n <=? 57) then Some (n - 48) else None.

(** What [ParseUint] answers: a syntax error, a range error (with the
    largest value) or the value. *)
Inductive parsed : Type :=
| SyntaxError
| RangeError
| Parsed (n : Z).

Definition maxUint64 : Z := 2 ^ 64 - 1.

(** The loop of [ParseUint] in base 10 on 64 bits. A byte that is no digit
    is a syntax error; the range is checked digit by digit, before the rest
    of the string is read. *)
Fixpoint parse_digits (s : string) (n : Z) : parsed :=
  match s with
  | EmptyString => Parsed n
  | String c rest =>
      match digit_of c with
      | None => SyntaxError
      | Some d =>
          if maxUint64 / 10 + 1 <=? n then RangeError
          else if maxUint64 <? n * 10 + d then RangeError
          else parse_digits rest (n * 10 + d)
      end
  end.

Definition parse_unsigned (s : string) : parsed :=
  match s with
  | EmptyString => SyntaxError
  | _ => parse_digits s 0
  end.

(** The value returned by [strconv.Atoi] (its error is discarded by every
    caller in this file): 0 on a syntax error, the nearest bound of int64 on
    a range error. *)
Definition Atoi (s : string) : Z :=
  let signed (neg : bool) (digits : string) :=
    match parse_unsigned digits with
    | SyntaxError => 0
    | RangeError => if neg then - 2 ^ 63 else 2 ^ 63 - 1
    | Parsed un =>
        if neg then (if 2 ^ 63 <? un then - 2 ^ 63 else - un)
        else (if 2 ^ 63 <=? un then 2 ^ 63 - 1 else un)
    end in
  match s with
  | String "+"%char rest => signed false rest
  | String "-"%char rest => signed true rest
  | _ => signed false s
  end.

(** [float32] and [strconv.ParseFloat(s, 32)] followed by [float32(...)]
    (the parse error is discarded by every caller). Nothing proved below
    depends on floating-point arithmetic, so the carrier stays abstract. *)
Class Float32 : Type := {
  float32 : Type;
  float32_zero : float32;
  ParseFloat32 : string -> float32
}.

(** A value of Go's [interface{}] as produced by decoding JSON. *)
Inductive jsonv : Type :=
| JString (s : string)
| JNumber (literal : string)
| JBool (b : bool)
| JNull.

(** Outcome of running Go code that may panic. *)
Inductive outcome (A : Type) : Type :=
| Done (a : A)
| Panic.
Arguments Done {A} a.
Arguments Panic {A}.

(** [v, ok := x.(string)] on a map lookup: absent keys read as nil. *)
Definition assertString2 (x : option jsonv) : string * bool :=
  match x with
  | Some (JString s) => (s, true)
  | _ => ("", false)
  end.

(** [x.(string)] in single-value form: panics unless [x] holds a string. *)
Definition assertString1 (x : option jsonv) : outcome string :=
  match x with
  | Some (JString s) => Done s
  | _ => Panic
  end.

(** ** The SDK's data ([package evengsdk]) *)

Module evengsdk.

Record Network : Type := {
  Id : Z;
  Left : Z;
  Top : Z;
  Name : string;
  Type_ : string;
  Visibility : string;
  Icon : string
}.

(** Only the bound network of an interface is read by the resource. *)
Record Interface : Type := {
  IfName : string;
  NetworkId : Z
}.

Record Style `{Float32} : Type := {
  Style_ : string;
  Color : string;
  Srcpos : float32;
  Dstpos : float32;
  Linkstyle : string;
  Width : string;
  Label : string;
  Labelpos : float32;
  Stub : string;
  Curviness : string;
  Beziercurviness : string;
  Round : string;
  Midpoint : float32
}.

End evengsdk.

(** Visibility flags of a network as the remote system encodes them. *)
Definition visible : string := "1".
Definition hidden : string := "0".

Definition set_Visibility (n : evengsdk.Network) (v : string) : evengsdk.Network :=
  {| evengsdk.Id := evengsdk.Id n;
     evengsdk.Left := evengsdk.Left n;
     evengsdk.Top := evengsdk.Top n;
     evengsdk.Name := evengsdk.Name n;
     evengsdk.Type_ := evengsdk.Type_ n;
     evengsdk.Visibility := v;
     evengsdk.Icon := evengsdk.Icon n |}.

Definition set_Id (n : evengsdk.Network) (i : Z) : evengsdk.Network :=
  {| evengsdk.Id := i;
     evengsdk.Left := evengsdk.Left n;
     evengsdk.Top := evengsdk.Top n;
     evengsdk.Name := evengsdk.Name n;
     evengsdk.Type_ := evengsdk.Type_ n;
     evengsdk.Visibility := evengsdk.Visibility n;
     evengsdk.Icon := evengsdk.Icon n |}.

(** ** The resource's data model *)

Section Resource.

Context `{F32 : Float32}.

Record StyleResourceModel : Type := {
  Style_ : tfvalue string;
  Color : tfvalue string;
  SrcPos : tfvalue float32;
  DstPos : tfvalue float32;
  LinkStyle : tfvalue string;
  Width : tfvalue Z;
  Label : tfvalue string;
  LabelPos : tfvalue float32;
  Stub : tfvalue Z;
  Curviness : tfvalue Z;
  BezierCurviness : tfvalue Z;
  Round : tfvalue Z;
  Midpoint : tfvalue float32
}.

(** [NodeLinkResourceModel]; [Style] is a pointer, nil is [None]. *)
Record NodeLinkResourceModel : Type := {
  LabPath : tfvalue string;
  NetworkId : tfvalue Z;
  SourceNodeId : tfvalue Z;
  SourcePort : tfvalue string;
  TargetNodeId : tfvalue Z;
  TargetPort : tfvalue string;
  Style : option StyleResourceModel
}.

(** [NodeLinkResourceModel{}] *)
Definition emptyModel : NodeLinkResourceModel :=
  {| LabPath := Null; NetworkId := Null; SourceNodeId := Null;
     SourcePort := Null; TargetNodeId := Null; TargetPort := Null;
     Style := None |}.

(** [StyleResourceModel{}] *)
Definition emptyStyle : StyleResourceModel :=
  {| Style_ := Null; Color := Null; SrcPos := Null; DstPos := Null;
     LinkStyle := Null; Width := Null; Label := Null; LabelPos := Null;
     Stub := Null; Curviness := Null; BezierCurviness := Null;
     Round := Null; Midpoint := Null |}.

Definition ValueFloat32 (v : tfvalue float32) : float32 :=
  match v with Known f => f | _ => float32_zero end.

(** Field assignments on a model value ([model.X = ...]). *)
Definition set_NetworkId (m : NodeLinkResourceModel) (v : tfvalue Z) :=
  {| LabPath := LabPath m; NetworkId := v; SourceNodeId := SourceNodeId m;
     SourcePort := SourcePort m; TargetNodeId := TargetNodeId m;
     TargetPort := TargetPort m; Style := Style m |}.

Definition set_SourceNodeId (m : NodeLinkResourceModel) (v : tfvalue Z) :=
  {| LabPath := LabPath m; NetworkId := NetworkId m; SourceNodeId := v;
     SourcePort := SourcePort m; TargetNodeId := TargetNodeId m;
     TargetPort := TargetPort m; Style := Style m |}.

Definition set_SourcePort (m : NodeLinkResourceModel) (v : tfvalue string) :=
  {| LabPath := LabPath m; NetworkId := NetworkId m;
     SourceNodeId := SourceNodeId m; SourcePort := v;
     TargetNodeId := TargetNodeId m; TargetPort := TargetPort m;
     Style := Style m |}.

Definition set_TargetNodeId (m : NodeLinkResourceModel) (v : tfvalue Z) :=
  {| LabPath := LabPath m; NetworkId := NetworkId m;
     SourceNodeId := SourceNodeId m; SourcePort := SourcePort m;
     TargetNodeId := v; TargetPort := TargetPort m; Style := Style m |}.

Definition set_TargetPort (m : NodeLinkResourceModel) (v : tfvalue string) :=
  {| LabPath := LabPath m; NetworkId := NetworkId m;
     SourceNodeId := SourceNodeId m; SourcePort := SourcePort m;
     TargetNodeId := TargetNodeId m; TargetPort := v; Style := Style m |}.

Definition set_Style (m : NodeLinkResourceModel) (v : option StyleResourceModel) :=
  {| LabPath := LabPath m; NetworkId := NetworkId m;
     SourceNodeId := SourceNodeId m; SourcePort := SourcePort m;
     TargetNodeId := TargetNodeId m; TargetPort := TargetPort m;
     Style := v |}.

(** ** The remote client *)

(** A call on [r.client], with its arguments. *)
Inductive Call : Type :=
| CallGetNetwork (labPath : string) (networkId : Z)
| CallCreateNetwork (labPath : string) (network : evengsdk.Network)
| CallUpdateNetwork (labPath : string) (network : evengsdk.Network)
| CallDeleteNetwork (labPath : string) (networkId : Z)
| CallGetNode (labPath : string) (nodeId : Z)
| CallGetNodeInterface (labPath : string) (nodeId : Z) (port : string)
| CallUpdateNodeInterfaceName (labPath : string) (nodeId : Z) (port : string)
    (networkId : Z)
| CallUpdateNodeInterfaceStyleByName (labPath : string) (nodeId : Z)
    (port : string) (style : evengsdk.Style)
| CallGetTopology (labPath : string)
| CallIsPro.

(** The calls that ask the remote system to change something. *)
Definition is_mutation (c : Call) : bool :=
  match c with
  | CallCreateNetwork _ _ | CallUpdateNetwork _ _ | CallDeleteNetwork _ _
  | CallUpdateNodeInterfaceName _ _ _ _
  | CallUpdateNodeInterfaceStyleByName _ _ _ _ => true
  | _ => false
  end.

(** Calls on the Interface Binder: bind and unbind of one interface. *)
Definition is_binder_call (c : Call) : bool :=
  match c with CallUpdateNodeInterfaceName _ _ _ _ => true | _ => false end.

(** Calls that create, change or delete a network. *)
Definition is_network_mutation (c : Call) : bool :=
  match c with
  | CallCreateNetwork _ _ | CallUpdateNetwork _ _ | CallDeleteNetwork _ _ => true
  | _ => false
  end.

Definition is_interface_query (c : Call) : bool :=
  match c with CallGetNodeInterface _ _ _ => true | _ => false end.

(** The operations of [evengsdk.Client] the resource consumes, over remote
    worlds [W]. Queries observe the world; the five mutating operations
    transform it. [GetNetwork] and [GetNode] are modelled by their error
    alone, the only component the resource reads. [CreateNetwork] and
    [UpdateNetwork] receive a pointer: the record as the call leaves it is
    part of the answer. [GetNodeInterface] answers the interface's index
    and the interface. [GetTopology]'s listing is used whatever its error. *)
Class Client (W : Type) : Type := {
  remote_GetNetwork : string -> Z -> W -> error;
  remote_CreateNetwork :
    string -> evengsdk.Network -> W -> W * (evengsdk.Network * error);
  remote_UpdateNetwork :
    string -> evengsdk.Network -> W -> W * (evengsdk.Network * error);
  remote_DeleteNetwork : string -> Z -> W -> W * error;
  remote_GetNode : string -> Z -> W -> error;
  remote_GetNodeInterface :
    string -> Z -> string -> W -> result (Z * evengsdk.Interface);
  remote_UpdateNodeInterfaceName :
    string -> Z -> string -> Z -> W -> W * error;
  remote_UpdateNodeInterfaceStyleByName :
    string -> Z -> string -> evengsdk.Style -> W -> W * error;
  remote_GetTopology : string -> W -> list (gmap string jsonv) * error;
  remote_IsPro : W -> bool
}.

Context {W : Type} `{CL : Client W}.

(** ** The monad the resource runs in: remote world, call log, panics *)

Definition M (A : Type) : Type := W -> W * list Call * outcome A.

Definition ret {A} (a : A) : M A := fun w => (w, [], Done a).

Definition bind {A B} (m : M A) (f : A -> M B) : M B :=
  fun w =>
    match m w with
    | (w1, l1, Done a) =>
        match f a w1 with
        | (w2, l2, r) => (w2, l1 ++ l2, r)
        end
    | (w1, l1, Panic) => (w1, l1, Panic)
    end.

Definition lift {A} (o : outcome A) : M A := fun w => (w, [], o).

Definition query {A} (c : Call) (q : W -> A) : M A :=
  fun w => (w, [c], Done (q w)).

Definition mutate {A} (c : Call) (f : W -> W * A) : M A :=
  fun w => match f w with (w', a) => (w', [c], Done a) end.

(** What a run leaves behind. *)
Definition world_of {A} (r : W * list Call * outcome A) : W := fst (fst r).
Definition calls_of {A} (r : W * list Call * outcome A) : list Call := snd (fst r).
Definition outcome_of {A} (r : W * list Call * outcome A) : outcome A := snd r.

End Resource.

Notation "x <- m ;; k" := (bind m (fun x => k))
  (at level 100, m at next level, right associativity).

(** Sequencing of code that can panic but makes no call. *)
Definition obind {A B} (o : outcome A) (f : A -> outcome B) : outcome B :=
  match o with Done a => f a | Panic => Panic end.

Notation "x <-! o ;; k" := (obind o (fun x => k))
  (at level 100, o at next level, right associativity).

(** ** The resource's code *)

Section NodeLinkResource.

Context `{F32 : Float32} {W : Type} `{CL : !Client W}.

(** Calls on [r.client], recorded in the log. *)
Definition Network_GetNetwork (labPath : string) (networkId : Z) : M error :=
  query (CallGetNetwork labPath networkId) (remote_GetNetwork labPath networkId).

Definition Network_CreateNetwork (labPath : string) (network : evengsdk.Network)
  : M (evengsdk.Network * error) :=
  mutate (CallCreateNetwork labPath network) (remote_CreateNetwork labPath network).

Definition Network_UpdateNetwork (labPath : string) (network : evengsdk.Network)
  : M (evengsdk.Network * error) :=
  mutate (CallUpdateNetwork labPath network) (remote_UpdateNetwork labPath network).

Definition Network_DeleteNetwork (labPath : string) (networkId : Z) : M error :=
  mutate (CallDeleteNetwork labPath networkId) (remote_DeleteNetwork labPath networkId).

Definition Node_GetNode (labPath : string) (nodeId : Z) : M error :=
  query (CallGetNode labPath nodeId) (remote_GetNode labPath nodeId).

Definition Node_GetNodeInterface (labPath : string) (nodeId : Z) (port : string)
  : M (result (Z * evengsdk.Interface)) :=
  query (CallGetNodeInterface labPath nodeId port)
    (remote_GetNodeInterface labPath nodeId port).

Definition Node_UpdateNodeInterfaceName (labPath : string) (nodeId : Z)
  (port : string) (networkId : Z) : M error :=
  mutate (CallUpdateNodeInterfaceName labPath nodeId port networkId)
    (remote_UpdateNodeInterfaceName labPath nodeId port networkId).

Definition Node_UpdateNodeInterfaceStyleByName (labPath : string) (nodeId : Z)
  (port : string) (style : evengsdk.Style) : M error :=
  mutate (CallUpdateNodeInterfaceStyleByName labPath nodeId port style)
    (remote_UpdateNodeInterfaceStyleByName labPath nodeId port style).

Definition Lab_GetTopology (labPath : string)
  : M (list (gmap string jsonv) * error) :=
  query (CallGetTopology labPath) (remote_GetTopology labPath).

Definition IsPro : M bool := query CallIsPro remote_IsPro.

(** [ensureInterfaceDeleted] *)
Definition ensureInterfaceDeleted (labPath : string) (nodeId : Z) (port : string)
  (networkId : Z) : M error :=
  r <- Node_GetNodeInterface labPath nodeId port ;;
  match r with
  | Err err => ret (Some err)
  | Ok (_, inter) =>
      if evengsdk.NetworkId inter =? networkId then
        err <- Node_UpdateNodeInterfaceName labPath nodeId port 0 ;;
        match err with
        | Some e => ret (Some e)
        | None => ret None
        end
      else ret None
  end.

(** [createOrUpdateNetwork] *)
Definition createOrUpdateNetwork (labPath : string) (networkId : Z)
  (netName : string) : M (evengsdk.Network * error) :=
  err <- Network_GetNetwork labPath networkId ;;
  let network :=
    {| evengsdk.Id := networkId;
       evengsdk.Left := 0;
       evengsdk.Top := 0;
       evengsdk.Name := netName;
       evengsdk.Type_ := "bridge";
       evengsdk.Visibility := "1";
       evengsdk.Icon := "lan.png" |} in
  match err with
  | Some _ => Network_CreateNetwork labPath (set_Id network 0)
  | None => Network_UpdateNetwork labPath network
  end.

(** The guard of both reconciliation paths: the endpoint changed relative
    to persisted state and was previously recorded. *)
Definition endpoint_changed (planNode stateNode : tfvalue Z)
  (planPort statePort : tfvalue string) : bool :=
  (negb (ValueInt64 planNode =? ValueInt64 stateNode)
   || negb (String.eqb (ValueString planPort) (ValueString statePort)))
  && negb (ValueInt64 stateNode =? 0).

(** [MakeNodeLinkNet] *)
Definition MakeNodeLinkNet (plan state : NodeLinkResourceModel) : M (Z * error) :=
  err0 <- (if endpoint_changed (SourceNodeId plan) (SourceNodeId state)
                (SourcePort plan) (SourcePort state)
           then ensureInterfaceDeleted (ValueString (LabPath plan))
                  (ValueInt64 (SourceNodeId state))
                  (ValueString (SourcePort state))
                  (ValueInt64 (NetworkId state))
           else ret None) ;;
  match err0 with
  | Some e => ret (ValueInt64 (NetworkId plan), Some e)
  | None =>
      err <- Node_UpdateNodeInterfaceName (ValueString (LabPath plan))
               (ValueInt64 (SourceNodeId plan)) (ValueString (SourcePort plan))
               (ValueInt64 (NetworkId plan)) ;;
      match err with
      | Some e => ret (ValueInt64 (NetworkId plan), Some e)
      | None => ret (ValueInt64 (NetworkId plan), None)
      end
  end.

(** The synthetic name of an implicit network. *)
Definition netName_of (plan : NodeLinkResourceModel) (sourceIndex targetIndex : Z)
  : string :=
  Itoa (ValueInt64 (SourceNodeId plan)) +:+ "_" +:+ Itoa sourceIndex +:+ "_"
  +:+ Itoa (ValueInt64 (TargetNodeId plan)) +:+ "_" +:+ Itoa targetIndex.

(** [MakeNodeLinkNode] *)
Definition MakeNodeLinkNode (plan state : NodeLinkResourceModel) : M (Z * error) :=
  err0 <- (if endpoint_changed (SourceNodeId plan) (SourceNodeId state)
                (SourcePort plan) (SourcePort state)
           then ensureInterfaceDeleted (ValueString (LabPath plan))
                  (ValueInt64 (SourceNodeId state))
                  (ValueString (SourcePort state))
                  (ValueInt64 (NetworkId state))
           else ret None) ;;
  match err0 with
  | Some e => ret (ValueInt64 (NetworkId state), Some e)
  | None =>
  err1 <- (if endpoint_changed (TargetNodeId plan) (TargetNodeId state)
                (TargetPort plan) (TargetPort state)
           then ensureInterfaceDeleted (ValueString (LabPath plan))
                  (ValueInt64 (TargetNodeId state))
                  (ValueString (TargetPort state))
                  (ValueInt64 (NetworkId state))
           else ret None) ;;
  match err1 with
  | Some e => ret (ValueInt64 (NetworkId state), Some e)
  | None =>
  rs <- Node_GetNodeInterface (ValueString (LabPath plan))
          (ValueInt64 (SourceNodeId plan)) (ValueString (SourcePort plan)) ;;
  match rs with
  | Err e => ret (ValueInt64 (NetworkId state), Some e)
  | Ok (sourceIndex, _) =>
  rt <- Node_GetNodeInterface (ValueString (LabPath plan))
          (ValueInt64 (TargetNodeId plan)) (ValueString (TargetPort plan)) ;;
  match rt with
  | Err e => ret (ValueInt64 (NetworkId state), Some e)
  | Ok (targetIndex, _) =>
  rn <- createOrUpdateNetwork (ValueString (LabPath plan))
          (ValueInt64 (NetworkId state))
          (netName_of plan sourceIndex targetIndex) ;;
  match rn with
  | (network, Some e) => ret (evengsdk.Id network, Some e)
  | (network, None) =>
  err2 <- Node_UpdateNodeInterfaceName (ValueString (LabPath plan))
            (ValueInt64 (SourceNodeId plan)) (ValueString (SourcePort plan))
            (evengsdk.Id network) ;;
  match err2 with
  | Some e => ret (evengsdk.Id network, Some e)
  | None =>
  err3 <- Node_UpdateNodeInterfaceName (ValueString (LabPath plan))
            (ValueInt64 (TargetNodeId plan)) (ValueString (TargetPort plan))
            (evengsdk.Id network) ;;
  match err3 with
  | Some e => ret (evengsdk.Id network, Some e)
  | None =>
  rv <- Network_UpdateNetwork (ValueString (LabPath plan))
          (set_Visibility network "0") ;;
  match rv with
  | (network', err) => ret (evengsdk.Id network', err)
  end end end end end end end end.

(** [NewNodeLinkModelNet]: the model, the error and the recreate flag. *)
Definition NewNodeLinkModelNet (state : NodeLinkResourceModel)
  : M (NodeLinkResourceModel * error * bool) :=
  let model := state in
  err <- Network_GetNetwork (ValueString (LabPath state))
           (ValueInt64 (NetworkId state)) ;;
  match err with
  | Some e => ret (model, Some e, true)
  | None =>
  err <- Node_GetNode (ValueString (LabPath state))
           (ValueInt64 (SourceNodeId state)) ;;
  match err with
  | Some _ =>
      let model := set_SourceNodeId model (Known 0) in
      let model := set_SourcePort model (Known "") in
      ret (model,
           Some ("source node " +:+ Itoa (ValueInt64 (SourceNodeId state))
                 +:+ " not found"),
           false)
  | None =>
  if String.eqb (ValueString (SourcePort state)) "" then ret (model, None, false)
  else
  r <- Node_GetNodeInterface (ValueString (LabPath state))
         (ValueInt64 (SourceNodeId state)) (ValueString (SourcePort state)) ;;
  match r with
  | Err e => ret (set_SourcePort model (Known ""), Some e, false)
  | Ok (_, sourceInt) =>
      if negb (evengsdk.NetworkId sourceInt =? ValueInt64 (NetworkId state))
      then ret (set_SourcePort model (Known ""), None, false)
      else ret (model, None, false)
  end end end.

(** The messages of the two binding-mismatch errors. *)
Definition source_mismatch_error (state : NodeLinkResourceModel) : string :=
  "source port " +:+ ValueString (SourcePort state)
  +:+ " is not connected to network " +:+ Itoa (ValueInt64 (NetworkId state)).

Definition target_mismatch_error (state : NodeLinkResourceModel) : string :=
  "target port " +:+ ValueString (TargetPort state)
  +:+ " is not connected to network " +:+ Itoa (ValueInt64 (NetworkId state)).

(** [NewNodeLinkModelNode] *)
Definition NewNodeLinkModelNode (state : NodeLinkResourceModel)
  : M (NodeLinkResourceModel * error * bool) :=
  let model := state in
  err <- Network_GetNetwork (ValueString (LabPath state))
           (ValueInt64 (NetworkId state)) ;;
  match err with
  | Some e => ret (model, Some e, true)
  | None =>
  err <- Node_GetNode (ValueString (LabPath state))
           (ValueInt64 (SourceNodeId state)) ;;
  match err with
  | Some e =>
      let model := set_SourceNodeId model (Known 0) in
      let model := set_SourcePort model (Known "") in
      ret (model, Some e, false)
  | None =>
  err <- Node_GetNode (ValueString (LabPath state))
           (ValueInt64 (TargetNodeId state)) ;;
  match err with
  | Some e =>
      let model := set_TargetNodeId model (Known 0) in
      let model := set_TargetPort model (Known "") in
      ret (model, Some e, false)
  | None =>
  r <- Node_GetNodeInterface (ValueString (LabPath state))
         (ValueInt64 (SourceNodeId state)) (ValueString (SourcePort state)) ;;
  match r with
  | Err e => ret (set_SourcePort model (Known ""), Some e, false)
  | Ok (_, sourceInt) =>
  if negb (evengsdk.NetworkId sourceInt =? ValueInt64 (NetworkId state))
  then ret (set_SourcePort model (Known ""),
            Some (source_mismatch_error state), false)
  else
  r <- Node_GetNodeInterface (ValueString (LabPath state))
         (ValueInt64 (TargetNodeId state)) (ValueString (TargetPort state)) ;;
  match r with
  | Err e => ret (set_SourcePort model (Known ""), Some e, false)
  | Ok (_, targetInt) =>
  if negb (evengsdk.NetworkId targetInt =? ValueInt64 (NetworkId state))
  then ret (set_TargetPort model (Known ""),
            Some (target_mismatch_error state), false)
  else ret (model, None, false)
  end end end end end.

(** ** Style synchroniser *)

(** The body of the loop of [GetTopologyForTargetNode] once an entry
    matched: string attributes through the comma-ok assertion with a
    default, numeric attributes through the single-value assertion (which
    panics when the attribute is missing or is no string) and a parser whose
    error is dropped. *)
Definition styleOfEntry (node : gmap string jsonv) : outcome StyleResourceModel :=
  let style :=
    match assertString2 (node !! "style") with
    | (style, ok) => if String.eqb style "" || negb ok then "Solid" else style
    end in
  let color :=
    match assertString2 (node !! "color") with
    | (color, ok) => if String.eqb color "" || negb ok then "#3e7089" else color
    end in
  srcpos <-! assertString1 (node !! "srcpos") ;;
  dstpos <-! assertString1 (node !! "dstpos") ;;
  let linkstyle :=
    match assertString2 (node !! "linkstyle") with
    | (linkstyle, ok) =>
        if String.eqb linkstyle "" || negb ok then "Straight" else linkstyle
    end in
  width <-! assertString1 (node !! "width") ;;
  let label :=
    match assertString2 (node !! "label") with
    | (label, ok) => if negb ok then "" else label
    end in
  labelpos <-! assertString1 (node !! "labelpos") ;;
  stub <-! assertString1 (node !! "stub") ;;
  curviness <-! assertString1 (node !! "curviness") ;;
  beziercurviness <-! assertString1 (node !! "beziercurviness") ;;
  round <-! assertString1 (node !! "round") ;;
  midpoint <-! assertString1 (node !! "midpoint") ;;
  Done {| Style_ := Known style;
          Color := Known color;
          SrcPos := Known (ParseFloat32 srcpos);
          DstPos := Known (ParseFloat32 dstpos);
          LinkStyle := Known linkstyle;
          Width := Known (int32 (Atoi width));
          Label := Known label;
          LabelPos := Known (ParseFloat32 labelpos);
          Stub := Known (int32 (Atoi stub));
          Curviness := Known (int32 (Atoi curviness));
          BezierCurviness := Known (int32 (Atoi beziercurviness));
          Round := Known (int32 (Atoi round));
          Midpoint := Known (ParseFloat32 midpoint) |}.

(** Whether a topology entry is the one of the link's target endpoint. *)
Definition entry_matches (plan : NodeLinkResourceModel) (node : gmap string jsonv)
  : bool :=
  match assertString2 (node !! "source") with
  | (_, false) => false
  | (node_source, true) =>
      match assertString2 (node !! "source_label") with
      | (_, false) => false
      | (source_label, true) =>
          String.eqb node_source ("node" +:+ Itoa (ValueInt64 (TargetNodeId plan)))
          && String.eqb source_label (ValueString (TargetPort plan))
      end
  end.

(** The loop of [GetTopologyForTargetNode] over the listing. *)
Fixpoint scanTopology (plan : NodeLinkResourceModel)
  (topology : list (gmap string jsonv)) : outcome StyleResourceModel :=
  match topology with
  | [] => Done emptyStyle
  | node :: rest =>
      if entry_matches plan node then styleOfEntry node
      else scanTopology plan rest
  end.

(** [GetTopologyForTargetNode]; a failed listing is logged and the listing
    that came back is scanned all the same. *)
Definition GetTopologyForTargetNode (plan : NodeLinkResourceModel)
  : M StyleResourceModel :=
  t <- Lab_GetTopology (ValueString (LabPath plan)) ;;
  lift (scanTopology plan (fst t)).

(** [NewStyleModel] *)
Definition NewStyleModel (plan : NodeLinkResourceModel) : M StyleResourceModel :=
  GetTopologyForTargetNode plan.

(** [MakeNodeStyle]; a failed update is logged, not returned. *)
Definition MakeNodeStyle (plan : NodeLinkResourceModel) : M unit :=
  match Style plan with
  | None => ret tt
  | Some st =>
      let style :=
        {| evengsdk.Style_ := ValueString (Style_ st);
           evengsdk.Color := ValueString (Color st);
           evengsdk.Srcpos := ValueFloat32 (SrcPos st);
           evengsdk.Dstpos := ValueFloat32 (DstPos st);
           evengsdk.Linkstyle := ValueString (LinkStyle st);
           evengsdk.Width := Itoa (ValueInt32 (Width st));
           evengsdk.Label := ValueString (Label st);
           evengsdk.Labelpos := ValueFloat32 (LabelPos st);
           evengsdk.Stub := Itoa (ValueInt32 (Stub st));
           evengsdk.Curviness := Itoa (ValueInt32 (Curviness st));
           evengsdk.Beziercurviness := Itoa (ValueInt32 (BezierCurviness st));
           evengsdk.Round := Itoa (ValueInt32 (Round st));
           evengsdk.Midpoint := ValueFloat32 (Midpoint st) |} in
      _ <- Node_UpdateNodeInterfaceStyleByName (ValueString (LabPath plan))
             (ValueInt64 (TargetNodeId plan)) (ValueString (TargetPort plan))
             style ;;
      ret tt
  end.

(** ** Create, Read, Update, Delete *)

(** What an entry point does to [resp.State]. *)
Inductive StateAction : Type :=
| Untouched
| SetState (state : NodeLinkResourceModel)
| RemoveResource.

(** [resp]: the error diagnostics (summary, detail) and the state action. *)
Record Response : Type := {
  Diagnostics : list (string * string);
  State : StateAction
}.

Definition failed (summary detail : string) : Response :=
  {| Diagnostics := [(summary, detail)]; State := Untouched |}.

Definition self_link_error : string * string :=
  ("Cannot link a node to itself", "source and target node IDs are the same").

(** The style synchronisation at the end of [Create] and [Update]. *)
Definition syncStyle (plan : NodeLinkResourceModel) : M NodeLinkResourceModel :=
  pro <- IsPro ;;
  if pro then
    _ <- MakeNodeStyle plan ;;
    rstyle <- NewStyleModel plan ;;
    ret (set_Style plan (Some rstyle))
  else ret plan.

(** [Create] *)
Definition Create (plan : NodeLinkResourceModel) : M Response :=
  if ValueInt64 (SourceNodeId plan) =? ValueInt64 (TargetNodeId plan) then
    ret (failed (fst self_link_error) (snd self_link_error))
  else
    r <- (if negb (IsUnknown (NetworkId plan))
          then MakeNodeLinkNet plan emptyModel
          else MakeNodeLinkNode plan emptyModel) ;;
    match r with
    | (_, Some e) =>
        ret (failed ("Failed to create node link (isNet="
                     +:+ fmt_bool (negb (IsNull (NetworkId plan))) +:+ ")") e)
    | (id, None) =>
        if id =? 0 then ret (failed "Failed to create node link" "network ID is 0")
        else
          plan' <- syncStyle plan ;;
          ret {| Diagnostics := [];
                 State := SetState
                   {| LabPath := LabPath plan';
                      NetworkId := Known id;
                      SourceNodeId := SourceNodeId plan';
                      SourcePort := SourcePort plan';
                      TargetNodeId := TargetNodeId plan';
                      TargetPort := TargetPort plan';
                      Style := Style plan' |} |}
    end.

(** [Read] *)
Definition Read (state : NodeLinkResourceModel) : M Response :=
  r <- (if IsNull (TargetNodeId state)
        then NewNodeLinkModelNet state
        else NewNodeLinkModelNode state) ;;
  match r with
  | (_, _, true) => ret {| Diagnostics := []; State := RemoveResource |}
  | (_, Some e, false) => ret (failed "Failed to read node link" e)
  | (state, None, false) =>
      pro <- IsPro ;;
      state' <- (if pro && match Style state with Some _ => true | None => false end
                 then style <- NewStyleModel state ;;
                      ret (set_Style state (Some style))
                 else ret state) ;;
      ret {| Diagnostics := []; State := SetState state' |}
  end.

(** [Update] *)
Definition Update (plan state : NodeLinkResourceModel) : M Response :=
  if ValueInt64 (SourceNodeId plan) =? ValueInt64 (TargetNodeId plan) then
    ret (failed (fst self_link_error) (snd self_link_error))
  else
    let state :=
      if negb (IsNull (TargetNodeId plan)) && negb (IsNull (NetworkId state))
         && IsNull (TargetNodeId state)
      then set_NetworkId state Unknown
      else state in
    r <- (if negb (IsUnknown (NetworkId plan))
          then MakeNodeLinkNet plan state
          else MakeNodeLinkNode plan state) ;;
    match r with
    | (_, Some e) => ret (failed "Failed to update node link" e)
    | (id, None) =>
        plan' <- syncStyle plan ;;
        ret {| Diagnostics := [];
               State := SetState (set_NetworkId plan' (Known id)) |}
    end.

(** [Delete] *)
Definition Delete (state : NodeLinkResourceModel) : M Response :=
  if IsUnknown (NetworkId state) then
    ret {| Diagnostics := []; State := Untouched |}
  else if negb (IsNull (TargetNodeId state)) then
    err <- Network_DeleteNetwork (ValueString (LabPath state))
             (ValueInt64 (NetworkId state)) ;;
    match err with
    | Some e => ret (failed "Failed to delete node link" e)
    | None => ret {| Diagnostics := []; State := Untouched |}
    end
  else
    err <- ensureInterfaceDeleted (ValueString (LabPath state))
             (ValueInt64 (SourceNodeId state)) (ValueString (SourcePort state))
             (ValueInt64 (NetworkId state)) ;;
    match err with
    | Some e => ret (failed "Failed to delete node link" e)
    | None => ret {| Diagnostics := []; State := Untouched |}
    end.

End NodeLinkResource.

(** ** A reference remote system

    A small executable lab: networks, nodes with their interfaces in index
    order (port name, bound network id, 0 when unbound), a topology listing
    and the edition flag. It implements [Client] and serves to run the
    resource on concrete inputs. *)

Record Lab : Type := {
  lab_networks : list evengsdk.Network;
  lab_nodes : list (Z * list (string * Z));
  lab_topology : list (gmap string jsonv);
  lab_pro : bool
}.

Definition lab_has_network (id : Z) (w : Lab) : bool :=
  existsb (fun n => evengsdk.Id n =? id) (lab_networks w).

Definition lab_next_id (w : Lab) : Z :=
  1 + fold_right Z.max 0 (map evengsdk.Id (lab_networks w)).

Fixpoint port_index (port : string) (ifs : list (string * Z)) (i : Z)
  : option (Z * Z) :=
  match ifs with
  | [] => None
  | (p, net) :: rest =>
      if String.eqb p port then Some (i, net) else port_index port rest (i + 1)
  end.

Fixpoint find_node (id : Z) (nodes : list (Z * list (string * Z)))
  : option (list (string * Z)) :=
  match nodes with
  | [] => None
  | (i, ifs) :: rest => if i =? id then Some ifs else find_node id rest
  end.

Definition rebind (node : Z) (port : string) (net : Z)
  (nodes : list (Z * list (string * Z))) : list (Z * list (string * Z)) :=
  map (fun '(i, ifs) =>
         (i, if i =? node
             then map (fun '(p, b) => (p, if String.eqb p port then net else b)) ifs
             else ifs)) nodes.

Definition release (net : Z) (nodes : list (Z * list (string * Z)))
  : list (Z * list (string * Z)) :=
  map (fun '(i, ifs) =>
         (i, map (fun '(p, b) => (p, if b =? net then 0 else b)) ifs)) nodes.

Definition with_networks (w : Lab) (nets : list evengsdk.Network) : Lab :=
  {| lab_networks := nets; lab_nodes := lab_nodes w;
     lab_topology := lab_topology w; lab_pro := lab_pro w |}.

Definition with_nodes (w : Lab) (nodes : list (Z * list (string * Z))) : Lab :=
  {| lab_networks := lab_networks w; lab_nodes := nodes;
     lab_topology := lab_topology w; lab_pro := lab_pro w |}.

Definition lab_GetNetwork (_ : string) (id : Z) (w : Lab) : error :=
  if lab_has_network id w then None else Some "network not found".

Definition lab_CreateNetwork (_ : string) (n : evengsdk.Network) (w : Lab)
  : Lab * (evengsdk.Network * error) :=
  let n' := set_Id n (lab_next_id w) in
  (with_networks w (lab_networks w ++ [n']), (n', None)).

Definition lab_UpdateNetwork (_ : string) (n : evengsdk.Network) (w : Lab)
  : Lab * (evengsdk.Network * error) :=
  if lab_has_network (evengsdk.Id n) w then
    (with_networks w
       (map (fun m => if evengsdk.Id m =? evengsdk.Id n then n else m)
          (lab_networks w)),
     (n, None))
  else (w, (n, Some "network not found")).

Definition lab_DeleteNetwork (_ : string) (id : Z) (w : Lab) : Lab * error :=
  if lab_has_network id w then
    (with_nodes
       (with_networks w
          (filter (fun n => negb (evengsdk.Id n =? id)) (lab_networks w)))
       (release id (lab_nodes w)),
     None)
  else (w, Some "network not found").

Definition lab_GetNode (_ : string) (id : Z) (w : Lab) : error :=
  match find_node id (lab_nodes w) with
  | Some _ => None
  | None => Some "node not found"
  end.

Definition lab_GetNodeInterface (_ : string) (node : Z) (port : string) (w : Lab)
  : result (Z * evengsdk.Interface) :=
  match find_node node (lab_nodes w) with
  | None => Err "node not found"
  | Some ifs =>
      match port_index port ifs 0 with
      | None => Err "interface not found"
      | Some (i, net) =>
          Ok (i, {| evengsdk.IfName := port; evengsdk.NetworkId := net |})
      end
  end.

Definition lab_UpdateNodeInterfaceName (lab : string) (node : Z) (port : string)
  (net : Z) (w : Lab) : Lab * error :=
  match lab_GetNodeInterface lab node port w with
  | Err e => (w, Some e)
  | Ok _ => (with_nodes w (rebind node port net (lab_nodes w)), None)
  end.

(** The lab serves every carrier of floats: it only stores what the
    resource hands over. Where a closed run needs one, floats are erased. *)
Definition erased_float32 : Float32 :=
  {| float32 := unit; float32_zero := tt; ParseFloat32 := fun _ => tt |}.

Definition lab_client `{F32 : Float32} : Client Lab :=
  {| remote_GetNetwork := lab_GetNetwork;
     remote_CreateNetwork := lab_CreateNetwork;
     remote_UpdateNetwork := lab_UpdateNetwork;
     remote_DeleteNetwork := lab_DeleteNetwork;
     remote_GetNode := lab_GetNode;
     remote_GetNodeInterface := lab_GetNodeInterface;
     remote_UpdateNodeInterfaceName := lab_UpdateNodeInterfaceName;
     remote_UpdateNodeInterfaceStyleByName :=
       fun _ _ _ _ w => (w, if lab_pro w then None else Some "not supported");
     remote_GetTopology := fun _ w => (lab_topology w, None);
     remote_IsPro := lab_pro |}.

(** Two nodes with two unbound ethernet ports each, no network. *)
Definition two_nodes : Lab :=
  {| lab_networks := [];
     lab_nodes := [(1, [("e0", 0); ("e1", 0)]); (2, [("e0", 0); ("e1", 0)])];
     lab_topology := [];
     lab_pro := false |}.

(** The declaration of the acceptance test: node 1 port e0 to node 2 port e0. *)
Definition link_1_2 `{F32 : Float32} (sourcePort targetPort : string)
  : NodeLinkResourceModel :=
  {| LabPath := Known "/lab.unl";
     NetworkId := Unknown;
     SourceNodeId := Known 1;
     SourcePort := Known sourcePort;
     TargetNodeId := Known 2;
     TargetPort := Known targetPort;
     Style := None |}.

(** The lab once that link exists: implicit network 1, both e0 ports bound. *)
Definition linked_lab : Lab :=
  {| lab_networks :=
       [{| evengsdk.Id := 1; evengsdk.Left := 0; evengsdk.Top := 0;
           evengsdk.Name := "1_0_2_0"; evengsdk.Type_ := "bridge";
           evengsdk.Visibility := "0"; evengsdk.Icon := "lan.png" |}];
     lab_nodes := [(1, [("e0", 1); ("e1", 0)]); (2, [("e0", 1); ("e1", 0)])];
     lab_topology := [];
     lab_pro := false |}.

(** The persisted state of that link. *)
Definition linked_state `{F32 : Float32} (sourcePort targetPort : string)
  : NodeLinkResourceModel :=
  set_NetworkId (link_1_2 sourcePort targetPort) (Known 1).

(** A user network 1 with port e0 of node 1 plugged into it, and the
    persisted node-to-network link for it. *)
Definition net_lab : Lab :=
  {| lab_networks :=
       [{| evengsdk.Id := 1; evengsdk.Left := 0; evengsdk.Top := 0;
           evengsdk.Name := "lan"; evengsdk.Type_ := "bridge";
           evengsdk.Visibility := "1"; evengsdk.Icon := "lan.png" |}];
     lab_nodes := [(1, [("e0", 1); ("e1", 0)]); (2, [("e0", 0); ("e1", 0)])];
     lab_topology := [];
     lab_pro := false |}.

Definition net_link `{F32 : Float32} (networkId : Z) (sourcePort : string)
  : NodeLinkResourceModel :=
  {| LabPath := Known "/lab.unl";
     NetworkId := Known networkId;
     SourceNodeId := Known 1;
     SourcePort := Known sourcePort;
     TargetNodeId := Null;
     TargetPort := Null;
     Style := None |}.

(** A declaration whose two endpoints sit on the same node. *)
Definition self_link `{F32 : Float32} : NodeLinkResourceModel :=
  {| LabPath := Known "/lab.unl";
     NetworkId := Unknown;
     SourceNodeId := Known 1;
     SourcePort := Known "e0";
     TargetNodeId := Known 1;
     TargetPort := Known "e1";
     Style := None |}.

(** A topology entry for the link that ends on port e0 of node 2, as a
    professional-edition lab lists it before any style was written: the
    positions are filled in, every other numeric attribute is the empty
    string. *)
Definition unstyled_entry : gmap string jsonv :=
  list_to_map
    [("source", JString "node2"); ("source_label", JString "e0");
     ("srcpos", JString "0.15"); ("dstpos", JString "0.85");
     ("width", JString ""); ("labelpos", JString ""); ("stub", JString "");
     ("curviness", JString ""); ("beziercurviness", JString "");
     ("round", JString ""); ("midpoint", JString "")].

(** The linked lab on the professional edition, with a topology listing. *)
Definition styled_lab (topology : list (gmap string jsonv)) : Lab :=
  {| lab_networks := lab_networks linked_lab;
     lab_nodes := lab_nodes linked_lab;
     lab_topology := topology;
     lab_pro := true |}.

(** Counting the calls of a log that satisfy a test. *)
Definition count_calls `{F32 : Float32} (f : Call -> bool) (calls : list Call) : nat :=
  length (List.filter f calls).

(** The binder call that binds [port] of [node] to [net] (0 unbinds). *)
Definition is_bind_of `{F32 : Float32} (lab : string) (node : Z) (port : string)
  (net : Z) (c : Call) : bool :=
  match c with
  | CallUpdateNodeInterfaceName l n p k =>
      bool_decide (l = lab /\ n = node /\ p = port /\ k = net)
  | _ => false
  end.

(** ** Call classes and run specifications *)

(** Calls that look a network up or change one. *)
Definition is_network_call `{F32 : Float32} (c : Call) : bool :=
  match c with
  | CallGetNetwork _ _ | CallCreateNetwork _ _ | CallUpdateNetwork _ _
  | CallDeleteNetwork _ _ => true
  | _ => false
  end.

(** Calls of the style synchroniser. *)
Definition is_style_call `{F32 : Float32} (c : Call) : bool :=
  match c with
  | CallUpdateNodeInterfaceStyleByName _ _ _ _ | CallGetTopology _ => true
  | _ => false
  end.

Definition is_network_removal `{F32 : Float32} (c : Call) : bool :=
  match c with CallDeleteNetwork _ _ => true | _ => false end.

Definition is_network_creation `{F32 : Float32} (c : Call) : bool :=
  match c with CallCreateNetwork _ _ => true | _ => false end.

(** A run specification: whatever the remote world, every call of the log
    satisfies [Pc] and the outcome satisfies [R]. *)
Definition runs `{F32 : Float32} {W A : Type} (m : M (W := W) A)
  (Pc : Call -> Prop) (R : outcome A -> Prop) : Prop :=
  forall w : W, Forall Pc (calls_of (m w)) /\ R (outcome_of (m w)).

(** A run specification from the remote worlds that satisfy [I]: every call
    of the log satisfies [Pc], and the world the run ends in and its outcome
    satisfy [R]. *)
Definition runs_in `{F32 : Float32} {W A : Type} (I : W -> Prop)
  (m : M (W := W) A) (Pc : Call -> Prop) (R : W -> outcome A -> Prop) : Prop :=
  forall w : W,
    I w -> Forall Pc (calls_of (m w)) /\ R (world_of (m w)) (outcome_of (m w)).



(** What the read path makes of a string attribute: the attribute when it
    is a non-empty string, the default otherwise. *)
Definition attribute_or (x : option jsonv) (default : string) : string :=
  match x with
  | Some (JString s) => if String.eqb s "" then default else s
  | _ => default
  end.

(** The attributes the read path asserts to be strings without a check. *)
Definition asserted_attributes : list string :=
  ["srcpos"; "dstpos"; "width"; "labelpos"; "stub"; "curviness";
   "beziercurviness"; "round"; "midpoint"].

(** The range of Go's [int32]. *)
Definition int32_range (z : Z) : Prop := - 2 ^ 31 <= z < 2 ^ 31.

(** ** The topology data source: [harmonizeMaps]

    The maps of the listing are distinct objects (the JSON decoder makes one
    per entry), so a write to one is seen through its own slot only. *)

(** [for k, _ := range m2 { if _, ok := m[k]; !ok { m[k] = "" } }] *)
Definition fill_missing (m m2 : gmap string jsonv) : gmap string jsonv :=
  map_fold (fun k _ acc =>
              match acc !! k with
              | Some _ => acc
              | None => <[k := JString ""]> acc
              end) m m2.

(** The loop [for d, m2 := range maps] at outer index [i], from inner index
    [d] on: every map but the [i]-th fills [m]. *)
Fixpoint fill_from_others (i d : nat) (maps : list (gmap string jsonv))
  (m : gmap string jsonv) : gmap string jsonv :=
  match maps with
  | [] => m
  | m2 :: rest =>
      fill_from_others i (S d) rest
        (if decide (i = d) then m else fill_missing m m2)
  end.

(** The loop [for i, m := range maps] from index [i] on, [n] rounds: the
    map in slot [i] is filled in place. *)
Fixpoint harmonize_from (i n : nat) (maps : list (gmap string jsonv))
  : list (gmap string jsonv) :=
  match n with
  | O => maps
  | S n' =>
      harmonize_from (S i) n'
        (match maps !! i with
         | Some m => <[i := fill_from_others i 0 maps m]> maps
         | None => maps
         end)
  end.

(** [harmonizeMaps] *)
Definition harmonizeMaps (maps : list (gmap string jsonv))
  : list (gmap string jsonv) :=
  if (length maps =? 0)%nat then maps
  else harmonize_from 0 (length maps) maps.

(** The keys that occur in some map of a listing. *)
Definition all_keys (maps : list (gmap string jsonv)) : gset string :=
  ⋃ (dom <$> maps).

(** A map with the empty string under every key of [keys] it lacks. *)
Definition padded (keys : gset string) (m : gmap string jsonv)
  : gmap string jsonv :=
  m ∪ gset_to_gmap (JString "") keys.

(** ** Code that talks to the other services of the client

    The resources below use neither styles nor panics; they run in a plain
    state-and-log monad over their own calls. *)

Section Effects.

Context {E W : Type}.

Definition Eff (A : Type) : Type := W -> W * list E * A.

Definition eret {A} (a : A) : Eff A := fun w => (w, [], a).

Definition ebind {A B} (m : Eff A) (f : A -> Eff B) : Eff B :=
  fun w =>
    match m w with
    | (w1, l1, a) =>
        match f a w1 with
        | (w2, l2, b) => (w2, l1 ++ l2, b)
        end
    end.

Definition ecall {A} (c : E) (f : W -> W * A) : Eff A :=
  fun w => match f w with (w', a) => (w', [c], a) end.

End Effects.

Arguments Eff : clear implicits.

Notation "x <~ m ;; k" := (ebind m (fun x => k))
  (at level 100, m at next level, right associativity).

(** What an entry point does to the state it answers with. *)
Inductive action (S : Type) : Type :=
| Keep
| Put (state : S)
| Remove.
Arguments Keep {S}.
Arguments Put {S} state.
Arguments Remove {S}.

Record reply (S : Type) : Type := {
  errors : list (string * string);
  action_of : action S
}.
Arguments errors {S} r.
Arguments action_of {S} r.

Definition failure {S} (summary detail : string) : reply S :=
  {| errors := [(summary, detail)]; action_of := Keep |}.

Definition put {S} (s : S) : reply S :=
  {| errors := []; action_of := Put s |}.

(** More of the SDK's data. *)
Module sdk.

(** The answer of [GetAuth]: the lab the session has open, empty if none. *)
Record Auth : Type := { Lab : string }.

(** [evengsdk.Lab]; [Version] is held as the text its [String()] gives. *)
Record LabInfo : Type := {
  Id : string;
  Name : string;
  Filename : string;
  Version : string;
  Author : string;
  Body : string;
  Description : string
}.

End sdk.

(** *** Starting the nodes of a lab ([start_nodes_resource.go]) *)

Inductive LabCall : Type :=
| CallGetAuth
| CallStopNodes (labPath : string)
| CallCloseLab
| CallSleep (seconds : Z)
| CallStartNodes (labPath : string)
| CallNow
| CallGetLab (path : string)
| CallMoveLab (path folder : string).

(** The lab operations of the client, the clock and [time.Sleep]. *)
Class LabService (W : Type) : Type := {
  svc_GetAuth : W -> W * result sdk.Auth;
  svc_StopNodes : string -> W -> W * error;
  svc_CloseLab : W -> W * error;
  svc_StartNodes : string -> W -> W * error;
  svc_Sleep : Z -> W -> W;
  svc_Now : W -> Z;
  svc_GetLab : string -> W -> W * result sdk.LabInfo;
  svc_MoveLab : string -> string -> W -> W * error
}.

Module startnodes.

Record startNodesResourceModel : Type := {
  LabPath : tfvalue string;
  StartTime : tfvalue Z
}.

Section Code.

Context {W : Type} `{SVC : !LabService W}.

(** The loop [for i := 0; i < tries; i++ { err = CloseLab(); Sleep(delay) }]:
    [err] is overwritten by every round. *)
Fixpoint close_rounds (tries : nat) (delay : Z) (err : error)
  : Eff LabCall W error :=
  match tries with
  | O => eret err
  | S n =>
      err <~ ecall CallCloseLab svc_CloseLab ;;
      _ <~ ecall (CallSleep delay) (fun w => (svc_Sleep delay w, tt)) ;;
      close_rounds n delay err
  end.

(** The world after one round of that loop. *)
Definition close_round (delay : Z) (w : W) : W :=
  svc_Sleep delay (fst (svc_CloseLab w)).

(** [StartLab] *)
Definition StartLab (model : startNodesResourceModel)
  : Eff LabCall W (Z * error) :=
  r <~ ecall CallGetAuth svc_GetAuth ;;
  match r with
  | Err e => eret (0, Some e)
  | Ok currentLab =>
      let other :=
        negb (String.eqb (sdk.Lab currentLab) (ValueString (LabPath model)))
        && negb (String.eqb (sdk.Lab currentLab) "") in
      err <~ (if other
              then ecall (CallStopNodes (sdk.Lab currentLab))
                     (svc_StopNodes (sdk.Lab currentLab))
              else eret None) ;;
      match err with
      | Some e => eret (0, Some ("Failed to stop nodes: " +:+ e))
      | None =>
          let tries := 5%nat in
          let delay := 15 in
          let tries :=
            if String.eqb (sdk.Lab currentLab) (ValueString (LabPath model))
               || String.eqb (sdk.Lab currentLab) ""
            then 0%nat else tries in
          err <~ close_rounds tries delay None ;;
          match err with
          | Some e => eret (0, Some ("Failed to close lab: " +:+ e))
          | None =>
              err <~ ecall (CallStartNodes (ValueString (LabPath model)))
                       (svc_StartNodes (ValueString (LabPath model))) ;;
              match err with
              | Some e => eret (0, Some ("Failed to start nodes: " +:+ e))
              | None =>
                  now <~ ecall CallNow (fun w => (w, svc_Now w)) ;;
                  eret (now, None)
              end
          end
      end
  end.

(** [Create] (and [Update], which has the same body) *)
Definition Create (plan : startNodesResourceModel)
  : Eff LabCall W (reply startNodesResourceModel) :=
  r <~ ecall (CallGetLab (ValueString (LabPath plan)))
         (svc_GetLab (ValueString (LabPath plan))) ;;
  match r with
  | Err e => eret (failure "Failed to read lab" e)
  | Ok _ =>
      r <~ StartLab plan ;;
      match r with
      | (_, Some e) => eret (failure "Failed to start nodes" e)
      | (startTime, None) =>
          eret (put {| LabPath := LabPath plan;
                       StartTime := Known startTime |})
      end
  end.

(** [Read]: no call; the start time is forgotten. *)
Definition Read (state : startNodesResourceModel)
  : Eff LabCall W (reply startNodesResourceModel) :=
  eret (put {| LabPath := LabPath state; StartTime := Null |}).

End Code.

End startnodes.

(** *** Moving and reading a lab ([lab_resource.go]) *)

Module labresource.

Record labResourceModel : Type := {
  FolderPath : tfvalue string;
  Path : tfvalue string;
  Author : tfvalue string;
  Body : tfvalue string;
  Description : tfvalue string;
  Filename : tfvalue string;
  Name : string;
  Version : tfvalue string;
  Id : tfvalue string
}.

Definition set_Path (m : labResourceModel) (v : tfvalue string) :=
  {| FolderPath := FolderPath m; Path := v; Author := Author m;
     Body := Body m; Description := Description m; Filename := Filename m;
     Name := Name m; Version := Version m; Id := Id m |}.

(** [stringToBasetype] *)
Definition stringToBasetype (s : string) : tfvalue string :=
  if String.eqb s "" then Null else Known s.

Section Code.

Context {W : Type} `{SVC : !LabService W}.

(** [MoveLab]: the state as the call leaves it, and the error. *)
Definition MoveLab (plan state : labResourceModel)
  : Eff LabCall W (labResourceModel * error) :=
  if negb (String.eqb (ValueString (FolderPath plan))
             (ValueString (FolderPath state)))
  then
    let path := ValueString (FolderPath plan) +:+ "/" +:+ Name state +:+ ".unl" in
    r <~ ecall (CallGetLab (ValueString (FolderPath plan) +:+ "/" +:+ Name state
                            +:+ ".unl"))
           (svc_GetLab (ValueString (FolderPath plan) +:+ "/" +:+ Name state
                        +:+ ".unl")) ;;
    match r with
    | Ok otherLab =>
        if negb (String.eqb (sdk.Id otherLab) (ValueString (Id state)))
        then eret (state, Some "Lab already exists in the new folder")
        else eret (set_Path state (Known path), None)
    | Err _ =>
        err <~ ecall (CallMoveLab (ValueString (Path state))
                        (ValueString (FolderPath plan)))
                 (svc_MoveLab (ValueString (Path state))
                    (ValueString (FolderPath plan))) ;;
        match err with
        | Some e => eret (state, Some e)
        | None => eret (set_Path state (Known path), None)
        end
    end
  else eret (state, None).

(** [Read] *)
Definition Read (state : labResourceModel)
  : Eff LabCall W (reply labResourceModel) :=
  r <~ ecall (CallGetLab (ValueString (Path state)))
         (svc_GetLab (ValueString (Path state))) ;;
  match r with
  | Err _ => eret {| errors := []; action_of := Remove |}
  | Ok lab =>
      eret (put {| FolderPath := FolderPath state;
                   Path := Path state;
                   Author := stringToBasetype (sdk.Author lab);
                   Body := stringToBasetype (sdk.Body lab);
                   Description := stringToBasetype (sdk.Description lab);
                   Filename := Known (sdk.Filename lab);
                   Name := Name state;
                   Version := Known (sdk.Version lab);
                   Id := Id state |})
  end.

End Code.

End labresource.
(** *** Provider configuration ([provider.go]) *)

Module provider.

Record EvengProviderModel : Type := {
  Host : tfvalue string;
  Username : tfvalue string;
  Password : tfvalue string
}.

(** The three variables [Configure] reads with [os.Getenv]; an unset
    variable reads as the empty string. *)
Record Environment : Type := {
  EVE_HOST : string;
  EVE_USER : string;
  EVE_PASSWORD : string
}.

(** A diagnostic: the attribute it is attached to, if any, its summary and
    its detail. *)
Record Diagnostic : Type := {
  attribute : option string;
  summary : string;
  detail : string
}.

Definition AddAttributeError (root summary detail : string) : Diagnostic :=
  {| attribute := Some root; summary := summary; detail := detail |}.

Definition unknown_detail (what variable : string) : string :=
  "The provider cannot create the Eveng API client as there is an unknown configuration value for the Eveng API "
  +:+ what +:+ ". "
  +:+ "Either target apply the source of the value first, set the value statically in the configuration, or use the "
  +:+ variable +:+ " environment variable.".

Definition missing_detail (what variable : string) : string :=
  "The provider cannot create the Eveng API client as there is a missing or empty value for the Eveng API "
  +:+ what +:+ ". "
  +:+ "Set the " +:+ what +:+ " value in the configuration or use the "
  +:+ variable +:+ " environment variable. "
  +:+ "If either is already set, ensure the value is not empty.".

(** What [Configure] leaves in [resp]: the diagnostics and the client made
    available to data sources and resources, if any ([DataSourceData] and
    [ResourceData] are set to the same client). *)
Record ConfigureResponse (C : Type) : Type := {
  Diagnostics : list Diagnostic;
  ResourceData : option C
}.
Arguments Diagnostics {C} c.
Arguments ResourceData {C} c.

Section Code.

Context {C : Type}.

(** [evengsdk.NewBasicAuthClient(username, password, "0", host)] *)
Variable NewBasicAuthClient : string -> string -> string -> string -> result C.

(** [Configure] *)
Definition Configure (config : EvengProviderModel) (env : Environment)
  : ConfigureResponse C :=
  let unknown :=
    (if IsUnknown (Host config)
     then [AddAttributeError "host" "Unknown Eveng API Host"
             (unknown_detail "host" "EVE_HOST")]
     else [])
    ++ (if IsUnknown (Username config)
        then [AddAttributeError "username" "Unknown Eveng API Username"
                (unknown_detail "username" "EVE_USER")]
        else [])
    ++ (if IsUnknown (Password config)
        then [AddAttributeError "password" "Unknown Eveng API Password"
                (unknown_detail "password" "EVE_PASSWORD")]
        else []) in
  match unknown with
  | _ :: _ => {| Diagnostics := unknown; ResourceData := None |}
  | [] =>
      let host := EVE_HOST env in
      let username := EVE_USER env in
      let password := EVE_PASSWORD env in
      let host :=
        if negb (IsNull (Host config)) then ValueString (Host config) else host in
      let username :=
        if negb (IsNull (Username config)) then ValueString (Username config)
        else username in
      let password :=
        if negb (IsNull (Password config)) then ValueString (Password config)
        else password in
      let missing :=
        (if String.eqb host ""
         then [AddAttributeError "host" "Missing Eveng API Host"
                 (missing_detail "host" "EVE_HOST")]
         else [])
        ++ (if String.eqb username ""
            then [AddAttributeError "username" "Missing Eveng API Username"
                    (missing_detail "username" "EVE_USER")]
            else [])
        ++ (if String.eqb password ""
            then [AddAttributeError "password" "Missing Eveng API Password"
                    (missing_detail "password" "EVE_PASSWORD")]
            else []) in
      match missing with
      | _ :: _ => {| Diagnostics := missing; ResourceData := None |}
      | [] =>
          match NewBasicAuthClient username password "0" host with
          | Err e =>
              {| Diagnostics :=
                   [{| attribute := None;
                       summary := "Unable to create Eveng API client";
                       detail :=
                         "An error occurred while creating the Eveng API client. Please check the configuration values and try again."
                         +:+ String (ascii_of_nat 10) (String (ascii_of_nat 10) "")
                         +:+ "Eveng Client Error: " +:+ e |}];
                 ResourceData := None |}
          | Ok client => {| Diagnostics := []; ResourceData := Some client |}
          end
      end
  end.

End Code.

(** The value [Configure] settles on for an attribute: the configured one
    unless it is null, the environment's otherwise. *)
Definition resolved (configured : tfvalue string) (from_env : string) : string :=
  if IsNull configured then from_env else ValueString configured.

End provider.

(** *** The network resource ([network_resource.go]) *)

Inductive NetCall : Type :=
| NetGetNetwork (labPath : string) (networkId : Z)
| NetCreateNetwork (labPath : string) (network : evengsdk.Network)
| NetUpdateNetwork (labPath : string) (network : evengsdk.Network)
| NetDeleteNetwork (labPath : string) (networkId : Z).

(** The network operations of the client; here [GetNetwork]'s record is
    read. *)
Class NetworkService (W : Type) : Type := {
  net_GetNetwork : string -> Z -> W -> W * result evengsdk.Network;
  net_CreateNetwork :
    string -> evengsdk.Network -> W -> W * (evengsdk.Network * error);
  net_UpdateNetwork :
    string -> evengsdk.Network -> W -> W * (evengsdk.Network * error);
  net_DeleteNetwork : string -> Z -> W -> W * error
}.

Module netresource.

Record NetworkResourceModel : Type := {
  LabPath : tfvalue string;
  Id : tfvalue Z;
  Left : tfvalue Z;
  Name : tfvalue string;
  Top : tfvalue Z;
  Type_ : tfvalue string;
  Icon : tfvalue string
}.

(** [NewNode]: an attribute is copied unless it is unknown; the visibility
    flag is always "1". *)
Definition NewNode (model : NetworkResourceModel) : evengsdk.Network :=
  {| evengsdk.Id := if negb (IsUnknown (Id model)) then ValueInt64 (Id model) else 0;
     evengsdk.Left :=
       if negb (IsUnknown (Left model)) then ValueInt64 (Left model) else 0;
     evengsdk.Top :=
       if negb (IsUnknown (Top model)) then ValueInt64 (Top model) else 0;
     evengsdk.Name :=
       if negb (IsUnknown (Name model)) then ValueString (Name model) else "";
     evengsdk.Type_ :=
       if negb (IsUnknown (Type_ model)) then ValueString (Type_ model) else "";
     evengsdk.Visibility := "1";
     evengsdk.Icon :=
       if negb (IsUnknown (Icon model)) then ValueString (Icon model) else "" |}.

Section Code.

Context {W : Type} `{NET : !NetworkService W}.

(** [NewModel]: on a failed lookup the model holds the lab path and the id
    only. *)
Definition NewModel (labPath : string) (netId : Z)
  : Eff NetCall W (NetworkResourceModel * error) :=
  r <~ ecall (NetGetNetwork labPath netId) (net_GetNetwork labPath netId) ;;
  match r with
  | Err e =>
      eret ({| LabPath := Known labPath; Id := Known netId; Left := Null;
               Name := Null; Top := Null; Type_ := Null; Icon := Null |},
            Some e)
  | Ok net =>
      eret ({| LabPath := Known labPath;
               Id := Known netId;
               Left := Known (evengsdk.Left net);
               Name := Known (evengsdk.Name net);
               Top := Known (evengsdk.Top net);
               Type_ := Known (evengsdk.Type_ net);
               Icon := Known (evengsdk.Icon net) |},
            None)
  end.

(** [Create] *)
Definition Create (plan : NetworkResourceModel)
  : Eff NetCall W (reply NetworkResourceModel) :=
  let network := NewNode plan in
  r <~ ecall (NetCreateNetwork (ValueString (LabPath plan)) network)
         (net_CreateNetwork (ValueString (LabPath plan)) network) ;;
  match r with
  | (_, Some e) => eret (failure "Unable to create network" e)
  | (network, None) =>
      r <~ NewModel (ValueString (LabPath plan)) (evengsdk.Id network) ;;
      match r with
      | (_, Some e) => eret (failure "Unable to read network" e)
      | (rnet, None) => eret (put rnet)
      end
  end.

(** [Read] *)
Definition Read (state : NetworkResourceModel)
  : Eff NetCall W (reply NetworkResourceModel) :=
  r <~ NewModel (ValueString (LabPath state)) (ValueInt64 (Id state)) ;;
  match r with
  | (_, Some _) => eret {| errors := []; action_of := Remove |}
  | (rnet, None) => eret (put rnet)
  end.

(** [Update] *)
Definition Update (plan state : NetworkResourceModel)
  : Eff NetCall W (reply NetworkResourceModel) :=
  let network := set_Id (NewNode plan) (ValueInt64 (Id state)) in
  r <~ ecall (NetUpdateNetwork (ValueString (LabPath plan)) network)
         (net_UpdateNetwork (ValueString (LabPath plan)) network) ;;
  match r with
  | (_, Some e) => eret (failure "Failed to update network" e)
  | (network, None) =>
      r <~ NewModel (ValueString (LabPath plan)) (evengsdk.Id network) ;;
      match r with
      | (_, Some e) => eret (failure "Failed to read network" e)
      | (rnet, None) => eret (put rnet)
      end
  end.

(** [Delete] *)
Definition Delete (state : NetworkResourceModel)
  : Eff NetCall W (reply NetworkResourceModel) :=
  err <~ ecall (NetDeleteNetwork (ValueString (LabPath state))
                  (ValueInt64 (Id state)))
           (net_DeleteNetwork (ValueString (LabPath state))
              (ValueInt64 (Id state))) ;;
  match err with
  | Some e => eret (failure "Failed to delete network" e)
  | None => eret {| errors := []; action_of := Keep |}
  end.

End Code.

End netresource.

(** ** More reference systems *)

(** The lab behind a server of the community edition, whatever the lab
    records as its edition. *)
Definition community_client `{F32 : Float32} : Client Lab :=
  {| remote_GetNetwork := lab_GetNetwork;
     remote_CreateNetwork := lab_CreateNetwork;
     remote_UpdateNetwork := lab_UpdateNetwork;
     remote_DeleteNetwork := lab_DeleteNetwork;
     remote_GetNode := lab_GetNode;
     remote_GetNodeInterface := lab_GetNodeInterface;
     remote_UpdateNodeInterfaceName := lab_UpdateNodeInterfaceName;
     remote_UpdateNodeInterfaceStyleByName :=
       fun _ _ _ _ w => (w, Some "not supported");
     remote_GetTopology := fun _ w => (lab_topology w, None);
     remote_IsPro := fun _ => false |}.

(** A style as a configuration declares one, floats erased. *)
Definition dashed_style : StyleResourceModel (F32 := erased_float32) :=
  let position := ParseFloat32 (Float32 := erased_float32) in
  {| Style_ := Known "Dashed"; Color := Known "#ff0000";
     SrcPos := Known (position "0.15"); DstPos := Known (position "0.85");
     LinkStyle := Known "Bezier"; Width := Known 2; Label := Known "uplink";
     LabelPos := Known (position "0.5"); Stub := Known 0;
     Curviness := Known 10; BezierCurviness := Known 150; Round := Known 0;
     Midpoint := Known (position "0.5") |}.

(** The persisted link between the e0 ports, with that style. *)
Definition styled_link : NodeLinkResourceModel (F32 := erased_float32) :=
  set_Style (linked_state "e0" "e0") (Some dashed_style).

(** The entry of [unstyled_entry] for another node. *)
Definition foreign_entry : gmap string jsonv :=
  <["source" := JString "node7"]> unstyled_entry.

(** Two entries of a topology listing with different attributes. *)
Definition ethernet_entry : gmap string jsonv :=
  list_to_map [("id", JString "1"); ("type", JString "ethernet")].

Definition coloured_entry : gmap string jsonv :=
  list_to_map [("id", JString "2"); ("color", JString "red")].

(** The network operations on the reference lab, with the record of
    [GetNetwork]. *)
Definition lab_network_service : NetworkService Lab :=
  {| net_GetNetwork := fun _ id w =>
       (w, match find (fun n => evengsdk.Id n =? id) (lab_networks w) with
           | Some n => Ok n
           | None => Err "network not found"
           end);
     net_CreateNetwork := lab_CreateNetwork;
     net_UpdateNetwork := lab_UpdateNetwork;
     net_DeleteNetwork := lab_DeleteNetwork |}.

(** A declared network whose id and icon the server is to choose. *)
Definition lan_plan : netresource.NetworkResourceModel :=
  {| netresource.LabPath := Known "/lab.unl";
     netresource.Id := Unknown;
     netresource.Left := Known 10;
     netresource.Name := Known "lan";
     netresource.Top := Known 20;
     netresource.Type_ := Known "bridge";
     netresource.Icon := Unknown |}.

(** A small executable server for the lab operations: the lab the session
    has open, how many more [CloseLab] calls will fail, the clock and the
    labs by path. *)
Record Server : Type := {
  server_open : string;
  server_busy : nat;
  server_clock : Z;
  server_labs : list (string * sdk.LabInfo)
}.

Fixpoint server_find (path : string) (labs : list (string * sdk.LabInfo))
  : option sdk.LabInfo :=
  match labs with
  | [] => None
  | (p, l) :: rest => if String.eqb p path then Some l else server_find path rest
  end.

Definition server_CloseLab (w : Server) : Server * error :=
  match server_busy w with
  | O =>
      ({| server_open := ""; server_busy := O; server_clock := server_clock w;
          server_labs := server_labs w |}, None)
  | S n =>
      ({| server_open := server_open w; server_busy := n;
          server_clock := server_clock w; server_labs := server_labs w |},
       Some "lab is busy")
  end.

Definition server_MoveLab (path folder : string) (w : Server) : Server * error :=
  match server_find path (server_labs w) with
  | None => (w, Some "lab not found")
  | Some _ =>
      ({| server_open := server_open w; server_busy := server_busy w;
          server_clock := server_clock w;
          server_labs :=
            map (fun '(p, l) =>
                   if String.eqb p path
                   then (folder +:+ "/" +:+ sdk.Name l +:+ ".unl", l)
                   else (p, l)) (server_labs w) |}, None)
  end.

Definition server_service : LabService Server :=
  {| svc_GetAuth := fun w => (w, Ok {| sdk.Lab := server_open w |});
     svc_StopNodes := fun _ w => (w, None);
     svc_CloseLab := server_CloseLab;
     svc_StartNodes := fun path w =>
       ({| server_open := path; server_busy := server_busy w;
           server_clock := server_clock w; server_labs := server_labs w |},
        None);
     svc_Sleep := fun seconds w =>
       {| server_open := server_open w; server_busy := server_busy w;
          server_clock := server_clock w + seconds;
          server_labs := server_labs w |};
     svc_Now := server_clock;
     svc_GetLab := fun path w =>
       (w, match server_find path (server_labs w) with
           | Some l => Ok l
           | None => Err "lab not found"
           end);
     svc_MoveLab := server_MoveLab |}.

(** A lab without author, body or description. *)
Definition bare_lab : sdk.LabInfo :=
  {| sdk.Id := "a1"; sdk.Name := "lab"; sdk.Filename := "lab.unl";
     sdk.Version := "1"; sdk.Author := ""; sdk.Body := "";
     sdk.Description := "" |}.

(** A server at time 1000 that holds that lab under /lab.unl. *)
Definition server_with (open : string) (busy : nat) : Server :=
  {| server_open := open; server_busy := busy; server_clock := 1000;
     server_labs := [("/lab.unl", bare_lab)] |}.

Definition start_lab : startnodes.startNodesResourceModel :=
  {| startnodes.LabPath := Known "/lab.unl"; startnodes.StartTime := Unknown |}.

(** The persisted state of that lab, and the plan that moves it. *)
Definition lab_state (folder : string) : labresource.labResourceModel :=
  {| labresource.FolderPath := Known folder;
     labresource.Path := Known "/lab.unl";
     labresource.Author := Known "someone";
     labresource.Body := Null;
     labresource.Description := Null;
     labresource.Filename := Known "lab.unl";
     labresource.Name := "lab";
     labresource.Version := Known "1";
     labresource.Id := Known "a1" |}.

(** A client constructor: the session it answers names user and host. *)
Definition connect (username password version host : string) : result string :=
  if String.eqb host "unreachable" then Err "dial failed"
  else Ok (username +:+ "@" +:+ host).

Definition lab_environment : provider.Environment :=
  {| provider.EVE_HOST := "eve.example"; provider.EVE_USER := "admin";
     provider.EVE_PASSWORD := "eve" |}.

(** ** Properties *)

Section Properties.

Context `{F32 : Float32} {W : Type} `{CL : !Client W}.

Ltac unfold_client :=
  unfold Network_GetNetwork, Network_CreateNetwork, Network_UpdateNetwork,
    Network_DeleteNetwork, Node_GetNode, Node_GetNodeInterface,
    Node_UpdateNodeInterfaceName, Node_UpdateNodeInterfaceStyleByName,
    Lab_GetTopology, IsPro in *.

Ltac unfold_monad :=
  unfold bind, ret, query, mutate, lift, world_of, calls_of, outcome_of in *.

Ltac run_all := unfold_client; unfold_monad; repeat (case_match; simplify_eq/=).

(** [ensureInterfaceDeleted], case by case on what the remote answers. *)
Lemma ensureInterfaceDeleted_run (labPath : string) (nodeId : Z) (port : string)
  (networkId : Z) (w : W) :
  ensureInterfaceDeleted labPath nodeId port networkId w =
  match remote_GetNodeInterface labPath nodeId port w with
  | Err e => (w, [CallGetNodeInterface labPath nodeId port], Done (Some e))
  | Ok (_, inter) =>
      if evengsdk.NetworkId inter =? networkId then
        (fst (remote_UpdateNodeInterfaceName labPath nodeId port 0 w),
         [CallGetNodeInterface labPath nodeId port;
          CallUpdateNodeInterfaceName labPath nodeId port 0],
         Done (snd (remote_UpdateNodeInterfaceName labPath nodeId port 0 w)))
      else (w, [CallGetNodeInterface labPath nodeId port], Done None)
  end.
Proof.
  unfold ensureInterfaceDeleted. unfold_client. unfold_monad.
  destruct (remote_GetNodeInterface labPath nodeId port w) as [[i inter]|e];
    cbn; [|done].
  destruct (evengsdk.NetworkId inter =? networkId); cbn; [|done].
  destruct (remote_UpdateNodeInterfaceName labPath nodeId port 0 w) as [w' [e|]];
    done.
Qed.

(** Every mutation [ensureInterfaceDeleted] requests is the unbind of its
    own interface, and it is requested only on an observed match. *)
Lemma ensureInterfaceDeleted_mutations (labPath : string) (nodeId : Z)
  (port : string) (networkId : Z) (w : W) (c : Call) :
  In c (calls_of (ensureInterfaceDeleted labPath nodeId port networkId w)) ->
  is_mutation c = true ->
  c = CallUpdateNodeInterfaceName labPath nodeId port 0 /\
  exists i inter,
    remote_GetNodeInterface labPath nodeId port w = Ok (i, inter) /\
    evengsdk.NetworkId inter = networkId.
Proof.
  rewrite ensureInterfaceDeleted_run. unfold calls_of.
  destruct (remote_GetNodeInterface labPath nodeId port w) as [[i inter]|e];
    cbn.
  - destruct (Z.eqb_spec (evengsdk.NetworkId inter) networkId) as [Heq|Hne]; cbn.
    + intros [<-|[<-|[]]] Hm; [discriminate|]. split; [done|]. by exists i, inter.
    + intros [<-|[]] Hm. discriminate.
  - intros [<-|[]] Hm. discriminate.
Qed.

(** The unbind guard never fires against the empty prior state of create. *)
Lemma endpoint_changed_empty (planNode : tfvalue Z) (planPort : tfvalue string) :
  endpoint_changed planNode Null planPort Null = false.
Proof. unfold endpoint_changed. cbn. apply andb_false_r. Qed.

Lemma endpoint_changed_same (node : tfvalue Z) (port : tfvalue string) :
  endpoint_changed node node port port = false.
Proof.
  unfold endpoint_changed. by rewrite Z.eqb_refl, String.eqb_refl.
Qed.

Lemma endpoint_changed_port (node : Z) (port port' : string) :
  node <> 0 -> port' <> port ->
  endpoint_changed (Known node) (Known node) (Known port') (Known port) = true.
Proof.
  intros Hn Hp. unfold endpoint_changed. cbn.
  apply String.eqb_neq in Hp. apply Z.eqb_neq in Hn.
  by rewrite Z.eqb_refl, Hp, Hn.
Qed.

(** Read only observes: the world is left as it was found and no call of
    its log is a mutation. *)
Lemma Read_only_observes (state : NodeLinkResourceModel) (w : W) :
  world_of (Read state w) = w /\
  Forall (fun c => is_mutation c = false) (calls_of (Read state w)).
Proof.
  unfold Read, NewNodeLinkModelNet, NewNodeLinkModelNode, NewStyleModel,
    GetTopologyForTargetNode.
  run_all; split; try done; repeat constructor.
Qed.

(** C3: the conditional unbind helper. A failed interface lookup is returned
    as the error with nothing mutated; an observed binding different from
    the expected previous network id issues no unbind and leaves the world
    as it is; an observed binding equal to it issues the unbind (bind to
    network 0); and whatever mutation the helper requests is that unbind,
    requested only on an observed match. *)
Theorem ensureInterfaceDeleted_unbinds_only_on_match (labPath : string)
  (nodeId : Z) (port : string) (networkId : Z) (w : W) :
  let run := ensureInterfaceDeleted labPath nodeId port networkId w in
  (forall e,
     remote_GetNodeInterface labPath nodeId port w = Err e ->
     run = (w, [CallGetNodeInterface labPath nodeId port], Done (Some e)))
  /\ (forall i inter,
        remote_GetNodeInterface labPath nodeId port w = Ok (i, inter) ->
        evengsdk.NetworkId inter <> networkId ->
        run = (w, [CallGetNodeInterface labPath nodeId port], Done None))
  /\ (forall i inter,
        remote_GetNodeInterface labPath nodeId port w = Ok (i, inter) ->
        evengsdk.NetworkId inter = networkId ->
        run = (fst (remote_UpdateNodeInterfaceName labPath nodeId port 0 w),
               [CallGetNodeInterface labPath nodeId port;
                CallUpdateNodeInterfaceName labPath nodeId port 0],
               Done (snd (remote_UpdateNodeInterfaceName labPath nodeId port 0 w))))
  /\ (forall c,
        In c (calls_of run) -> is_mutation c = true ->
        c = CallUpdateNodeInterfaceName labPath nodeId port 0 /\
        exists i inter,
          remote_GetNodeInterface labPath nodeId port w = Ok (i, inter) /\
          evengsdk.NetworkId inter = networkId).
Proof.
  intros run. subst run. repeat split.
  - intros e He. by rewrite ensureInterfaceDeleted_run, He.
  - intros i inter Hi Hne. rewrite ensureInterfaceDeleted_run, Hi.
    apply Z.eqb_neq in Hne. by rewrite Hne.
  - intros i inter Hi Heq. rewrite ensureInterfaceDeleted_run, Hi.
    apply Z.eqb_eq in Heq. by rewrite Heq.
  - eapply ensureInterfaceDeleted_mutations; eauto.
  - eapply ensureInterfaceDeleted_mutations; eauto.
Qed.

(** C5: a declaration whose source node id equals its target node id is
    rejected by create and by update with the self-link error, with an
    empty call log and the remote world untouched. *)
Theorem self_link_rejected_before_any_call (plan state : NodeLinkResourceModel)
  (w : W) :
  ValueInt64 (SourceNodeId plan) = ValueInt64 (TargetNodeId plan) ->
  Create plan w =
    (w, [], Done (failed "Cannot link a node to itself"
                    "source and target node IDs are the same"))
  /\ Update plan state w =
       (w, [], Done (failed "Cannot link a node to itself"
                       "source and target node IDs are the same")).
Proof.
  intros Heq. unfold Create, Update. rewrite Heq, Z.eqb_refl. done.
Qed.

(** C6: when the create path (either shape) completes without error on
    network id 0, create answers the fatal "network ID is 0" error, makes no
    further call and leaves the state unset; and every state create sets
    carries a known network id different from 0. *)
Theorem create_never_persists_zero_network_id (plan : NodeLinkResourceModel)
  (w : W) :
  (forall w1 calls,
     ValueInt64 (SourceNodeId plan) <> ValueInt64 (TargetNodeId plan) ->
     (if negb (IsUnknown (NetworkId plan))
      then MakeNodeLinkNet plan emptyModel
      else MakeNodeLinkNode plan emptyModel) w = (w1, calls, Done (0, None)) ->
     Create plan w =
       (w1, calls, Done (failed "Failed to create node link" "network ID is 0")))
  /\ (forall resp state,
        outcome_of (Create plan w) = Done resp ->
        State resp = SetState state ->
        Diagnostics resp = [] /\
        exists id, NetworkId state = Known id /\ id <> 0).
Proof.
  split.
  - intros w1 calls Hne Hpath. unfold Create.
    apply Z.eqb_neq in Hne. rewrite Hne.
    unfold bind at 1. rewrite Hpath. cbn. by rewrite app_nil_r.
  - intros resp state. unfold Create.
    destruct (ValueInt64 (SourceNodeId plan) =? ValueInt64 (TargetNodeId plan));
      [cbn; intros; simplify_eq/=|].
    unfold bind at 1.
    destruct ((if negb (IsUnknown (NetworkId plan))
               then MakeNodeLinkNet plan emptyModel
               else MakeNodeLinkNode plan emptyModel) w)
      as [[w1 l1] [[id [e|]]|]]; cbn; try (intros; simplify_eq/=; fail).
    destruct (Z.eqb_spec id 0) as [->|Hid]; cbn; [intros; simplify_eq/=|].
    unfold bind at 1.
    destruct (syncStyle plan w1) as [[w2 l2] [plan'|]]; cbn;
      [|intros; simplify_eq/=].
    intros ? ?; simplify_eq/=. split; [done|]. by exists id.
Qed.

(** C8: delete. With the persisted network id unknown (the unresolved
    placeholder) nothing is called. For a node-to-node link the run is the
    one deletion of its network, reported if it fails. For a node-to-network
    link no network is created, changed or deleted; the run is that of the
    conditional unbind of the source interface: a failed lookup is reported
    and nothing changes, an interface observed on another network is left
    alone, and an interface observed on the persisted network is unbound
    (bound to network 0), the failure of the unbind being reported. Any
    mutation is that unbind. *)
Theorem Delete_remote_effects (state : NodeLinkResourceModel) (w : W) :
  let lab := ValueString (LabPath state) in
  let N := ValueInt64 (NetworkId state) in
  let sn := ValueInt64 (SourceNodeId state) in
  let sp := ValueString (SourcePort state) in
  let kept := {| Diagnostics := []; State := Untouched |} in
  let answer (err : error) :=
    match err with
    | Some e => failed "Failed to delete node link" e
    | None => kept
    end in
  (IsUnknown (NetworkId state) = true ->
     Delete state w = (w, [], Done kept))
  /\ (IsUnknown (NetworkId state) = false ->
      IsNull (TargetNodeId state) = false ->
      calls_of (Delete state w) = [CallDeleteNetwork lab N]
      /\ Delete state w =
           ((remote_DeleteNetwork lab N w).1, [CallDeleteNetwork lab N],
            Done (answer (remote_DeleteNetwork lab N w).2)))
  /\ (IsUnknown (NetworkId state) = false ->
      IsNull (TargetNodeId state) = true ->
      let unbind := ensureInterfaceDeleted lab sn sp N w in
      calls_of (Delete state w) = calls_of unbind
      /\ world_of (Delete state w) = world_of unbind
      /\ Forall (fun c => is_network_mutation c = false) (calls_of (Delete state w))
      /\ (forall c,
            In c (calls_of (Delete state w)) -> is_mutation c = true ->
            c = CallUpdateNodeInterfaceName lab sn sp 0
            /\ exists i inter,
                 remote_GetNodeInterface lab sn sp w = Ok (i, inter)
                 /\ evengsdk.NetworkId inter = N)
      /\ (forall e,
            remote_GetNodeInterface lab sn sp w = Err e ->
            Delete state w =
              (w, [CallGetNodeInterface lab sn sp],
               Done (failed "Failed to delete node link" e)))
      /\ (forall i inter,
            remote_GetNodeInterface lab sn sp w = Ok (i, inter) ->
            evengsdk.NetworkId inter <> N ->
            Delete state w = (w, [CallGetNodeInterface lab sn sp], Done kept))
      /\ (forall i inter,
            remote_GetNodeInterface lab sn sp w = Ok (i, inter) ->
            evengsdk.NetworkId inter = N ->
            Delete state w =
              ((remote_UpdateNodeInterfaceName lab sn sp 0 w).1,
               [CallGetNodeInterface lab sn sp;
                CallUpdateNodeInterfaceName lab sn sp 0],
               Done (answer (remote_UpdateNodeInterfaceName lab sn sp 0 w).2)))).
Proof.
  intros lab N sn sp kept answer. subst lab N sn sp kept answer.
  split; [|split].
  - intros Hu. unfold Delete. by rewrite Hu.
  - intros Hu Hn. unfold Delete. rewrite Hu, Hn. cbn [negb].
    unfold Network_DeleteNetwork, bind, mutate, ret, calls_of.
    by destruct (remote_DeleteNetwork _ _ w) as [w1 [e|]].
  - intros Hu Hn unbind.
    assert (Hrun : Delete state w =
                   (world_of unbind, calls_of unbind,
                    match outcome_of unbind with
                    | Done (Some e) => Done (failed "Failed to delete node link" e)
                    | Done None =>
                        Done {| Diagnostics := []; State := Untouched |}
                    | Panic => Panic
                    end)).
    { subst unbind. unfold Delete. rewrite Hu, Hn. cbn [negb].
      unfold bind, calls_of, world_of, outcome_of.
      destruct (ensureInterfaceDeleted _ _ _ _ w) as [[w1 l1] [[e|]|]];
        cbn [ret fst snd]; by rewrite ?app_nil_r. }
    rewrite Hrun. unfold calls_of at 1 3 4, world_of at 1. cbn [fst snd].
    split; [done|]. split; [done|]. split; [|split; [|split; [|split]]].
    + subst unbind. rewrite ensureInterfaceDeleted_run. unfold calls_of.
      repeat case_match; cbn; repeat constructor.
    + intros c Hin Hmut. eapply ensureInterfaceDeleted_mutations; eauto.
    + intros e He. subst unbind. rewrite ensureInterfaceDeleted_run, He. done.
    + intros i inter Hi Hne. apply Z.eqb_neq in Hne.
      subst unbind. rewrite ensureInterfaceDeleted_run, Hi, Hne. done.
    + intros i inter Hi Heq. apply Z.eqb_eq in Heq.
      subst unbind. rewrite ensureInterfaceDeleted_run, Hi, Heq.
      unfold world_of, calls_of, outcome_of. cbn [fst snd].
      by destruct (remote_UpdateNodeInterfaceName _ _ _ 0 w) as [w1 [e|]].
Qed.

(** C2: drift detection on a binding mismatch. Node-to-network: the source
    port of the model is cleared, no error is returned, and a read that
    completes sets a state with the cleared port and no diagnostic.
    Node-to-node: a source mismatch makes read fail with the error naming
    the source port, a target mismatch with the error naming the target
    port. In every case read leaves the remote world as it found it and
    requests no mutation. *)
Theorem Read_binding_mismatch (state : NodeLinkResourceModel) (w : W) :
  let lab := ValueString (LabPath state) in
  let N := ValueInt64 (NetworkId state) in
  let sn := ValueInt64 (SourceNodeId state) in
  let sp := ValueString (SourcePort state) in
  let tn := ValueInt64 (TargetNodeId state) in
  let tp := ValueString (TargetPort state) in
  (IsNull (TargetNodeId state) = true ->
   remote_GetNetwork lab N w = None ->
   remote_GetNode lab sn w = None ->
   sp <> "" ->
   forall i inter,
     remote_GetNodeInterface lab sn sp w = Ok (i, inter) ->
     evengsdk.NetworkId inter <> N ->
     NewNodeLinkModelNet state w =
       (w, [CallGetNetwork lab N; CallGetNode lab sn;
            CallGetNodeInterface lab sn sp],
        Done (set_SourcePort state (Known ""), None, false))
     /\ (forall resp,
           outcome_of (Read state w) = Done resp ->
           Diagnostics resp = [] /\
           exists state',
             State resp = SetState state' /\ SourcePort state' = Known ""))
  /\ (IsNull (TargetNodeId state) = false ->
      remote_GetNetwork lab N w = None ->
      remote_GetNode lab sn w = None ->
      remote_GetNode lab tn w = None ->
      forall i inter,
        remote_GetNodeInterface lab sn sp w = Ok (i, inter) ->
        evengsdk.NetworkId inter <> N ->
        Read state w =
          (w, [CallGetNetwork lab N; CallGetNode lab sn; CallGetNode lab tn;
               CallGetNodeInterface lab sn sp],
           Done (failed "Failed to read node link"
                   ("source port " +:+ sp +:+ " is not connected to network "
                    +:+ Itoa N))))
  /\ (IsNull (TargetNodeId state) = false ->
      remote_GetNetwork lab N w = None ->
      remote_GetNode lab sn w = None ->
      remote_GetNode lab tn w = None ->
      forall i inter j inter',
        remote_GetNodeInterface lab sn sp w = Ok (i, inter) ->
        evengsdk.NetworkId inter = N ->
        remote_GetNodeInterface lab tn tp w = Ok (j, inter') ->
        evengsdk.NetworkId inter' <> N ->
        Read state w =
          (w, [CallGetNetwork lab N; CallGetNode lab sn; CallGetNode lab tn;
               CallGetNodeInterface lab sn sp; CallGetNodeInterface lab tn tp],
           Done (failed "Failed to read node link"
                   ("target port " +:+ tp +:+ " is not connected to network "
                    +:+ Itoa N))))
  /\ world_of (Read state w) = w
  /\ Forall (fun c => is_mutation c = false) (calls_of (Read state w)).
Proof.
  intros lab N sn sp tn tp. subst lab N sn sp tn tp.
  split; [|split; [|split; [|apply Read_only_observes]]].
  - intros Hn Hnet Hnode Hsp i inter Hif Hne.
    apply String.eqb_neq in Hsp. apply Z.eqb_neq in Hne.
    assert (Hrun : NewNodeLinkModelNet state w =
      (w, [CallGetNetwork (ValueString (LabPath state)) (ValueInt64 (NetworkId state));
           CallGetNode (ValueString (LabPath state)) (ValueInt64 (SourceNodeId state));
           CallGetNodeInterface (ValueString (LabPath state))
             (ValueInt64 (SourceNodeId state)) (ValueString (SourcePort state))],
       Done (set_SourcePort state (Known ""), None, false))).
    { unfold NewNodeLinkModelNet. unfold_client. unfold_monad.
      rewrite Hnet, Hnode, Hsp, Hif, Hne. done. }
    split; [done|].
    intros resp. unfold Read. rewrite Hn. unfold bind at 1. rewrite Hrun.
    unfold NewStyleModel, GetTopologyForTargetNode.
    run_all; intros; simplify_eq/=; eauto.
  - intros Hn Hnet Hs Ht i inter Hif Hne. apply Z.eqb_neq in Hne.
    unfold Read, NewNodeLinkModelNode, source_mismatch_error. rewrite Hn.
    unfold_client. unfold_monad. rewrite Hnet, Hs, Ht, Hif, Hne. done.
  - intros Hn Hnet Hs Ht i inter j inter' Hif Heq Hif' Hne.
    apply Z.eqb_neq in Hne. apply Z.eqb_eq in Heq.
    unfold Read, NewNodeLinkModelNode, target_mismatch_error. rewrite Hn.
    unfold_client. unfold_monad. rewrite Hnet, Hs, Ht, Hif, Heq. cbn.
    rewrite Hif', Hne. done.
Qed.

(** C7 on the code: when the network, both nodes and the source binding
    check out and the lookup of the target interface fails,
    [NewNodeLinkModelNode] returns that error with a model whose source
    port is cleared and whose target port is the persisted one. *)
Theorem NewNodeLinkModelNode_target_lookup_clears_source_port
  (state : NodeLinkResourceModel) (w : W) (i : Z) (inter : evengsdk.Interface)
  (e : string) :
  let lab := ValueString (LabPath state) in
  let N := ValueInt64 (NetworkId state) in
  let sn := ValueInt64 (SourceNodeId state) in
  let sp := ValueString (SourcePort state) in
  let tn := ValueInt64 (TargetNodeId state) in
  let tp := ValueString (TargetPort state) in
  remote_GetNetwork lab N w = None ->
  remote_GetNode lab sn w = None ->
  remote_GetNode lab tn w = None ->
  remote_GetNodeInterface lab sn sp w = Ok (i, inter) ->
  evengsdk.NetworkId inter = N ->
  remote_GetNodeInterface lab tn tp w = Err e ->
  exists model,
    NewNodeLinkModelNode state w =
      (w, [CallGetNetwork lab N; CallGetNode lab sn; CallGetNode lab tn;
           CallGetNodeInterface lab sn sp; CallGetNodeInterface lab tn tp],
       Done (model, Some e, false))
    /\ SourcePort model = Known ""
    /\ TargetPort model = TargetPort state.
Proof.
  intros lab N sn sp tn tp Hnet Hs Ht Hif Heq Hif'.
  subst lab N sn sp tn tp. apply Z.eqb_eq in Heq.
  exists (set_SourcePort state (Known "")). split; [|done].
  unfold NewNodeLinkModelNode. unfold_client. unfold_monad.
  rewrite Hnet, Hs, Ht, Hif, Heq. cbn. rewrite Hif'. done.
Qed.

(** C10: read of a node-to-network link whose persisted source port reads
    as the empty string, with the network and the source node present. The
    drift check answers the model unchanged, no error and no recreation
    after the two existence checks; read queries no interface; a read that
    completes sets a state with the same source port (and the same lab,
    network and node ids, so the next read starts from the same case) and
    no diagnostic; and
    when no style is read back (community edition, or no style persisted)
    read sets exactly the persisted state. *)
Theorem Read_net_cleared_port_stays_cleared (state : NodeLinkResourceModel)
  (w : W) :
  let lab := ValueString (LabPath state) in
  let N := ValueInt64 (NetworkId state) in
  let sn := ValueInt64 (SourceNodeId state) in
  IsNull (TargetNodeId state) = true ->
  ValueString (SourcePort state) = "" ->
  remote_GetNetwork lab N w = None ->
  remote_GetNode lab sn w = None ->
  NewNodeLinkModelNet state w =
    (w, [CallGetNetwork lab N; CallGetNode lab sn], Done (state, None, false))
  /\ Forall (fun c => is_interface_query c = false) (calls_of (Read state w))
  /\ (forall resp,
        outcome_of (Read state w) = Done resp ->
        Diagnostics resp = [] /\
        exists state',
          State resp = SetState state' /\
          SourcePort state' = SourcePort state /\
          LabPath state' = LabPath state /\
          TargetNodeId state' = TargetNodeId state /\
          NetworkId state' = NetworkId state /\
          SourceNodeId state' = SourceNodeId state)
  /\ (remote_IsPro w = false \/ Style state = None ->
      Read state w =
        (w, [CallGetNetwork lab N; CallGetNode lab sn; CallIsPro],
         Done {| Diagnostics := []; State := SetState state |})).
Proof.
  intros lab N sn Hn Hsp Hnet Hnode. subst lab N sn.
  assert (Hrun : NewNodeLinkModelNet state w =
    (w, [CallGetNetwork (ValueString (LabPath state)) (ValueInt64 (NetworkId state));
         CallGetNode (ValueString (LabPath state)) (ValueInt64 (SourceNodeId state))],
     Done (state, None, false))).
  { unfold NewNodeLinkModelNet. unfold_client. unfold_monad.
    rewrite Hnet, Hnode, Hsp. done. }
  split; [done|].
  unfold Read. rewrite Hn. unfold bind. rewrite Hrun.
  unfold NewStyleModel, GetTopologyForTargetNode.
  split; [|split].
  - run_all; repeat constructor.
  - intros resp. run_all; intros; simplify_eq/=; eauto 10.
  - intros [Hpro|Hst]; unfold_client; unfold_monad; rewrite ?Hpro, ?Hst; cbn.
    + done.
    + by destruct (remote_IsPro w).
Qed.

Lemma count_calls_cons (f : Call -> bool) (c : Call) (calls : list Call) :
  count_calls f (c :: calls) = ((if f c then 1 else 0) + count_calls f calls)%nat.
Proof. unfold count_calls. cbn. by destruct (f c). Qed.

Lemma count_calls_nil (f : Call -> bool) : count_calls f [] = 0%nat.
Proof. done. Qed.

Lemma is_bind_of_same (lab : string) (node : Z) (port : string) (net : Z) :
  is_bind_of lab node port net (CallUpdateNodeInterfaceName lab node port net)
  = true.
Proof. cbn. by apply bool_decide_eq_true_2. Qed.

Lemma is_bind_of_other (lab lab' : string) (node node' : Z) (port port' : string)
  (net net' : Z) :
  node' <> node \/ port' <> port \/ net' <> net ->
  is_bind_of lab node port net (CallUpdateNodeInterfaceName lab' node' port' net')
  = false.
Proof.
  intros Hd. cbn. apply bool_decide_eq_false_2.
  intros (_ & Hn & Hp & Hk). destruct Hd as [Hd|[Hd|Hd]]; by apply Hd.
Qed.

(** C1 (amended): a create of a node-to-node link that succeeds, network id
    0 resolving to nothing, makes its calls in this order: lookup of the
    source interface, lookup of the target interface, lookup of network 0,
    creation of the network under the name
    sourceNodeId_sourcePortIndex_targetNodeId_targetPortIndex with the
    visibility flag "1" (visible), bind of the source interface to the
    created network, bind of the target interface to it, and then the
    network update that carries the visibility flag "0" (hidden). Whatever
    follows touches neither the binder nor a network. *)
Theorem Create_node_to_node_call_order (plan : NodeLinkResourceModel)
  (w w' : W) (calls : list Call) (resp : Response) :
  let lab := ValueString (LabPath plan) in
  let sn := ValueInt64 (SourceNodeId plan) in
  let sp := ValueString (SourcePort plan) in
  let tn := ValueInt64 (TargetNodeId plan) in
  let tp := ValueString (TargetPort plan) in
  NetworkId plan = Unknown ->
  remote_GetNetwork lab 0 w <> None ->
  Create plan w = (w', calls, Done resp) ->
  Diagnostics resp = [] ->
  exists si sinter ti tinter w1 net rest,
    let created :=
      {| evengsdk.Id := 0;
         evengsdk.Left := 0;
         evengsdk.Top := 0;
         evengsdk.Name :=
           Itoa sn +:+ "_" +:+ Itoa si +:+ "_" +:+ Itoa tn +:+ "_" +:+ Itoa ti;
         evengsdk.Type_ := "bridge";
         evengsdk.Visibility := visible;
         evengsdk.Icon := "lan.png" |} in
    remote_GetNodeInterface lab sn sp w = Ok (si, sinter)
    /\ remote_GetNodeInterface lab tn tp w = Ok (ti, tinter)
    /\ remote_CreateNetwork lab created w = (w1, (net, None))
    /\ calls =
         [CallGetNodeInterface lab sn sp;
          CallGetNodeInterface lab tn tp;
          CallGetNetwork lab 0;
          CallCreateNetwork lab created;
          CallUpdateNodeInterfaceName lab sn sp (evengsdk.Id net);
          CallUpdateNodeInterfaceName lab tn tp (evengsdk.Id net);
          CallUpdateNetwork lab (set_Visibility net hidden)] ++ rest
    /\ Forall (fun c => is_binder_call c = false /\ is_network_mutation c = false)
         rest.
Proof.
  intros lab sn sp tn tp Hshape Hno Hrun Hok. subst lab sn sp tn tp.
  unfold Create in Hrun. rewrite Hshape in Hrun. cbn [IsUnknown negb] in Hrun.
  unfold MakeNodeLinkNode in Hrun. rewrite !endpoint_changed_empty in Hrun.
  unfold createOrUpdateNetwork, syncStyle, MakeNodeStyle, NewStyleModel,
    GetTopologyForTargetNode, netName_of in Hrun.
  run_all.
  all: try congruence.
  all: do 7 eexists; cbn; repeat split; eauto; repeat constructor.
Qed.

Lemma count_calls_app (f : Call -> bool) (l1 l2 : list Call) :
  count_calls f (l1 ++ l2) = (count_calls f l1 + count_calls f l2)%nat.
Proof. unfold count_calls. by rewrite List.filter_app, length_app. Qed.

Lemma count_calls_no_binder (lab : string) (node : Z) (port : string) (net : Z)
  (calls : list Call) :
  Forall (fun c => is_binder_call c = false) calls ->
  count_calls (is_bind_of lab node port net) calls = 0%nat.
Proof.
  induction 1 as [|c calls Hc _ IH]; [done|].
  rewrite count_calls_cons, IH. by destruct c.
Qed.

(** The calls of an update that only moves the source port of a
    node-to-node link, on a run that succeeds. *)
Lemma Update_source_port_calls (lab : string) (N sn tn : Z) (p p' tp : string)
  (style : option StyleResourceModel) (i : Z) (inter : evengsdk.Interface)
  (w w' : W) (calls : list Call) (resp : Response) :
  let state :=
    {| LabPath := Known lab; NetworkId := Known N; SourceNodeId := Known sn;
       SourcePort := Known p; TargetNodeId := Known tn; TargetPort := Known tp;
       Style := style |} in
  sn <> 0 ->
  p' <> p ->
  remote_GetNodeInterface lab sn p w = Ok (i, inter) ->
  evengsdk.NetworkId inter = N ->
  remote_GetNetwork lab N (fst (remote_UpdateNodeInterfaceName lab sn p 0 w))
    = None ->
  Update (set_NetworkId (set_SourcePort state (Known p')) Unknown) state w
    = (w', calls, Done resp) ->
  Diagnostics resp = [] ->
  exists si ti net net' rest state',
    sn <> tn
    /\ evengsdk.Id net =
         evengsdk.Id (fst (snd (remote_UpdateNetwork lab
           {| evengsdk.Id := N; evengsdk.Left := 0; evengsdk.Top := 0;
              evengsdk.Name :=
                Itoa sn +:+ "_" +:+ Itoa si +:+ "_" +:+ Itoa tn +:+ "_"
                +:+ Itoa ti;
              evengsdk.Type_ := "bridge"; evengsdk.Visibility := visible;
              evengsdk.Icon := "lan.png" |}
           (fst (remote_UpdateNodeInterfaceName lab sn p 0 w)))))
    /\ (exists x,
          evengsdk.Id net' =
            evengsdk.Id (fst (snd (remote_UpdateNetwork lab
                                     (set_Visibility net hidden) x))))
    /\ calls =
         [CallGetNodeInterface lab sn p;
          CallUpdateNodeInterfaceName lab sn p 0;
          CallGetNodeInterface lab sn p';
          CallGetNodeInterface lab tn tp;
          CallGetNetwork lab N;
          CallUpdateNetwork lab
            {| evengsdk.Id := N; evengsdk.Left := 0; evengsdk.Top := 0;
               evengsdk.Name :=
                 Itoa sn +:+ "_" +:+ Itoa si +:+ "_" +:+ Itoa tn +:+ "_"
                 +:+ Itoa ti;
               evengsdk.Type_ := "bridge"; evengsdk.Visibility := visible;
               evengsdk.Icon := "lan.png" |};
          CallUpdateNodeInterfaceName lab sn p' (evengsdk.Id net);
          CallUpdateNodeInterfaceName lab tn tp (evengsdk.Id net);
          CallUpdateNetwork lab (set_Visibility net hidden)] ++ rest
    /\ Forall (fun c => is_binder_call c = false) rest
    /\ State resp = SetState state'
    /\ NetworkId state' = Known (evengsdk.Id net').
Proof.
  intros state Hsn0 Hpp Hif Hobs Hnet Hrun Hok. subst state N.
  apply Z.eqb_neq in Hsn0. apply String.eqb_neq in Hpp.
  destruct (remote_UpdateNodeInterfaceName lab sn p 0 w) as [w1 eu] eqn:Hunbind.
  cbn in Hnet.
  unfold Update, MakeNodeLinkNode, ensureInterfaceDeleted, endpoint_changed,
    createOrUpdateNetwork, syncStyle, MakeNodeStyle, NewStyleModel,
    GetTopologyForTargetNode, netName_of in Hrun.
  unfold_client. unfold_monad. cbn in Hrun.
  destruct (Z.eqb_spec sn tn) as [Heq|Hst]; [by simplify_eq/=|].
  rewrite ?Z.eqb_refl, ?String.eqb_refl, ?Hpp, ?Hsn0 in Hrun. cbn in Hrun.
  rewrite Hif in Hrun. rewrite ?Z.eqb_refl in Hrun. cbn in Hrun.
  rewrite Hunbind in Hrun.
  run_all; try congruence.
  all: do 6 eexists; split; [eassumption|].
  all: repeat match goal with
         | H : remote_UpdateNetwork _ _ _ = _ |- _ =>
             apply (f_equal (fun r => evengsdk.Id (fst (snd r)))) in H;
             cbn in H; symmetry in H; revert H
         end; intros Hid1 Hid2.
  all: split; [exact Hid1|].
  all: split; [eexists; exact Hid2|].
  all: cbn; repeat split; eauto; repeat constructor.
Qed.

(** C4: update of a node-to-node link bound to network [N] whose plan
    changes the source port only, on a run that succeeds with the old
    interface observed on [N], [N] still resolving and network updates
    leaving ids alone: the log holds exactly one unbind of the old (node,
    port) pair, exactly one bind of the new pair to [N], and the state set
    by update carries network id [N]. *)
Theorem Update_source_port_rebinds_once (lab : string) (N sn tn : Z)
  (p p' tp : string) (style : option StyleResourceModel) (i : Z)
  (inter : evengsdk.Interface) (w w' : W) (calls : list Call) (resp : Response) :
  let state :=
    {| LabPath := Known lab; NetworkId := Known N; SourceNodeId := Known sn;
       SourcePort := Known p; TargetNodeId := Known tn; TargetPort := Known tp;
       Style := style |} in
  sn <> 0 ->
  p' <> p ->
  remote_GetNodeInterface lab sn p w = Ok (i, inter) ->
  evengsdk.NetworkId inter = N ->
  remote_GetNetwork lab N (fst (remote_UpdateNodeInterfaceName lab sn p 0 w))
    = None ->
  (forall l n x,
     evengsdk.Id (fst (snd (remote_UpdateNetwork l n x))) = evengsdk.Id n) ->
  Update (set_NetworkId (set_SourcePort state (Known p')) Unknown) state w
    = (w', calls, Done resp) ->
  Diagnostics resp = [] ->
  count_calls (is_bind_of lab sn p 0) calls = 1%nat
  /\ count_calls (is_bind_of lab sn p' N) calls = 1%nat
  /\ exists state', State resp = SetState state' /\ NetworkId state' = Known N.
Proof.
  intros state Hsn0 Hpp Hif Hobs Hnet Hid Hrun Hok.
  destruct (Update_source_port_calls lab N sn tn p p' tp style i inter w w'
              calls resp Hsn0 Hpp Hif Hobs Hnet Hrun Hok)
    as (si & ti & net & net' & rest & state' & Hst & Hn1 & [x Hn2] & -> & Hrest
        & Hstate & Hnid).
  rewrite Hid in Hn1. rewrite Hid in Hn2. cbn in Hn1, Hn2.
  rewrite Hn1 in Hn2. rewrite Hn2 in Hnid. rewrite Hn1.
  split; [|split; [|by exists state']].
  - rewrite count_calls_app, (count_calls_no_binder _ _ _ _ rest Hrest).
    rewrite !count_calls_cons, count_calls_nil.
    rewrite is_bind_of_same.
    rewrite !is_bind_of_other by auto. done.
  - rewrite count_calls_app, (count_calls_no_binder _ _ _ _ rest Hrest).
    rewrite !count_calls_cons, count_calls_nil.
    rewrite is_bind_of_same.
    rewrite !is_bind_of_other by auto. done.
Qed.
(** What a style that [styleOfEntry] returns says about the entry: the
    integer attributes were strings, and the style carries whatever
    [Atoi] made of them. *)
Lemma styleOfEntry_Done (node : gmap string jsonv) (st : StyleResourceModel) :
  styleOfEntry node = Done st ->
  exists width curviness beziercurviness,
    node !! "width" = Some (JString width)
    /\ Width st = Known (int32 (Atoi width))
    /\ node !! "curviness" = Some (JString curviness)
    /\ Curviness st = Known (int32 (Atoi curviness))
    /\ node !! "beziercurviness" = Some (JString beziercurviness)
    /\ BezierCurviness st = Known (int32 (Atoi beziercurviness)).
Proof.
  unfold styleOfEntry.
  destruct (node !! "srcpos") as [[?| | |]|]; cbn; try discriminate.
  destruct (node !! "dstpos") as [[?| | |]|]; cbn; try discriminate.
  destruct (node !! "width") as [[width| | |]|]; cbn; try discriminate.
  destruct (node !! "labelpos") as [[?| | |]|]; cbn; try discriminate.
  destruct (node !! "stub") as [[?| | |]|]; cbn; try discriminate.
  destruct (node !! "curviness") as [[curviness| | |]|]; cbn;
    try discriminate.
  destruct (node !! "beziercurviness") as [[beziercurviness| | |]|]; cbn;
    try discriminate.
  destruct (node !! "round") as [[?| | |]|]; cbn; try discriminate.
  destruct (node !! "midpoint") as [[?| | |]|]; cbn; try discriminate.
  intros [= <-]. exists width, curviness, beziercurviness. done.
Qed.

Lemma styleOfEntry_Panic (node : gmap string jsonv) :
  node !! "width" = None -> styleOfEntry node = Panic.
Proof.
  intros Hw. unfold styleOfEntry. rewrite Hw.
  destruct (node !! "srcpos") as [[?| | |]|]; cbn; try done.
  destruct (node !! "dstpos") as [[?| | |]|]; cbn; done.
Qed.

(** C9 on the code: when the first entry of the listing is the one of the
    link's target endpoint, a read-back that completes carries for width,
    curviness and bezier curviness what [Atoi] made of the attribute, so 0
    for an attribute that is the empty string (the schema's defaults are 2,
    10 and 150); and when the width attribute is absent the read-back
    panics. *)
Theorem GetTopologyForTargetNode_numeric_defaults_missing
  (plan : NodeLinkResourceModel) (w : W) (node : gmap string jsonv)
  (rest : list (gmap string jsonv)) (err : error) :
  remote_GetTopology (ValueString (LabPath plan)) w = (node :: rest, err) ->
  entry_matches plan node = true ->
  (node !! "width" = None ->
     outcome_of (GetTopologyForTargetNode plan w) = Panic)
  /\ (forall st,
        outcome_of (GetTopologyForTargetNode plan w) = Done st ->
        (exists width curviness beziercurviness,
           node !! "width" = Some (JString width)
           /\ Width st = Known (int32 (Atoi width))
           /\ node !! "curviness" = Some (JString curviness)
           /\ Curviness st = Known (int32 (Atoi curviness))
           /\ node !! "beziercurviness" = Some (JString beziercurviness)
           /\ BezierCurviness st = Known (int32 (Atoi beziercurviness)))
        /\ (node !! "width" = Some (JString "") -> Width st = Known 0)
        /\ (node !! "curviness" = Some (JString "") -> Curviness st = Known 0)
        /\ (node !! "beziercurviness" = Some (JString "") ->
            BezierCurviness st = Known 0)).
Proof.
  intros Htopo Hmatch.
  assert (Hrun : outcome_of (GetTopologyForTargetNode plan w) = styleOfEntry node).
  { unfold GetTopologyForTargetNode. unfold_client. unfold_monad.
    rewrite Htopo. cbn. by rewrite Hmatch. }
  rewrite Hrun. split.
  - apply styleOfEntry_Panic.
  - intros st Hst.
    destruct (styleOfEntry_Done node st Hst)
      as (width & curv & bez & Hw & Hws & Hc & Hcs & Hb & Hbs).
    split; [by exists width, curv, bez|].
    repeat split; intros Hempty.
    + rewrite Hw in Hempty. injection Hempty as ->. exact Hws.
    + rewrite Hc in Hempty. injection Hempty as ->. exact Hcs.
    + rewrite Hb in Hempty. injection Hempty as ->. exact Hbs.
Qed.

End Properties.

(** ** Runs on the reference lab *)

(** C1, as stated, fails: on the create of the link between port e0 of node
    1 and port e0 of node 2, the network is not created hidden. *)
Lemma implicit_network_created_hidden_fails :
  ~ (forall lab n,
       In (CallCreateNetwork lab n)
         (calls_of (Create (F32 := erased_float32) (CL := lab_client)
                      (link_1_2 "e0" "e0") two_nodes)) ->
       evengsdk.Visibility n = hidden).
Proof.
  intros Hall.
  assert (Hv : visible = hidden); [|discriminate Hv].
  apply (Hall "/lab.unl"
           {| evengsdk.Id := 0; evengsdk.Left := 0; evengsdk.Top := 0;
              evengsdk.Name := "1_0_2_0"; evengsdk.Type_ := "bridge";
              evengsdk.Visibility := visible; evengsdk.Icon := "lan.png" |}).
  vm_compute. do 3 right. left. reflexivity.
Qed.

(** The call order of C1 on the create of the link between the e0 ports. *)
Lemma Create_node_to_node_call_order_witness :
  exists net rest,
    calls_of (Create (F32 := erased_float32) (CL := lab_client)
                (link_1_2 "e0" "e0") two_nodes) =
      [CallGetNodeInterface "/lab.unl" 1 "e0";
       CallGetNodeInterface "/lab.unl" 2 "e0";
       CallGetNetwork "/lab.unl" 0;
       CallCreateNetwork "/lab.unl"
         {| evengsdk.Id := 0; evengsdk.Left := 0; evengsdk.Top := 0;
            evengsdk.Name := "1_0_2_0"; evengsdk.Type_ := "bridge";
            evengsdk.Visibility := visible; evengsdk.Icon := "lan.png" |};
       CallUpdateNodeInterfaceName "/lab.unl" 1 "e0" (evengsdk.Id net);
       CallUpdateNodeInterfaceName "/lab.unl" 2 "e0" (evengsdk.Id net);
       CallUpdateNetwork "/lab.unl" (set_Visibility net hidden)] ++ rest.
Proof.
  edestruct (Create_node_to_node_call_order (F32 := erased_float32)
               (CL := lab_client) (link_1_2 "e0" "e0") two_nodes)
    as (si & sinter & ti & tinter & w1 & net & rest & Hs & Ht & Hc & Hcalls & _).
  - reflexivity.
  - vm_compute. discriminate.
  - vm_compute. reflexivity.
  - reflexivity.
  - exists net, rest.
    vm_compute in Hs. vm_compute in Ht.
    injection Hs as <- _. injection Ht as <- _.
    exact Hcalls.
Defined.

(** C2 on the labs: port e1 of node 1 is unbound while network 1 is
    persisted, in the node-to-network link and at either end of the
    node-to-node link. *)
Lemma Read_binding_mismatch_witness :
  (exists state',
     outcome_of (Read (F32 := erased_float32) (CL := lab_client)
                   (net_link 1 "e1") net_lab)
       = Done {| Diagnostics := []; State := SetState state' |}
     /\ SourcePort state' = Known "")
  /\ Read (F32 := erased_float32) (CL := lab_client)
       (linked_state "e1" "e0") linked_lab =
       (linked_lab,
        [CallGetNetwork "/lab.unl" 1; CallGetNode "/lab.unl" 1;
         CallGetNode "/lab.unl" 2; CallGetNodeInterface "/lab.unl" 1 "e1"],
        Done (failed "Failed to read node link"
                "source port e1 is not connected to network 1"))
  /\ Read (F32 := erased_float32) (CL := lab_client)
       (linked_state "e0" "e1") linked_lab =
       (linked_lab,
        [CallGetNetwork "/lab.unl" 1; CallGetNode "/lab.unl" 1;
         CallGetNode "/lab.unl" 2; CallGetNodeInterface "/lab.unl" 1 "e0";
         CallGetNodeInterface "/lab.unl" 2 "e1"],
        Done (failed "Failed to read node link"
                "target port e1 is not connected to network 1")).
Proof.
  split; [|split].
  - destruct (proj1 (Read_binding_mismatch (F32 := erased_float32)
                       (CL := lab_client) (net_link 1 "e1") net_lab)
                eq_refl eq_refl eq_refl ltac:(discriminate) 1
                {| evengsdk.IfName := "e1"; evengsdk.NetworkId := 0 |}
                eq_refl ltac:(discriminate))
      as [_ Hread].
    destruct (Hread {| Diagnostics := [];
                       State := SetState (net_link 1 "") |} eq_refl)
      as [_ (state' & Hstate & Hport)].
    exists state'. split; [|exact Hport].
    injection Hstate as <-. reflexivity.
  - apply (proj1 (proj2 (Read_binding_mismatch (F32 := erased_float32)
                           (CL := lab_client) (linked_state "e1" "e0")
                           linked_lab))
             eq_refl eq_refl eq_refl eq_refl 1
             {| evengsdk.IfName := "e1"; evengsdk.NetworkId := 0 |}
             eq_refl ltac:(discriminate)).
  - apply (proj1 (proj2 (proj2 (Read_binding_mismatch (F32 := erased_float32)
                                  (CL := lab_client) (linked_state "e0" "e1")
                                  linked_lab)))
             eq_refl eq_refl eq_refl eq_refl 0
             {| evengsdk.IfName := "e0"; evengsdk.NetworkId := 1 |} 1
             {| evengsdk.IfName := "e1"; evengsdk.NetworkId := 0 |}
             eq_refl eq_refl eq_refl ltac:(discriminate)).
Defined.

(** C3 on the linked lab: a port that does not exist, an expected network
    the port is not on, and the expected network it is on. *)
Lemma ensureInterfaceDeleted_unbinds_only_on_match_witness :
  ensureInterfaceDeleted (F32 := erased_float32) (CL := lab_client)
    "/lab.unl" 1 "e9" 1 linked_lab =
    (linked_lab, [CallGetNodeInterface "/lab.unl" 1 "e9"],
     Done (Some "interface not found"))
  /\ ensureInterfaceDeleted (F32 := erased_float32) (CL := lab_client)
       "/lab.unl" 1 "e0" 7 linked_lab =
       (linked_lab, [CallGetNodeInterface "/lab.unl" 1 "e0"], Done None)
  /\ calls_of (ensureInterfaceDeleted (F32 := erased_float32)
                 (CL := lab_client) "/lab.unl" 1 "e0" 1 linked_lab) =
       [CallGetNodeInterface "/lab.unl" 1 "e0";
        CallUpdateNodeInterfaceName "/lab.unl" 1 "e0" 0].
Proof.
  split; [|split].
  - apply (proj1 (ensureInterfaceDeleted_unbinds_only_on_match
                    (F32 := erased_float32) (CL := lab_client)
                    "/lab.unl" 1 "e9" 1 linked_lab)).
    reflexivity.
  - apply (proj1 (proj2 (ensureInterfaceDeleted_unbinds_only_on_match
                           (F32 := erased_float32) (CL := lab_client)
                           "/lab.unl" 1 "e0" 7 linked_lab))
             0 {| evengsdk.IfName := "e0"; evengsdk.NetworkId := 1 |}).
    + reflexivity.
    + discriminate.
  - rewrite (proj1 (proj2 (proj2 (ensureInterfaceDeleted_unbinds_only_on_match
                                    (F32 := erased_float32) (CL := lab_client)
                                    "/lab.unl" 1 "e0" 1 linked_lab)))
               0 {| evengsdk.IfName := "e0"; evengsdk.NetworkId := 1 |}
               eq_refl eq_refl).
    reflexivity.
Defined.

(** C4 on the linked lab: the source port moves from e0 to e1. *)
Lemma Update_source_port_rebinds_once_witness :
  let run :=
    Update (F32 := erased_float32) (CL := lab_client)
      (set_NetworkId (set_SourcePort (linked_state "e0" "e0") (Known "e1"))
         Unknown)
      (linked_state "e0" "e0") linked_lab in
  count_calls (is_bind_of "/lab.unl" 1 "e0" 0) (calls_of run) = 1%nat
  /\ count_calls (is_bind_of "/lab.unl" 1 "e1" 1) (calls_of run) = 1%nat.
Proof.
  intros run.
  edestruct (Update_source_port_rebinds_once (F32 := erased_float32)
               (CL := lab_client) "/lab.unl" 1 1 2 "e0" "e1" "e0" None 0
               {| evengsdk.IfName := "e0"; evengsdk.NetworkId := 1 |}
               linked_lab)
    as (Hunbind & Hbind & _).
  - discriminate.
  - discriminate.
  - reflexivity.
  - reflexivity.
  - reflexivity.
  - intros l n x. unfold remote_UpdateNetwork, lab_client, lab_UpdateNetwork.
    by destruct (lab_has_network (evengsdk.Id n) x).
  - vm_compute. reflexivity.
  - reflexivity.
  - split; [exact Hunbind|exact Hbind].
Defined.

(** C5 on a declaration that links node 1 to itself. *)
Lemma self_link_rejected_before_any_call_witness :
  Create (F32 := erased_float32) (CL := lab_client) self_link two_nodes =
    (two_nodes, [], Done (failed "Cannot link a node to itself"
                            "source and target node IDs are the same"))
  /\ Update (F32 := erased_float32) (CL := lab_client) self_link
       (linked_state "e0" "e0") two_nodes =
       (two_nodes, [], Done (failed "Cannot link a node to itself"
                               "source and target node IDs are the same")).
Proof. apply self_link_rejected_before_any_call. reflexivity. Defined.

(** C6 on the labs: a declared network id 0 is refused, and the state of
    the link between the e0 ports carries network id 1. *)
Lemma create_never_persists_zero_network_id_witness :
  outcome_of (Create (F32 := erased_float32) (CL := lab_client)
                (net_link 0 "e0") net_lab) =
    Done (failed "Failed to create node link" "network ID is 0")
  /\ (outcome_of (Create (F32 := erased_float32) (CL := lab_client)
                    (link_1_2 "e0" "e0") two_nodes) =
        Done {| Diagnostics := []; State := SetState (linked_state "e0" "e0") |}
      /\ exists id,
           NetworkId (linked_state (F32 := erased_float32) "e0" "e0") = Known id
           /\ id <> 0).
Proof.
  split.
  - erewrite (proj1 (create_never_persists_zero_network_id
                       (F32 := erased_float32) (CL := lab_client)
                       (net_link 0 "e0") net_lab)).
    + reflexivity.
    + discriminate.
    + vm_compute. reflexivity.
  - split; [reflexivity|].
    apply (proj2 (create_never_persists_zero_network_id
                    (F32 := erased_float32) (CL := lab_client)
                    (link_1_2 "e0" "e0") two_nodes)
             {| Diagnostics := [];
                State := SetState (linked_state "e0" "e0") |}
             (linked_state "e0" "e0") eq_refl eq_refl).
Defined.

(** C8 on the labs: an unresolved network id; the node-to-node link; the
    node-to-network link whose port e0 sits on network 1 and is unbound;
    and the same link for port e1, which is not on network 1 and is left
    alone. *)
Lemma Delete_remote_effects_witness :
  Delete (F32 := erased_float32) (CL := lab_client)
    (link_1_2 "e0" "e0") linked_lab =
    (linked_lab, [], Done {| Diagnostics := []; State := Untouched |})
  /\ calls_of (Delete (F32 := erased_float32) (CL := lab_client)
                 (linked_state "e0" "e0") linked_lab) =
       [CallDeleteNetwork "/lab.unl" 1]
  /\ Forall (fun c => is_network_mutation c = false)
       (calls_of (Delete (F32 := erased_float32) (CL := lab_client)
                    (net_link 1 "e0") net_lab))
  /\ Delete (F32 := erased_float32) (CL := lab_client) (net_link 1 "e0")
       net_lab =
       (with_nodes net_lab
          [(1, [("e0", 0); ("e1", 0)]); (2, [("e0", 0); ("e1", 0)])],
        [CallGetNodeInterface "/lab.unl" 1 "e0";
         CallUpdateNodeInterfaceName "/lab.unl" 1 "e0" 0],
        Done {| Diagnostics := []; State := Untouched |})
  /\ Delete (F32 := erased_float32) (CL := lab_client) (net_link 1 "e1")
       net_lab =
       (net_lab, [CallGetNodeInterface "/lab.unl" 1 "e1"],
        Done {| Diagnostics := []; State := Untouched |}).
Proof.
  split; [|split; [|split; [|split]]].
  - apply (proj1 (Delete_remote_effects (F32 := erased_float32)
                    (CL := lab_client) (link_1_2 "e0" "e0") linked_lab)).
    reflexivity.
  - apply (proj1 (proj2 (Delete_remote_effects (F32 := erased_float32)
                           (CL := lab_client) (linked_state "e0" "e0")
                           linked_lab))); reflexivity.
  - apply (proj2 (proj2 (Delete_remote_effects (F32 := erased_float32)
                           (CL := lab_client) (net_link 1 "e0") net_lab))
             eq_refl eq_refl).
  - pose proof (proj2 (proj2 (Delete_remote_effects (F32 := erased_float32)
                                (CL := lab_client) (net_link 1 "e0") net_lab))
                  eq_refl eq_refl) as Hnet.
    cbv zeta in Hnet. destruct Hnet as (_ & _ & _ & _ & _ & _ & Hmatch).
    exact (Hmatch 0 {| evengsdk.IfName := "e0"; evengsdk.NetworkId := 1 |}
             eq_refl eq_refl).
  - pose proof (proj2 (proj2 (Delete_remote_effects (F32 := erased_float32)
                                (CL := lab_client) (net_link 1 "e1") net_lab))
                  eq_refl eq_refl) as Hnet.
    cbv zeta in Hnet. destruct Hnet as (_ & _ & _ & _ & _ & Hother & _).
    refine (Hother 1 {| evengsdk.IfName := "e1"; evengsdk.NetworkId := 0 |}
              eq_refl _).
    vm_compute. discriminate.
Defined.

(** C10 on the lab with the user network: the persisted source port is
    empty. *)
Lemma Read_net_cleared_port_stays_cleared_witness :
  Read (F32 := erased_float32) (CL := lab_client) (net_link 1 "") net_lab =
    (net_lab,
     [CallGetNetwork "/lab.unl" 1; CallGetNode "/lab.unl" 1; CallIsPro],
     Done {| Diagnostics := []; State := SetState (net_link 1 "") |}).
Proof.
  apply (proj2 (proj2 (proj2 (Read_net_cleared_port_stays_cleared
                                (F32 := erased_float32) (CL := lab_client)
                                (net_link 1 "") net_lab
                                eq_refl eq_refl eq_refl eq_refl)))).
  left. reflexivity.
Defined.

(** C7 on the linked lab: the persisted target port e9 does not exist on
    node 2, so the lookup of the target interface fails; the model that
    comes back has its source port cleared and its target port as
    persisted. *)
Lemma NewNodeLinkModelNode_target_lookup_clears_source_port_witness :
  exists model,
    NewNodeLinkModelNode (F32 := erased_float32) (CL := lab_client)
      (linked_state "e0" "e9") linked_lab =
      (linked_lab,
       [CallGetNetwork "/lab.unl" 1; CallGetNode "/lab.unl" 1;
        CallGetNode "/lab.unl" 2; CallGetNodeInterface "/lab.unl" 1 "e0";
        CallGetNodeInterface "/lab.unl" 2 "e9"],
       Done (model, Some "interface not found", false))
    /\ SourcePort model = Known ""
    /\ TargetPort model = Known "e9".
Proof.
  apply (NewNodeLinkModelNode_target_lookup_clears_source_port
           (F32 := erased_float32) (CL := lab_client)
           (linked_state "e0" "e9") linked_lab 0
           {| evengsdk.IfName := "e0"; evengsdk.NetworkId := 1 |}
           "interface not found"); reflexivity.
Defined.

(** C9 on the styled lab: the matching entry has empty strings for its
    integer attributes, and the style read back carries 0 for width,
    curviness and bezier curviness; without the width attribute the
    read-back panics. *)
Lemma GetTopologyForTargetNode_numeric_defaults_missing_witness :
  (exists st,
     outcome_of (GetTopologyForTargetNode (F32 := erased_float32)
                   (CL := lab_client) (linked_state "e0" "e0")
                   (styled_lab [unstyled_entry])) = Done st
     /\ Style_ st = Known "Solid"
     /\ Width st = Known 0
     /\ Curviness st = Known 0
     /\ BezierCurviness st = Known 0)
  /\ outcome_of (GetTopologyForTargetNode (F32 := erased_float32)
                   (CL := lab_client) (linked_state "e0" "e0")
                   (styled_lab [delete "width" unstyled_entry])) = Panic.
Proof.
  split.
  - eexists. split; [reflexivity|]. split; [reflexivity|].
    destruct (proj2 (GetTopologyForTargetNode_numeric_defaults_missing
                       (F32 := erased_float32) (CL := lab_client)
                       (linked_state "e0" "e0") (styled_lab [unstyled_entry])
                       unstyled_entry [] None eq_refl eq_refl)
                _ eq_refl)
      as (_ & Hwidth & Hcurviness & Hbezier).
    split; [apply Hwidth; reflexivity|].
    split; [apply Hcurviness; reflexivity|apply Hbezier; reflexivity].
  - refine (proj1 (GetTopologyForTargetNode_numeric_defaults_missing
                     (F32 := erased_float32) (CL := lab_client)
                     (linked_state "e0" "e0")
                     (styled_lab [delete "width" unstyled_entry])
                     (delete "width" unstyled_entry) [] None eq_refl _) _).
    + vm_compute. reflexivity.
    + vm_compute. reflexivity.
Defined.

(** ** Further properties: the link resource and the rest of the provider *)

Section MoreProperties.

Context `{F32 : Float32} {W : Type} `{CL : !Client W}.

Ltac unfold_calls :=
  unfold Network_GetNetwork, Network_CreateNetwork, Network_UpdateNetwork,
    Network_DeleteNetwork, Node_GetNode, Node_GetNodeInterface,
    Node_UpdateNodeInterfaceName, Node_UpdateNodeInterfaceStyleByName,
    Lab_GetTopology, IsPro in *.

Ltac unfold_run :=
  unfold bind, ret, query, mutate, lift, world_of, calls_of, outcome_of in *.

Ltac unfold_paths :=
  unfold MakeNodeLinkNet, MakeNodeLinkNode, ensureInterfaceDeleted,
    createOrUpdateNetwork, syncStyle, MakeNodeStyle, NewStyleModel,
    GetTopologyForTargetNode, NewNodeLinkModelNet, NewNodeLinkModelNode in *.

Ltac crunch := unfold_calls; unfold_run; repeat (case_match; simplify_eq/=).

(** X1. When the persisted network no longer resolves, Read stops at
    that lookup, whatever the shape of the link: one [GetNetwork] call, the
    remote world as it was, no diagnostic, and the resource removed from the
    state. *)
Theorem Read_network_gone_removes_resource (state : NodeLinkResourceModel)
  (w : W) (e : string) :
  remote_GetNetwork (ValueString (LabPath state))
    (ValueInt64 (NetworkId state)) w = Some e ->
  Read state w =
    (w, [CallGetNetwork (ValueString (LabPath state))
           (ValueInt64 (NetworkId state))],
     Done {| Diagnostics := []; State := RemoveResource |}).
Proof.
  intros Hnet. unfold Read, NewNodeLinkModelNet, NewNodeLinkModelNode.
  unfold_calls. unfold_run.
  destruct (IsNull (TargetNodeId state)); rewrite Hnet; done.
Qed.

(** X2. A node-to-network link whose source node is gone, the network
    still resolving: [NewNodeLinkModelNet] sets the source node id to 0,
    clears the source port and answers the error "source node <id> not
    found" without removal; Read reports it under "Failed to read node
    link", after two lookups and with the remote world as it was. *)
Theorem Read_net_source_node_gone (state : NodeLinkResourceModel) (w : W)
  (e : string) :
  let lab := ValueString (LabPath state) in
  let N := ValueInt64 (NetworkId state) in
  let sn := ValueInt64 (SourceNodeId state) in
  IsNull (TargetNodeId state) = true ->
  remote_GetNetwork lab N w = None ->
  remote_GetNode lab sn w = Some e ->
  NewNodeLinkModelNet state w =
    (w, [CallGetNetwork lab N; CallGetNode lab sn],
     Done (set_SourcePort (set_SourceNodeId state (Known 0)) (Known ""),
           Some ("source node " +:+ Itoa sn +:+ " not found"), false))
  /\ Read state w =
       (w, [CallGetNetwork lab N; CallGetNode lab sn],
        Done (failed "Failed to read node link"
                ("source node " +:+ Itoa sn +:+ " not found"))).
Proof.
  intros lab N sn Hn Hnet Hnode. subst lab N sn.
  unfold Read. rewrite Hn. unfold NewNodeLinkModelNet.
  unfold_calls. unfold_run. rewrite Hnet, Hnode. done.
Qed.

(** X3. A node-to-node link one of whose nodes is gone, the network
    still resolving: [NewNodeLinkModelNode] sets that endpoint's node id to
    0, clears its port and hands the SDK's error on as it is; the target
    node is not asked for when the source node is gone. Read reports the
    error under "Failed to read node link". *)
Theorem Read_node_endpoint_node_gone (state : NodeLinkResourceModel) (w : W)
  (e : string) :
  let lab := ValueString (LabPath state) in
  let N := ValueInt64 (NetworkId state) in
  let sn := ValueInt64 (SourceNodeId state) in
  let tn := ValueInt64 (TargetNodeId state) in
  remote_GetNetwork lab N w = None ->
  (remote_GetNode lab sn w = Some e ->
   NewNodeLinkModelNode state w =
     (w, [CallGetNetwork lab N; CallGetNode lab sn],
      Done (set_SourcePort (set_SourceNodeId state (Known 0)) (Known ""),
            Some e, false)))
  /\ (remote_GetNode lab sn w = None ->
      remote_GetNode lab tn w = Some e ->
      NewNodeLinkModelNode state w =
        (w, [CallGetNetwork lab N; CallGetNode lab sn; CallGetNode lab tn],
         Done (set_TargetPort (set_TargetNodeId state (Known 0)) (Known ""),
               Some e, false)))
  /\ (IsNull (TargetNodeId state) = false ->
      remote_GetNode lab sn w = Some e \/
      (remote_GetNode lab sn w = None /\ remote_GetNode lab tn w = Some e) ->
      outcome_of (Read state w) = Done (failed "Failed to read node link" e)).
Proof.
  intros lab N sn tn Hnet. subst lab N sn tn.
  split; [|split].
  - intros Hs. unfold NewNodeLinkModelNode. unfold_calls. unfold_run.
    rewrite Hnet, Hs. done.
  - intros Hs Ht. unfold NewNodeLinkModelNode. unfold_calls. unfold_run.
    rewrite Hnet, Hs, Ht. done.
  - intros Hn Hgone. unfold Read, NewNodeLinkModelNode. rewrite Hn.
    unfold_calls. unfold_run. rewrite Hnet.
    destruct Hgone as [Hs|[Hs Ht]]; rewrite Hs, ?Ht; done.
Qed.

(** X4. Read of a link the remote system agrees with (the network
    resolves, the nodes exist, each declared interface is bound to the
    persisted network), on a server that is not the professional edition
    or for a link without style: the persisted state is stored unchanged,
    only the listed lookups are issued and the remote world is as it was. *)
Theorem Read_consistent_link_keeps_state (state : NodeLinkResourceModel) (w : W)
  (i j : Z) (sinter tinter : evengsdk.Interface) :
  let lab := ValueString (LabPath state) in
  let N := ValueInt64 (NetworkId state) in
  let sn := ValueInt64 (SourceNodeId state) in
  let sp := ValueString (SourcePort state) in
  let tn := ValueInt64 (TargetNodeId state) in
  let tp := ValueString (TargetPort state) in
  remote_GetNetwork lab N w = None ->
  remote_GetNode lab sn w = None ->
  remote_GetNodeInterface lab sn sp w = Ok (i, sinter) ->
  evengsdk.NetworkId sinter = N ->
  remote_IsPro w = false \/ Style state = None ->
  (IsNull (TargetNodeId state) = true ->
   sp <> "" ->
   Read state w =
     (w, [CallGetNetwork lab N; CallGetNode lab sn;
          CallGetNodeInterface lab sn sp; CallIsPro],
      Done {| Diagnostics := []; State := SetState state |}))
  /\ (IsNull (TargetNodeId state) = false ->
      remote_GetNode lab tn w = None ->
      remote_GetNodeInterface lab tn tp w = Ok (j, tinter) ->
      evengsdk.NetworkId tinter = N ->
      Read state w =
        (w, [CallGetNetwork lab N; CallGetNode lab sn; CallGetNode lab tn;
             CallGetNodeInterface lab sn sp; CallGetNodeInterface lab tn tp;
             CallIsPro],
         Done {| Diagnostics := []; State := SetState state |})).
Proof.
  intros lab N sn sp tn tp Hnet Hs Hif Hobs Hstyle.
  subst lab N sn sp tn tp. apply Z.eqb_eq in Hobs.
  assert (Hskip : (remote_IsPro w
                   && match Style state with Some _ => true | None => false end)
                  = false).
  { destruct Hstyle as [->| ->]; [done|apply andb_false_r]. }
  split.
  - intros Hn Hsp. apply String.eqb_neq in Hsp.
    unfold Read, NewNodeLinkModelNet. rewrite Hn.
    unfold_calls. unfold_run. rewrite Hnet, Hs, Hsp, Hif, Hobs. cbn.
    rewrite Hskip. done.
  - intros Hn Ht Hif' Hobs'. apply Z.eqb_eq in Hobs'.
    unfold Read, NewNodeLinkModelNode. rewrite Hn.
    unfold_calls. unfold_run. rewrite Hnet, Hs, Ht, Hif, Hobs. cbn.
    rewrite Hif', Hobs'. cbn. rewrite Hskip. done.
Qed.

(** X11. A response of Create, Read, Update or Delete never both
    reports an error and acts on the state: a stored state or a removal
    comes with no diagnostic, and a diagnostic leaves the state untouched. *)
Theorem diagnostics_and_state_exclusive (plan state : NodeLinkResourceModel)
  (w : W) (resp : Response) :
  outcome_of (Create plan w) = Done resp
  \/ outcome_of (Read state w) = Done resp
  \/ outcome_of (Update plan state w) = Done resp
  \/ outcome_of (Delete state w) = Done resp ->
  (Diagnostics resp = [] \/ State resp = Untouched)
  /\ (forall s, State resp = SetState s -> Diagnostics resp = [])
  /\ (State resp = RemoveResource -> Diagnostics resp = []).
Proof.
  intros [H|[H|[H|H]]].
  - unfold Create, failed in H. unfold_run.
    repeat (case_match; simplify_eq/=); repeat split; eauto; done.
  - unfold Read, failed in H. unfold_run.
    repeat (case_match; simplify_eq/=); repeat split; eauto; done.
  - unfold Update, failed in H. unfold_run.
    repeat (case_match; simplify_eq/=); repeat split; eauto; done.
  - unfold Delete, failed in H. unfold_run.
    repeat (case_match; simplify_eq/=); repeat split; eauto; done.
Qed.

(** X6. [MakeNodeLinkNet]. With the source endpoint unchanged it
    issues the bind alone. With a changed endpoint it first looks the old
    interface up; a failed lookup or a failed unbind ends the call before
    any bind; the unbind is issued only if the old interface still sits on
    the persisted network; and the bind runs in the world the unbind left.
    The id answered is always the declared network id. *)
Theorem MakeNodeLinkNet_unbinds_before_binding (plan state : NodeLinkResourceModel)
  (w : W) :
  let lab := ValueString (LabPath plan) in
  let net := ValueInt64 (NetworkId plan) in
  let sn := ValueInt64 (SourceNodeId plan) in
  let sp := ValueString (SourcePort plan) in
  let old_node := ValueInt64 (SourceNodeId state) in
  let old_port := ValueString (SourcePort state) in
  let old_net := ValueInt64 (NetworkId state) in
  let bind_new w0 := remote_UpdateNodeInterfaceName lab sn sp net w0 in
  let unbind_old := remote_UpdateNodeInterfaceName lab old_node old_port 0 w in
  (endpoint_changed (SourceNodeId plan) (SourceNodeId state)
     (SourcePort plan) (SourcePort state) = false ->
   MakeNodeLinkNet plan state w =
     (fst (bind_new w), [CallUpdateNodeInterfaceName lab sn sp net],
      Done (net, snd (bind_new w))))
  /\ (endpoint_changed (SourceNodeId plan) (SourceNodeId state)
        (SourcePort plan) (SourcePort state) = true ->
      (forall e,
         remote_GetNodeInterface lab old_node old_port w = Err e ->
         MakeNodeLinkNet plan state w =
           (w, [CallGetNodeInterface lab old_node old_port],
            Done (net, Some e)))
      /\ (forall i inter,
            remote_GetNodeInterface lab old_node old_port w = Ok (i, inter) ->
            evengsdk.NetworkId inter <> old_net ->
            MakeNodeLinkNet plan state w =
              (fst (bind_new w),
               [CallGetNodeInterface lab old_node old_port;
                CallUpdateNodeInterfaceName lab sn sp net],
               Done (net, snd (bind_new w))))
      /\ (forall i inter e,
            remote_GetNodeInterface lab old_node old_port w = Ok (i, inter) ->
            evengsdk.NetworkId inter = old_net ->
            snd unbind_old = Some e ->
            MakeNodeLinkNet plan state w =
              (fst unbind_old,
               [CallGetNodeInterface lab old_node old_port;
                CallUpdateNodeInterfaceName lab old_node old_port 0],
               Done (net, Some e)))
      /\ (forall i inter,
            remote_GetNodeInterface lab old_node old_port w = Ok (i, inter) ->
            evengsdk.NetworkId inter = old_net ->
            snd unbind_old = None ->
            MakeNodeLinkNet plan state w =
              (fst (bind_new (fst unbind_old)),
               [CallGetNodeInterface lab old_node old_port;
                CallUpdateNodeInterfaceName lab old_node old_port 0;
                CallUpdateNodeInterfaceName lab sn sp net],
               Done (net, snd (bind_new (fst unbind_old)))))).
Proof.
  intros lab net sn sp old_node old_port old_net bind_new unbind_old.
  subst lab net sn sp old_node old_port old_net bind_new unbind_old.
  split; [|intros Hch; repeat split].
  - intros Hch. unfold MakeNodeLinkNet. rewrite Hch.
    unfold_calls. unfold_run. by repeat (case_match; simplify_eq/=).
  - intros e He. unfold MakeNodeLinkNet, ensureInterfaceDeleted. rewrite Hch.
    unfold_calls. unfold_run. rewrite He. done.
  - intros i inter Hi Hne. apply Z.eqb_neq in Hne.
    unfold MakeNodeLinkNet, ensureInterfaceDeleted. rewrite Hch.
    unfold_calls. unfold_run. rewrite Hi, Hne.
    by repeat (case_match; simplify_eq/=).
  - intros i inter e Hi Heq He. apply Z.eqb_eq in Heq.
    unfold MakeNodeLinkNet, ensureInterfaceDeleted. rewrite Hch.
    unfold_calls. unfold_run. rewrite Hi, Heq.
    destruct (remote_UpdateNodeInterfaceName _ _ _ 0 w) as [w1 e1].
    cbn in He. subst e1. done.
  - intros i inter Hi Heq He. apply Z.eqb_eq in Heq.
    unfold MakeNodeLinkNet, ensureInterfaceDeleted. rewrite Hch.
    unfold_calls. unfold_run. rewrite Hi, Heq.
    destruct (remote_UpdateNodeInterfaceName _ _ _ 0 w) as [w1 e1].
    cbn in He. subst e1. cbn.
    by repeat (case_match; simplify_eq/=).
Qed.

(** X10. A node-to-node create one of whose endpoint interfaces
    cannot be looked up stops at that lookup, leaves the remote world as it
    was, and reports the SDK's error. The summary reads "(isNet=true)": the
    flag printed is "the network id is not null", which holds of the
    unknown id of a node-to-node declaration. *)
Theorem Create_lookup_failure_mutates_nothing (plan : NodeLinkResourceModel)
  (w : W) (e : string) :
  let lab := ValueString (LabPath plan) in
  let sn := ValueInt64 (SourceNodeId plan) in
  let sp := ValueString (SourcePort plan) in
  let tn := ValueInt64 (TargetNodeId plan) in
  let tp := ValueString (TargetPort plan) in
  NetworkId plan = Unknown ->
  sn <> tn ->
  (remote_GetNodeInterface lab sn sp w = Err e ->
   Create plan w =
     (w, [CallGetNodeInterface lab sn sp],
      Done (failed "Failed to create node link (isNet=true)" e)))
  /\ (forall i inter,
        remote_GetNodeInterface lab sn sp w = Ok (i, inter) ->
        remote_GetNodeInterface lab tn tp w = Err e ->
        Create plan w =
          (w, [CallGetNodeInterface lab sn sp; CallGetNodeInterface lab tn tp],
           Done (failed "Failed to create node link (isNet=true)" e))).
Proof.
  intros lab sn sp tn tp Hshape Hne. subst lab sn sp tn tp.
  apply Z.eqb_neq in Hne.
  split.
  - intros Hs. unfold Create. rewrite Hne, Hshape. cbn [IsUnknown negb].
    unfold MakeNodeLinkNode. rewrite !endpoint_changed_empty.
    unfold_calls. unfold_run. rewrite Hs. done.
  - intros i inter Hs Ht. unfold Create. rewrite Hne, Hshape.
    cbn [IsUnknown negb].
    unfold MakeNodeLinkNode. rewrite !endpoint_changed_empty.
    unfold_calls. unfold_run. rewrite Hs, Ht. done.
Qed.

(** X12. The state Create or Update stores carries the declared lab
    path, nodes and ports as they are, and a known network id: nothing the
    remote system answered replaces a declared endpoint. *)
Theorem persisted_endpoints_are_the_declared_ones (plan state : NodeLinkResourceModel)
  (w : W) (resp : Response) (s : NodeLinkResourceModel) :
  outcome_of (Create plan w) = Done resp
  \/ outcome_of (Update plan state w) = Done resp ->
  State resp = SetState s ->
  LabPath s = LabPath plan
  /\ SourceNodeId s = SourceNodeId plan
  /\ SourcePort s = SourcePort plan
  /\ TargetNodeId s = TargetNodeId plan
  /\ TargetPort s = TargetPort plan
  /\ exists id, NetworkId s = Known id.
Proof.
  intros [H|H] Hs.
  - unfold Create, failed, syncStyle in H. unfold_calls. unfold_run.
    repeat (case_match; simplify_eq/=); eauto 10.
  - unfold Update, failed, syncStyle in H. unfold_calls. unfold_run.
    repeat (case_match; simplify_eq/=); eauto 10.
Qed.

(** *** Rules for [runs] *)

Lemma runs_ret {A} (a : A) (Pc : Call -> Prop) (R : outcome A -> Prop) :
  R (Done a) -> runs (W := W) (ret a) Pc R.
Proof. intros HR w. split; [constructor|exact HR]. Qed.

Lemma runs_lift {A} (o : outcome A) (Pc : Call -> Prop) (R : outcome A -> Prop) :
  R o -> runs (W := W) (lift o) Pc R.
Proof. intros HR w. split; [constructor|exact HR]. Qed.

Lemma runs_query {A} (c : Call) (q : W -> A) (Pc : Call -> Prop)
  (R : outcome A -> Prop) :
  Pc c -> (forall x, R (Done (q x))) -> runs (query c q) Pc R.
Proof. intros Hc HR w. split; [by repeat constructor|apply HR]. Qed.

Lemma runs_mutate {A} (c : Call) (g : W -> W * A) (Pc : Call -> Prop)
  (R : outcome A -> Prop) :
  Pc c -> (forall x, R (Done (snd (g x)))) -> runs (mutate c g) Pc R.
Proof.
  intros Hc HR w. unfold mutate, calls_of, outcome_of.
  specialize (HR w). destruct (g w) as [w' a]. split; [by repeat constructor|done].
Qed.

Lemma runs_bind {A B} (m : M A) (f : A -> M B) (Pc : Call -> Prop)
  (R1 : outcome A -> Prop) (R : outcome B -> Prop) :
  runs (W := W) m Pc R1 ->
  (forall a, R1 (Done a) -> runs (f a) Pc R) ->
  (R1 Panic -> R Panic) ->
  runs (bind m f) Pc R.
Proof.
  intros Hm Hf Hp w. destruct (Hm w) as [Hc Ho].
  unfold bind, calls_of, outcome_of in *.
  destruct (m w) as [[w1 l1] [a|]]; cbn in *.
  - destruct (Hf a Ho w1) as [Hc2 Ho2].
    unfold calls_of, outcome_of in *.
    destruct (f a w1) as [[w2 l2] r]; cbn in *.
    split; [by apply Forall_app|done].
  - split; [done|by apply Hp].
Qed.

Lemma runs_bind_query {A B} (c : Call) (q : W -> A) (f : A -> M B)
  (Pc : Call -> Prop) (R : outcome B -> Prop) :
  Pc c -> (forall x, runs (f (q x)) Pc R) -> runs (bind (query c q) f) Pc R.
Proof.
  intros Hc Hf. apply (runs_bind _ _ _ (fun o => exists x, o = Done (q x))).
  - apply runs_query; [done|]. intros x. by exists x.
  - intros a [x [= ->]]. apply Hf.
  - intros [x [=]].
Qed.

Lemma runs_bind_mutate {A B} (c : Call) (g : W -> W * A) (f : A -> M B)
  (Pc : Call -> Prop) (R : outcome B -> Prop) :
  Pc c -> (forall a, runs (f a) Pc R) -> runs (bind (mutate c g) f) Pc R.
Proof.
  intros Hc Hf. apply (runs_bind _ _ _ (fun o => o <> Panic)).
  - by apply runs_mutate.
  - intros a _. apply Hf.
  - done.
Qed.

Lemma runs_bind_total {A B} (m : M A) (f : A -> M B) (Pc : Call -> Prop)
  (R : outcome B -> Prop) :
  runs (W := W) m Pc (fun o => o <> Panic) ->
  (forall a, runs (f a) Pc R) ->
  runs (bind m f) Pc R.
Proof. intros Hm Hf. eapply runs_bind; [exact Hm|auto|done]. Qed.

Lemma runs_bind_any {A B} (m : M A) (f : A -> M B) (Pc : Call -> Prop)
  (R : outcome B -> Prop) :
  runs (W := W) m Pc (fun _ => True) ->
  (forall a, runs (f a) Pc R) ->
  R Panic ->
  runs (bind m f) Pc R.
Proof. intros Hm Hf HR. eapply runs_bind; [exact Hm|auto|auto]. Qed.

Lemma runs_bind_value {A B} (m : M A) (f : A -> M B) (a : A)
  (Pc : Call -> Prop) (R : outcome B -> Prop) :
  runs (W := W) m Pc (fun o => o = Done a) ->
  runs (f a) Pc R ->
  runs (bind m f) Pc R.
Proof.
  intros Hm Hf. eapply runs_bind; [exact Hm| |done].
  by intros a' [= ->].
Qed.

Lemma runs_bind_ret {A B} (a : A) (f : A -> M B) (Pc : Call -> Prop)
  (R : outcome B -> Prop) :
  runs (W := W) (f a) Pc R -> runs (bind (ret a) f) Pc R.
Proof.
  intros Hf. apply (runs_bind_value _ _ a); [|done]. by apply runs_ret.
Qed.

(** One step through a program: the rule its head calls for. [kill] gets a
    chance to close branches the hypotheses rule out. *)
Ltac runs_head bind_rule :=
  lazymatch goal with
  | |- runs (ret _) _ _ => apply runs_ret
  | |- runs (lift _) _ _ => apply runs_lift
  | |- runs (query _ _) _ _ => apply runs_query; [|intros ?]
  | |- runs (mutate _ _) _ _ => apply runs_mutate; [|intros ?]
  | |- runs (bind (query _ _) _) _ _ => apply runs_bind_query; [|intros ?]
  | |- runs (bind (mutate _ _) _) _ _ => apply runs_bind_mutate; [|intros ?]
  | |- runs (bind (ret _) _) _ _ => apply runs_bind_ret
  | |- runs (bind _ _) _ _ => bind_rule
  | |- runs (match ?x with _ => _ end) _ _ => destruct x eqn:?
  end.

Ltac runs_calls kill :=
  repeat (runs_head ltac:(apply runs_bind_any; [|intros ?|]);
          try done; try kill).

Ltac runs_total kill :=
  repeat (runs_head ltac:(apply runs_bind_total; [|intros ?]);
          try done; try kill).

(** X5. A declaration that names its network (the network id is
    known) never reaches the network service: neither Create nor Update
    looks a network up, creates, updates or deletes one. In particular the
    declared network is not checked to exist before the bind. *)
Theorem net_shape_never_calls_network_service (plan state : NodeLinkResourceModel)
  (w : W) :
  IsUnknown (NetworkId plan) = false ->
  Forall (fun c => is_network_call c = false) (calls_of (Create plan w))
  /\ Forall (fun c => is_network_call c = false)
       (calls_of (Update plan state w)).
Proof.
  intros Hshape.
  assert (Hc : runs (Create plan) (fun c => is_network_call c = false)
                 (fun _ => True)).
  { unfold Create. rewrite Hshape. cbn [negb].
    unfold_paths. unfold_calls. runs_calls idtac. }
  assert (Hu : runs (Update plan state) (fun c => is_network_call c = false)
                 (fun _ => True)).
  { unfold Update. rewrite Hshape. cbn [negb].
    unfold_paths. unfold_calls. runs_calls idtac. }
  split; [apply Hc|apply Hu].
Qed.

(** *** Rules for [runs_in] *)

Lemma runs_in_runs {A} (I : W -> Prop) (m : M A) (Pc : Call -> Prop)
  (R : outcome A -> Prop) :
  runs m Pc R -> runs_in I m Pc (fun _ o => R o).
Proof. intros Hm w _. apply Hm. Qed.

Lemma runs_in_ret {A} (I : W -> Prop) (a : A) (Pc : Call -> Prop)
  (R : W -> outcome A -> Prop) :
  (forall w, I w -> R w (Done a)) -> runs_in I (ret a) Pc R.
Proof. intros HR w Hw. split; [constructor|by apply HR]. Qed.

Lemma runs_in_bind {A B} (I : W -> Prop) (m : M A) (f : A -> M B)
  (Pc : Call -> Prop) (R1 : W -> outcome A -> Prop)
  (R : W -> outcome B -> Prop) :
  runs_in I m Pc R1 ->
  (forall a, runs_in (fun w => R1 w (Done a)) (f a) Pc R) ->
  (forall w, R1 w Panic -> R w Panic) ->
  runs_in I (bind m f) Pc R.
Proof.
  intros Hm Hf Hp w Hw. destruct (Hm w Hw) as [Hc Ho].
  unfold bind, calls_of, outcome_of, world_of in *.
  destruct (m w) as [[w1 l1] [a|]]; cbn in *.
  - destruct (Hf a w1 Ho) as [Hc2 Ho2].
    unfold calls_of, outcome_of, world_of in *.
    destruct (f a w1) as [[w2 l2] r]; cbn in *.
    split; [by apply Forall_app|done].
  - split; [done|by apply Hp].
Qed.

Lemma runs_in_bind_query {A B} (I : W -> Prop) (c : Call) (q : W -> A)
  (f : A -> M B) (Pc : Call -> Prop) (R : W -> outcome B -> Prop) :
  Pc c ->
  (forall a, runs_in I (f a) Pc R) ->
  runs_in I (bind (query c q) f) Pc R.
Proof.
  intros Hc Hf.
  apply (runs_in_bind _ _ _ _ (fun w o => I w /\ o <> Panic)).
  - intros w Hw. split; [by repeat constructor|done].
  - intros a w [Hw _]. by apply Hf.
  - by intros w [_ ?].
Qed.

(** The conditional unbind keeps whatever the binder calls keep. *)
Lemma ensureInterfaceDeleted_keeps (I : W -> Prop) (Pc : Call -> Prop)
  (labPath : string) (nodeId : Z) (port : string) (networkId : Z) :
  (forall node p net x,
     I x -> I (remote_UpdateNodeInterfaceName labPath node p net x).1) ->
  Pc (CallGetNodeInterface labPath nodeId port) ->
  Pc (CallUpdateNodeInterfaceName labPath nodeId port 0) ->
  runs_in I (ensureInterfaceDeleted labPath nodeId port networkId) Pc
    (fun w _ => I w).
Proof.
  intros Hkeep Hq Hu w Hw. rewrite ensureInterfaceDeleted_run.
  unfold calls_of, world_of, outcome_of.
  destruct (remote_GetNodeInterface labPath nodeId port w) as [[i inter]|e];
    cbn; [|by repeat constructor].
  destruct (evengsdk.NetworkId inter =? networkId); cbn;
    [|by repeat constructor].
  split; [by repeat constructor|]. by apply Hkeep.
Qed.

(** X7. An update of a node-to-node link (before and after) whose
    persisted network resolves when the update starts, on a server where
    binding or unbinding an interface does not make that network disappear,
    issues no [CreateNetwork] and no [DeleteNetwork] call: the implicit
    network is kept. *)
Theorem Update_live_network_is_renamed_in_place (plan state : NodeLinkResourceModel)
  (w : W) :
  let lab := ValueString (LabPath plan) in
  let N := ValueInt64 (NetworkId state) in
  NetworkId plan = Unknown ->
  IsNull (TargetNodeId state) = false ->
  remote_GetNetwork lab N w = None ->
  (forall node port net x,
     remote_GetNetwork lab N x = None ->
     remote_GetNetwork lab N
       (remote_UpdateNodeInterfaceName lab node port net x).1 = None) ->
  Forall (fun c => is_network_creation c = false /\ is_network_removal c = false)
    (calls_of (Update plan state w)).
Proof.
  intros lab N Hshape Hn Hlive Hkeep.
  set (Pc := fun c => is_network_creation c = false
                      /\ is_network_removal c = false).
  set (I := fun x : W => remote_GetNetwork lab N x = None).
  assert (Hnet : forall name,
             runs_in I (createOrUpdateNetwork lab N name) Pc (fun _ _ => True)).
  { intros name x Hx. unfold createOrUpdateNetwork. unfold_calls.
    unfold bind, query, mutate, calls_of. rewrite Hx. cbn.
    destruct (remote_UpdateNetwork _ _ x) as [x1 r]. cbn.
    split; [by repeat constructor|done]. }
  assert (Hlink : runs_in I (MakeNodeLinkNode plan state) Pc (fun _ _ => True)).
  { unfold MakeNodeLinkNode.
    apply (runs_in_bind I _ _ Pc (fun x _ => I x)); [|intros [e|]|done].
    { destruct (endpoint_changed _ _ _ _);
        [by apply ensureInterfaceDeleted_keeps|by apply runs_in_ret]. }
    { by apply runs_in_ret. }
    apply (runs_in_bind I _ _ Pc (fun x _ => I x)); [|intros [e|]|done].
    { destruct (endpoint_changed _ _ _ _);
        [by apply ensureInterfaceDeleted_keeps|by apply runs_in_ret]. }
    { by apply runs_in_ret. }
    unfold Node_GetNodeInterface.
    apply runs_in_bind_query; [done|].
    intros [[si sinter]|e]; [|by apply runs_in_ret].
    apply runs_in_bind_query; [done|].
    intros [[ti tinter]|e]; [|by apply runs_in_ret].
    apply (runs_in_bind I _ _ Pc (fun _ _ => True)); [apply Hnet| |done].
    intros [network err].
    apply (runs_in_runs _ _ _ (fun _ => True)).
    unfold_calls. runs_calls idtac. }
  assert (Hu : runs_in I (Update plan state) Pc (fun _ _ => True)).
  { unfold Update. rewrite Hshape, Hn. rewrite andb_false_r.
    cbn [IsUnknown negb].
    destruct (ValueInt64 (SourceNodeId plan) =? ValueInt64 (TargetNodeId plan));
      [by apply runs_in_ret|].
    apply (runs_in_bind I _ _ Pc (fun _ _ => True)); [apply Hlink| |done].
    intros [id err].
    apply (runs_in_runs _ _ _ (fun _ => True)).
    unfold_paths. unfold_calls. runs_calls idtac. }
  apply (Hu w Hlive).
Qed.



(** Under the community edition the style synchronisation hands the plan
    back after asking for the edition. *)
Lemma syncStyle_community (plan : NodeLinkResourceModel) :
  (forall x, remote_IsPro x = false) ->
  runs (syncStyle plan) (fun c => is_style_call c = false)
    (fun o => o = Done plan).
Proof.
  intros Hce. unfold syncStyle. unfold_calls.
  apply runs_bind_query; [done|]. intros x. rewrite Hce. by apply runs_ret.
Qed.

(** X9. On a server that is not the professional edition, Create,
    Update and Read never write a style and never fetch the topology, they
    cannot crash, and the style they store is the declared one (for Read,
    the persisted one) as it came in. *)
Theorem community_edition_never_syncs_style (plan state : NodeLinkResourceModel)
  (w : W) :
  (forall x, remote_IsPro x = false) ->
  (Forall (fun c => is_style_call c = false) (calls_of (Create plan w))
   /\ outcome_of (Create plan w) <> Panic
   /\ forall resp s,
        outcome_of (Create plan w) = Done resp -> State resp = SetState s ->
        Style s = Style plan)
  /\ (Forall (fun c => is_style_call c = false) (calls_of (Update plan state w))
      /\ outcome_of (Update plan state w) <> Panic
      /\ forall resp s,
           outcome_of (Update plan state w) = Done resp ->
           State resp = SetState s -> Style s = Style plan)
  /\ (Forall (fun c => is_style_call c = false) (calls_of (Read state w))
      /\ outcome_of (Read state w) <> Panic
      /\ forall resp s,
           outcome_of (Read state w) = Done resp -> State resp = SetState s ->
           Style s = Style state).
Proof.
  intros Hce.
  assert (Hc : runs (Create plan) (fun c => is_style_call c = false)
                 (fun o => o <> Panic /\
                           forall resp s, o = Done resp ->
                             State resp = SetState s -> Style s = Style plan)).
  { unfold Create, failed. unfold_calls.
    repeat (runs_head
              ltac:(first [eapply runs_bind_value;
                             [by apply syncStyle_community|]
                          |apply runs_bind_total; [|intros ?]]);
            try done;
            try (split; [done|first [by intros ? ? [= <-]
                                    |by intros ? ? [= <-] [= <-]]])).
    - unfold MakeNodeLinkNet, ensureInterfaceDeleted. unfold_calls.
      runs_total idtac.
    - unfold MakeNodeLinkNode, ensureInterfaceDeleted, createOrUpdateNetwork.
      unfold_calls. runs_total idtac. }
  assert (Hu : runs (Update plan state) (fun c => is_style_call c = false)
                 (fun o => o <> Panic /\
                           forall resp s, o = Done resp ->
                             State resp = SetState s -> Style s = Style plan)).
  { unfold Update, failed. unfold_calls.
    repeat (runs_head
              ltac:(first [eapply runs_bind_value;
                             [by apply syncStyle_community|]
                          |apply runs_bind_total; [|intros ?]]);
            try done;
            try (split; [done|first [by intros ? ? [= <-]
                                    |by intros ? ? [= <-] [= <-]]])).
    - unfold MakeNodeLinkNet, ensureInterfaceDeleted. unfold_calls.
      runs_total idtac.
    - unfold MakeNodeLinkNode, ensureInterfaceDeleted, createOrUpdateNetwork.
      unfold_calls. runs_total idtac. }
  assert (Hr : runs (Read state) (fun c => is_style_call c = false)
                 (fun o => o <> Panic /\
                           forall resp s, o = Done resp ->
                             State resp = SetState s -> Style s = Style state)).
  { unfold Read, failed. unfold_calls.
    apply (runs_bind _ _ _
             (fun o => o <> Panic /\
                       forall m e b, o = Done (m, e, b) -> Style m = Style state)).
    - destruct (IsNull (TargetNodeId state)).
      + unfold NewNodeLinkModelNet. unfold_calls.
        runs_total ltac:(split; [done|by intros ? ? ? [= <- _ _]]).
      + unfold NewNodeLinkModelNode. unfold_calls.
        runs_total ltac:(split; [done|by intros ? ? ? [= <- _ _]]).
    - intros [[m e] b] [_ Hm]. specialize (Hm m e b eq_refl).
      repeat (runs_head
                ltac:(idtac;
                      lazymatch goal with
                      | |- runs (bind (match ?x with _ => _ end) _) _ _ =>
                          destruct x eqn:?
                      | _ => apply runs_bind_total; [|intros ?]
                      end);
              try done;
              try (match goal with
                   | H : (remote_IsPro _ && _) = true |- _ =>
                       rewrite Hce in H; discriminate
                   end);
              try (split; [done|first [by intros ? ? [= <-]
                                      |by intros ? ? [= <-] [= <-]]])).
    - by intros [? _]. }
  split; [|split].
  - destruct (Hc w) as [? [? ?]]. eauto.
  - destruct (Hu w) as [? [? ?]]. eauto.
  - destruct (Hr w) as [? [? ?]]. eauto.
Qed.

End MoreProperties.

Lemma of_uint_acc_le (d : Decimal.uint) (acc : positive) :
  (acc <= Pos.of_uint_acc d acc)%positive.
Proof.
  revert acc. induction d; intros acc; cbn [Pos.of_uint_acc]; [lia|..];
    (etransitivity; [|apply IHd]; lia).
Qed.

Lemma parse_digits_acc (d : Decimal.uint) (acc : positive) :
  Z.pos (Pos.of_uint_acc d acc) <= maxUint64 ->
  parse_digits (NilEmpty.string_of_uint d) (Z.pos acc)
  = Parsed (Z.pos (Pos.of_uint_acc d acc)).
Proof.
  revert acc. induction d; intros acc Hmax;
    cbn [NilEmpty.string_of_uint parse_digits Pos.of_uint_acc] in *;
    [done|..].
  all: match goal with
       | H : Z.pos (Pos.of_uint_acc ?d ?acc') <= _ |- _ =>
           pose proof (of_uint_acc_le d acc') as Hle
       end.
  all: match goal with
       | |- context [digit_of ?c] =>
           let v := eval vm_compute in (digit_of c) in
           change (digit_of c) with v
       end; cbv beta iota.
  all: change (maxUint64 / 10 + 1) with 1844674407370955162.
  all: unfold maxUint64 in *.
  all: destruct (Z.leb_spec 1844674407370955162 (Z.pos acc)); [lia|].
  all: match goal with
       | |- context [?a <? ?b] => destruct (Z.ltb_spec a b); [lia|]
       end.
  all: rewrite <- IHd by (etransitivity; [|exact Hmax]; apply Z.eq_le_incl;
                          do 2 f_equal; lia).
  all: f_equal; lia.
Qed.

Lemma parse_digits_uint (d : Decimal.uint) :
  Z.of_N (Pos.of_uint d) <= maxUint64 ->
  parse_digits (NilEmpty.string_of_uint d) 0 = Parsed (Z.of_N (Pos.of_uint d)).
Proof.
  induction d; intros Hmax;
    cbn [NilEmpty.string_of_uint parse_digits Pos.of_uint] in *;
    [done|..]; cbv [digit_of]; cbn; try (by apply IHd);
    apply (parse_digits_acc d); exact Hmax.
Qed.

Lemma parse_unsigned_pos (p : positive) :
  Z.pos p <= maxUint64 ->
  parse_unsigned (NilZero.string_of_uint (Pos.to_uint p)) = Parsed (Z.pos p).
Proof.
  intros Hmax.
  pose proof (Unsigned.to_uint_nonnil p) as Hnil.
  pose proof (parse_digits_uint (Pos.to_uint p)) as Hd.
  rewrite Unsigned.of_to in Hd. cbn in Hd. specialize (Hd Hmax).
  unfold NilZero.string_of_uint, parse_unsigned.
  destruct (Pos.to_uint p); [done|..]; exact Hd.
Qed.

Lemma Atoi_Itoa (z : Z) :
  - 2 ^ 63 <= z <= 2 ^ 63 - 1 -> Atoi (Itoa z) = z.
Proof.
  intros Hz. unfold Itoa. destruct z as [|p|p]; [done|..].
  - cbn [Z.to_int NilZero.string_of_int].
    assert (Hmax : Z.pos p <= maxUint64) by (unfold maxUint64; lia).
    pose proof (parse_unsigned_pos p Hmax) as Hp.
    pose proof (Unsigned.to_uint_nonnil p) as Hnil.
    unfold Atoi. unfold NilZero.string_of_uint in *.
    destruct (Pos.to_uint p); [done|..]; cbn [NilEmpty.string_of_uint] in *;
      rewrite Hp; destruct (Z.leb_spec (2 ^ 63) (Z.pos p)); lia.
  - cbn [Z.to_int NilZero.string_of_int].
    assert (Hmax : Z.pos p <= maxUint64) by (unfold maxUint64; lia).
    unfold Atoi. rewrite (parse_unsigned_pos p Hmax).
    destruct (Z.ltb_spec (2 ^ 63) (Z.pos p)); lia.
Qed.

Lemma int32_id (z : Z) : int32_range z -> int32 z = z.
Proof.
  unfold int32_range, int32. intros Hz. rewrite Z.mod_small; lia.
Qed.

Section StyleProperties.

Context `{F32 : Float32}.

(** Every field of a style that [styleOfEntry] returns, from the entry. *)
Lemma styleOfEntry_fields (node : gmap string jsonv) (st : StyleResourceModel) :
  styleOfEntry node = Done st ->
  exists srcpos dstpos width labelpos stub curviness beziercurviness round
         midpoint,
    node !! "srcpos" = Some (JString srcpos)
    /\ node !! "dstpos" = Some (JString dstpos)
    /\ node !! "width" = Some (JString width)
    /\ node !! "labelpos" = Some (JString labelpos)
    /\ node !! "stub" = Some (JString stub)
    /\ node !! "curviness" = Some (JString curviness)
    /\ node !! "beziercurviness" = Some (JString beziercurviness)
    /\ node !! "round" = Some (JString round)
    /\ node !! "midpoint" = Some (JString midpoint)
    /\ st = {| Style_ := Known (attribute_or (node !! "style") "Solid");
               Color := Known (attribute_or (node !! "color") "#3e7089");
               SrcPos := Known (ParseFloat32 srcpos);
               DstPos := Known (ParseFloat32 dstpos);
               LinkStyle := Known (attribute_or (node !! "linkstyle") "Straight");
               Width := Known (int32 (Atoi width));
               Label := Known (attribute_or (node !! "label") "");
               LabelPos := Known (ParseFloat32 labelpos);
               Stub := Known (int32 (Atoi stub));
               Curviness := Known (int32 (Atoi curviness));
               BezierCurviness := Known (int32 (Atoi beziercurviness));
               Round := Known (int32 (Atoi round));
               Midpoint := Known (ParseFloat32 midpoint) |}.
Proof.
  unfold styleOfEntry.
  destruct (node !! "srcpos") as [[srcpos| | |]|]; cbn; try discriminate.
  destruct (node !! "dstpos") as [[dstpos| | |]|]; cbn; try discriminate.
  destruct (node !! "width") as [[width| | |]|]; cbn; try discriminate.
  destruct (node !! "labelpos") as [[labelpos| | |]|]; cbn; try discriminate.
  destruct (node !! "stub") as [[stub| | |]|]; cbn; try discriminate.
  destruct (node !! "curviness") as [[curviness| | |]|]; cbn;
    try discriminate.
  destruct (node !! "beziercurviness") as [[beziercurviness| | |]|]; cbn;
    try discriminate.
  destruct (node !! "round") as [[round| | |]|]; cbn; try discriminate.
  destruct (node !! "midpoint") as [[midpoint| | |]|]; cbn; try discriminate.
  intros [= <-].
  exists srcpos, dstpos, width, labelpos, stub, curviness, beziercurviness,
    round, midpoint.
  repeat split.
  f_equal; f_equal.
  - destruct (node !! "style") as [[s| | |]|]; cbn; try done.
    destruct (String.eqb s ""); by rewrite ?orb_false_l, ?orb_true_l.
  - destruct (node !! "color") as [[s| | |]|]; cbn; try done.
    destruct (String.eqb s ""); by rewrite ?orb_false_l, ?orb_true_l.
  - destruct (node !! "linkstyle") as [[s| | |]|]; cbn; try done.
    destruct (String.eqb s ""); by rewrite ?orb_false_l, ?orb_true_l.
  - destruct (node !! "label") as [[s| | |]|]; cbn; try done.
    by destruct (String.eqb_spec s "") as [->|].
Qed.

(** X15. The four checked string attributes of a style read back: the
    entry's value when it is a non-empty string, otherwise "Solid" for the
    style, "#3e7089" for the colour, "Straight" for the link style and the
    empty string for the label; none of them is ever null. *)
Theorem styleOfEntry_string_defaults (node : gmap string jsonv)
  (st : StyleResourceModel) :
  styleOfEntry node = Done st ->
  Style_ st = Known (attribute_or (node !! "style") "Solid")
  /\ Color st = Known (attribute_or (node !! "color") "#3e7089")
  /\ LinkStyle st = Known (attribute_or (node !! "linkstyle") "Straight")
  /\ Label st = Known (attribute_or (node !! "label") "").
Proof.
  intros Hst. destruct (styleOfEntry_fields node st Hst)
    as (? & ? & ? & ? & ? & ? & ? & ? & ? & _ & _ & _ & _ & _ & _ & _ & _ & _
        & ->).
  done.
Qed.

Ltac probe node k :=
  destruct (node !! k) as [[?| | |]|] eqn:?; cbn;
  [|by (intros _; exists k;
        split; [apply list_elem_of_In; cbn; tauto|intros ?; congruence])..].

(** X16. The read-back of a style crashes exactly when one of the nine
    attributes it asserts to be strings (the positions, the width, the
    stub, the curviness values, the rounding and the midpoint) is missing
    from the entry or is not a string. *)
Theorem styleOfEntry_panics_iff (node : gmap string jsonv) :
  styleOfEntry node = Panic <->
  exists k, k ∈ asserted_attributes /\ forall s, node !! k <> Some (JString s).
Proof.
  split.
  - unfold styleOfEntry.
    probe node "srcpos". probe node "dstpos". probe node "width".
    probe node "labelpos". probe node "stub". probe node "curviness".
    probe node "beziercurviness". probe node "round". probe node "midpoint".
    discriminate.
  - intros (k & Hk & Hns). unfold asserted_attributes in Hk.
    destruct (styleOfEntry node) as [st|] eqn:Hst; [exfalso|done].
    destruct (styleOfEntry_fields node st Hst)
      as (? & ? & ? & ? & ? & ? & ? & ? & ? & H1 & H2 & H3 & H4 & H5 & H6 & H7
          & H8 & H9 & _).
    repeat (apply elem_of_cons in Hk as [->|Hk]; [by eapply Hns|]).
    by apply elem_of_nil in Hk.
Qed.

Lemma scanTopology_without_match (plan : NodeLinkResourceModel)
  (topology : list (gmap string jsonv)) :
  Forall (fun node => entry_matches plan node = false) topology ->
  scanTopology plan topology = Done emptyStyle.
Proof.
  induction 1 as [|node rest Hnode _ IH]; [done|].
  cbn. by rewrite Hnode.
Qed.

Lemma scanTopology_first_match (plan : NodeLinkResourceModel)
  (before after : list (gmap string jsonv)) (node : gmap string jsonv) :
  Forall (fun n => entry_matches plan n = false) before ->
  entry_matches plan node = true ->
  scanTopology plan (before ++ node :: after) = styleOfEntry node.
Proof.
  intros Hbefore Hnode. induction Hbefore as [|n rest Hn _ IH]; cbn.
  - by rewrite Hnode.
  - by rewrite Hn.
Qed.

Lemma entry_matches_iff (plan : NodeLinkResourceModel)
  (node : gmap string jsonv) :
  entry_matches plan node = true <->
  node !! "source"
    = Some (JString ("node" +:+ Itoa (ValueInt64 (TargetNodeId plan))))
  /\ node !! "source_label" = Some (JString (ValueString (TargetPort plan))).
Proof.
  unfold entry_matches, assertString2.
  destruct (node !! "source") as [[src| | |]|];
    destruct (node !! "source_label") as [[lbl| | |]|];
    try (split; [discriminate|intros [? ?]; discriminate]).
  rewrite andb_true_iff, !String.eqb_eq. split.
  - by intros [-> ->].
  - by intros [[= ->] [= ->]].
Qed.

Context {W : Type} `{CL : !Client W}.

(** X13. When no entry of the topology listing is the one of the
    link's target endpoint, [GetTopologyForTargetNode] answers the empty
    style (every attribute null) after its one call, whatever the entries
    hold; it does not crash on entries it does not select. *)
Theorem GetTopologyForTargetNode_without_match (plan : NodeLinkResourceModel)
  (w : W) :
  Forall (fun node => entry_matches plan node = false)
    (remote_GetTopology (ValueString (LabPath plan)) w).1 ->
  GetTopologyForTargetNode plan w =
    (w, [CallGetTopology (ValueString (LabPath plan))], Done emptyStyle).
Proof.
  intros Hnone. unfold GetTopologyForTargetNode, Lab_GetTopology, bind, query,
    lift.
  by rewrite (scanTopology_without_match _ _ Hnone).
Qed.

(** X14. [GetTopologyForTargetNode] reads the style off the first
    entry of the listing that matches the target endpoint; entries after it
    are not looked at, be they matching or malformed. *)
Theorem GetTopologyForTargetNode_first_match (plan : NodeLinkResourceModel)
  (w : W) (before after : list (gmap string jsonv)) (node : gmap string jsonv) :
  (remote_GetTopology (ValueString (LabPath plan)) w).1
    = before ++ node :: after ->
  Forall (fun n => entry_matches plan n = false) before ->
  entry_matches plan node = true ->
  GetTopologyForTargetNode plan w =
    (w, [CallGetTopology (ValueString (LabPath plan))], styleOfEntry node).
Proof.
  intros Hlist Hbefore Hnode.
  unfold GetTopologyForTargetNode, Lab_GetTopology, bind, query, lift.
  by rewrite Hlist, (scanTopology_first_match _ _ _ _ Hbefore Hnode).
Qed.

(** X17. The style [MakeNodeStyle] sends is read back unchanged by the
    topology reader when the server echoes it: each integer attribute
    (width, stub, curviness, bezier curviness, round) survives the decimal
    rendering on the way out and the parsing on the way in, a non-empty
    style name and any label come back as declared. The write is one call,
    and its failure is not reported. *)
Theorem style_write_then_read_back (plan : NodeLinkResourceModel)
  (st : StyleResourceModel) (w : W) :
  Style plan = Some st ->
  exists payload,
    let lab := ValueString (LabPath plan) in
    let tn := ValueInt64 (TargetNodeId plan) in
    let tp := ValueString (TargetPort plan) in
    MakeNodeStyle plan w =
      (fst (remote_UpdateNodeInterfaceStyleByName lab tn tp payload w),
       [CallUpdateNodeInterfaceStyleByName lab tn tp payload], Done tt)
    /\ forall node st',
         styleOfEntry node = Done st' ->
         (int32_range (ValueInt32 (Width st)) ->
          node !! "width" = Some (JString (evengsdk.Width payload)) ->
          Width st' = Known (ValueInt32 (Width st)))
         /\ (int32_range (ValueInt32 (Stub st)) ->
             node !! "stub" = Some (JString (evengsdk.Stub payload)) ->
             Stub st' = Known (ValueInt32 (Stub st)))
         /\ (int32_range (ValueInt32 (Curviness st)) ->
             node !! "curviness" = Some (JString (evengsdk.Curviness payload)) ->
             Curviness st' = Known (ValueInt32 (Curviness st)))
         /\ (int32_range (ValueInt32 (BezierCurviness st)) ->
             node !! "beziercurviness"
               = Some (JString (evengsdk.Beziercurviness payload)) ->
             BezierCurviness st' = Known (ValueInt32 (BezierCurviness st)))
         /\ (int32_range (ValueInt32 (Round st)) ->
             node !! "round" = Some (JString (evengsdk.Round payload)) ->
             Round st' = Known (ValueInt32 (Round st)))
         /\ (ValueString (Style_ st) <> "" ->
             node !! "style" = Some (JString (evengsdk.Style_ payload)) ->
             Style_ st' = Known (ValueString (Style_ st)))
         /\ (node !! "label" = Some (JString (evengsdk.Label payload)) ->
             Label st' = Known (ValueString (Label st))).
Proof.
  intros Hstyle. unfold MakeNodeStyle. rewrite Hstyle.
  exists {| evengsdk.Style_ := ValueString (Style_ st);
            evengsdk.Color := ValueString (Color st);
            evengsdk.Srcpos := ValueFloat32 (SrcPos st);
            evengsdk.Dstpos := ValueFloat32 (DstPos st);
            evengsdk.Linkstyle := ValueString (LinkStyle st);
            evengsdk.Width := Itoa (ValueInt32 (Width st));
            evengsdk.Label := ValueString (Label st);
            evengsdk.Labelpos := ValueFloat32 (LabelPos st);
            evengsdk.Stub := Itoa (ValueInt32 (Stub st));
            evengsdk.Curviness := Itoa (ValueInt32 (Curviness st));
            evengsdk.Beziercurviness := Itoa (ValueInt32 (BezierCurviness st));
            evengsdk.Round := Itoa (ValueInt32 (Round st));
            evengsdk.Midpoint := ValueFloat32 (Midpoint st) |}.
  split.
  - unfold Node_UpdateNodeInterfaceStyleByName, bind, mutate, ret.
    destruct (remote_UpdateNodeInterfaceStyleByName _ _ _ _ w) as [w1 e].
    reflexivity.
  - intros node st' Hst'.
    destruct (styleOfEntry_fields node st' Hst')
      as (? & ? & width & ? & stub & curv & bez & round & ? & _ & _ & Hw & _
          & Hs & Hc & Hb & Hr & _ & ->).
    cbn [Width Stub Curviness BezierCurviness Round Style_ Label
         evengsdk.Width evengsdk.Stub evengsdk.Curviness
         evengsdk.Beziercurviness evengsdk.Round evengsdk.Style_
         evengsdk.Label].
    assert (Hback : forall v, int32_range v -> int32 (Atoi (Itoa v)) = v).
    { intros v Hv. rewrite Atoi_Itoa; [by apply int32_id|].
      unfold int32_range in Hv. lia. }
    repeat split.
    + intros Hv Hecho. rewrite Hw in Hecho. injection Hecho as ->.
      by rewrite Hback.
    + intros Hv Hecho. rewrite Hs in Hecho. injection Hecho as ->.
      by rewrite Hback.
    + intros Hv Hecho. rewrite Hc in Hecho. injection Hecho as ->.
      by rewrite Hback.
    + intros Hv Hecho. rewrite Hb in Hecho. injection Hecho as ->.
      by rewrite Hback.
    + intros Hv Hecho. rewrite Hr in Hecho. injection Hecho as ->.
      by rewrite Hback.
    + intros Hne Hecho. rewrite Hecho. cbn.
      apply String.eqb_neq in Hne. by rewrite Hne.
    + intros Hecho. rewrite Hecho. cbn.
      by destruct (String.eqb_spec (ValueString (Label st)) "") as [->|].
Qed.

End StyleProperties.

#[local] Set Warnings "-clear-no-such-hyp".

Lemma padded_lookup (keys : gset string) (m : gmap string jsonv) (k : string) :
  padded keys m !! k =
  match m !! k with
  | Some v => Some v
  | None => if decide (k ∈ keys) then Some (JString "") else None
  end.
Proof.
  unfold padded. rewrite lookup_union, lookup_gset_to_gmap.
  destruct (m !! k), (decide (k ∈ keys));
    rewrite ?option_guard_True, ?option_guard_False by done; done.
Qed.

Lemma padded_eq (keys keys' : gset string) (m : gmap string jsonv) :
  keys ∪ dom m = keys' ∪ dom m -> padded keys m = padded keys' m.
Proof.
  intros Heq. apply map_eq. intros k. rewrite !padded_lookup.
  destruct (m !! k) as [v|] eqn:Hk; [done|].
  apply not_elem_of_dom in Hk.
  destruct (decide (k ∈ keys)), (decide (k ∈ keys')); try done; set_solver.
Qed.

Lemma padded_padded (keys keys' : gset string) (m : gmap string jsonv) :
  padded keys (padded keys' m) = padded (keys ∪ keys') m.
Proof.
  apply map_eq. intros k. rewrite !padded_lookup.
  destruct (m !! k); [done|].
  destruct (decide (k ∈ keys)), (decide (k ∈ keys')),
    (decide (k ∈ keys ∪ keys')); try done; set_solver.
Qed.

Lemma padded_empty (m : gmap string jsonv) : padded ∅ m = m.
Proof.
  apply map_eq. intros k. rewrite padded_lookup.
  destruct (m !! k); [done|]. by rewrite decide_False by set_solver.
Qed.

Lemma dom_padded (keys : gset string) (m : gmap string jsonv) :
  dom (padded keys m) = dom m ∪ keys.
Proof. unfold padded. by rewrite dom_union_L, dom_gset_to_gmap. Qed.

Lemma fill_missing_padded (m m2 : gmap string jsonv) :
  fill_missing m m2 = padded (dom m2) m.
Proof.
  unfold fill_missing.
  apply (map_fold_weak_ind (fun r m2 => r = padded (dom m2) m)).
  - by rewrite dom_empty_L, padded_empty.
  - intros k x m' r Hk ->. rewrite dom_insert_L.
    rewrite padded_lookup.
    destruct (m !! k) as [v|] eqn:Hm.
    + apply padded_eq. apply elem_of_dom_2 in Hm. set_solver.
    + apply not_elem_of_dom in Hk. rewrite decide_False by done.
      apply map_eq. intros j. rewrite lookup_insert, !padded_lookup.
      destruct (decide (k = j)) as [->|Hne].
      * rewrite Hm. by rewrite decide_True by set_solver.
      * destruct (m !! j); [done|].
        destruct (decide (j ∈ dom m')), (decide (j ∈ {[k]} ∪ dom m'));
          try done; set_solver.
Qed.

Lemma elem_of_all_keys (maps : list (gmap string jsonv)) (k : string) :
  k ∈ all_keys maps <-> exists p m, maps !! p = Some m /\ k ∈ dom m.
Proof.
  unfold all_keys. rewrite elem_of_union_list. split.
  - intros (X & HX & Hk). apply list_elem_of_fmap in HX as (m & -> & Hm).
    apply list_elem_of_lookup in Hm as [p Hp]. eauto.
  - intros (p & m & Hp & Hk). exists (dom m). split; [|done].
    apply list_elem_of_fmap. exists m. split; [done|].
    by eapply list_elem_of_lookup_2.
Qed.

Lemma fill_from_others_padded (i d : nat) (maps : list (gmap string jsonv))
  (m : gmap string jsonv) :
  exists keys : gset string,
    fill_from_others i d maps m = padded keys m
    /\ forall k, k ∈ keys <->
         exists p m2, maps !! p = Some m2 /\ (d + p)%nat <> i /\ k ∈ dom m2.
Proof.
  revert d m. induction maps as [|m2 rest IH]; intros d m.
  - exists ∅. split; [by rewrite padded_empty|].
    intros k. split; [set_solver|]. by intros (p & ? & [=] & _).
  - cbn [fill_from_others].
    destruct (IH (S d) (if decide (i = d) then m else fill_missing m m2))
      as (keys & Heq & Hkeys).
    destruct (decide (i = d)) as [->|Hne].
    + exists keys. split; [done|]. intros k. rewrite Hkeys. split.
      * intros (p & m3 & Hp & Hd & Hk). exists (S p), m3.
        split; [done|]. split; [lia|done].
      * intros ([|p] & m3 & Hp & Hd & Hk); [lia|].
        exists p, m3. split; [done|]. split; [lia|done].
    + exists (keys ∪ dom m2). split.
      { by rewrite Heq, fill_missing_padded, padded_padded. }
      intros k. rewrite elem_of_union, Hkeys. split.
      * intros [(p & m3 & Hp & Hd & Hk)|Hk].
        -- exists (S p), m3. split; [done|]. split; [lia|done].
        -- exists O, m2. split; [done|]. split; [lia|done].
      * intros ([|p] & m3 & Hp & Hd & Hk).
        -- right. by injection Hp as ->.
        -- left. exists p, m3. split; [done|]. split; [lia|done].
Qed.

Lemma fill_from_others_all (i : nat) (maps : list (gmap string jsonv))
  (m : gmap string jsonv) :
  maps !! i = Some m ->
  fill_from_others i 0 maps m = padded (all_keys maps) m.
Proof.
  intros Hi. destruct (fill_from_others_padded i 0 maps m)
    as (keys & -> & Hkeys).
  apply padded_eq. apply set_eq. intros k.
  rewrite !elem_of_union, Hkeys, elem_of_all_keys. split.
  - intros [(p & m2 & Hp & _ & Hk)|Hk]; eauto.
  - intros [(p & m2 & Hp & Hk)|Hk]; [|by right].
    destruct (decide (p = i)) as [->|Hne].
    + right. rewrite Hi in Hp. by injection Hp as ->.
    + left. exists p, m2. split; [done|]. split; [lia|done].
Qed.

Lemma all_keys_partly_padded (i : nat) (maps : list (gmap string jsonv)) :
  all_keys ((padded (all_keys maps) <$> take i maps) ++ drop i maps)
  = all_keys maps.
Proof.
  apply set_eq. intros k. rewrite !elem_of_all_keys. split.
  - intros (p & m & Hp & Hk).
    apply lookup_app_Some in Hp as [Hp|[_ Hp]].
    + apply list_lookup_fmap_Some in Hp as (m0 & -> & Hm0).
      rewrite dom_padded, elem_of_union in Hk.
      destruct Hk as [Hk|Hk]; [|by apply elem_of_all_keys].
      apply lookup_take_Some in Hm0 as [Hm0 _]. eauto.
    + rewrite lookup_drop in Hp. eauto.
  - intros (p & m & Hp & Hk).
    destruct (decide (p < i)%nat) as [Hlt|Hge].
    + exists p, (padded (all_keys maps) m). split.
      * apply lookup_app_l_Some. rewrite list_lookup_fmap.
        rewrite lookup_take_lt by done. by rewrite Hp.
      * rewrite dom_padded. set_solver.
    + assert (Hlen : length (padded (all_keys maps) <$> take i maps) = i).
      { rewrite length_fmap, length_take. apply lookup_lt_Some in Hp. lia. }
      exists p, m. split; [|done].
      rewrite lookup_app_r by lia. rewrite Hlen, lookup_drop.
      by replace (i + (p - i))%nat with p by lia.
Qed.

Lemma harmonize_from_padded (n i : nat) (maps : list (gmap string jsonv)) :
  (i + n)%nat = length maps ->
  harmonize_from i n
    ((padded (all_keys maps) <$> take i maps) ++ drop i maps)
  = padded (all_keys maps) <$> maps.
Proof.
  revert i. induction n as [|n IH]; intros i Hlen.
  - cbn. rewrite take_ge, drop_ge by lia. by rewrite app_nil_r.
  - cbn [harmonize_from].
    destruct (lookup_lt_is_Some_2 maps i) as [m Hm]; [lia|].
    assert (Hilen : length (padded (all_keys maps) <$> take i maps) = i).
    { rewrite length_fmap, length_take. lia. }
    assert (Hcur : ((padded (all_keys maps) <$> take i maps) ++ drop i maps)
                     !! i = Some m).
    { rewrite lookup_app_r by lia. rewrite Hilen, Nat.sub_diag, lookup_drop.
      by rewrite Nat.add_0_r. }
    rewrite Hcur, (fill_from_others_all _ _ _ Hcur), all_keys_partly_padded.
    rewrite <- (IH (S i)) by lia. f_equal.
    rewrite (drop_S _ _ _ Hm), (take_S_r _ _ _ Hm), fmap_app.
    rewrite <- (Nat.add_0_r i) at 1. rewrite <- Hilen at 1.
    rewrite insert_app_r. cbn. by rewrite <- app_assoc.
Qed.

(** What [harmonizeMaps] computes: every map padded to the keys of the
    listing. *)
Lemma harmonizeMaps_padded (maps : list (gmap string jsonv)) :
  harmonizeMaps maps = padded (all_keys maps) <$> maps.
Proof.
  unfold harmonizeMaps. destruct (Nat.eqb_spec (length maps) 0) as [Hz|Hnz].
  - by apply nil_length_inv in Hz as ->.
  - by rewrite <- (harmonize_from_padded (length maps) 0 maps).
Qed.

Lemma dom_harmonized (maps : list (gmap string jsonv)) (i : nat)
  (m' : gmap string jsonv) :
  harmonizeMaps maps !! i = Some m' -> dom m' = all_keys maps.
Proof.
  rewrite harmonizeMaps_padded. intros Hi.
  apply list_lookup_fmap_Some in Hi as (m & -> & Hm).
  rewrite dom_padded. apply set_eq. intros k. rewrite elem_of_union.
  split; [|by right]. intros [Hk|Hk]; [|done].
  apply elem_of_all_keys. eauto.
Qed.

(** X18. [harmonizeMaps] gives every map of the listing the same key
    set, the union of all their keys: a key the map had keeps its value, a
    key it lacked gets the empty string, and no other key appears. *)
Theorem harmonizeMaps_uniform_keys (maps : list (gmap string jsonv)) (i : nat)
  (m' : gmap string jsonv) :
  harmonizeMaps maps !! i = Some m' ->
  dom m' = all_keys maps
  /\ exists m,
       maps !! i = Some m
       /\ (forall k v, m !! k = Some v -> m' !! k = Some v)
       /\ (forall k, m !! k = None -> k ∈ all_keys maps ->
                     m' !! k = Some (JString ""))
       /\ (forall k, k ∉ all_keys maps -> m' !! k = None).
Proof.
  rewrite harmonizeMaps_padded. intros Hi.
  apply list_lookup_fmap_Some in Hi as (m & -> & Hm).
  split.
  - rewrite dom_padded. apply set_eq. intros k. rewrite elem_of_union.
    split; [|by right]. intros [Hk|Hk]; [|done].
    apply elem_of_all_keys. eauto.
  - exists m. split; [done|]. repeat split.
    + intros k v Hk. by rewrite padded_lookup, Hk.
    + intros k Hk Hin. rewrite padded_lookup, Hk. by rewrite decide_True.
    + intros k Hout. rewrite padded_lookup.
      destruct (m !! k) as [v|] eqn:Hk; [|by rewrite decide_False].
      exfalso. apply Hout. apply elem_of_all_keys.
      exists i, m. split; [done|]. by apply elem_of_dom_2 in Hk.
Qed.

(** X19. [harmonizeMaps] keeps the number of entries, and harmonizing
    a harmonized listing changes nothing. *)
Theorem harmonizeMaps_idempotent (maps : list (gmap string jsonv)) :
  length (harmonizeMaps maps) = length maps
  /\ harmonizeMaps (harmonizeMaps maps) = harmonizeMaps maps.
Proof.
  split; [by rewrite harmonizeMaps_padded, length_fmap|].
  rewrite (harmonizeMaps_padded (harmonizeMaps maps)).
  rewrite harmonizeMaps_padded at 2 3.
  rewrite <- list_fmap_compose. apply list_fmap_ext. intros p m Hm. cbn.
  rewrite padded_padded. apply padded_eq.
  apply set_eq. intros k. rewrite !elem_of_union, !elem_of_all_keys.
  split; [|tauto].
  intros [[(q & m2 & Hq & Hk)|Hk]|Hk]; [|by left|by right].
  rewrite (dom_harmonized maps q m2 Hq) in Hk. by left; apply elem_of_all_keys.
Qed.

Section LabServiceProperties.

Context {W : Type} `{SVC : !LabService W}.

Import startnodes.

Lemma close_rounds_run (tries : nat) (delay : Z) (err : error) (w : W) :
  close_rounds tries delay err w =
    (Nat.iter tries (close_round delay) w,
     concat (replicate tries [CallCloseLab; CallSleep delay]),
     match tries with
     | O => err
     | S n => snd (svc_CloseLab (Nat.iter n (close_round delay) w))
     end).
Proof.
  revert err w. induction tries as [|n IH]; intros err w; [done|].
  cbn [close_rounds]. unfold ebind, ecall.
  rewrite Nat.iter_succ_r. unfold close_round at 2.
  destruct (svc_CloseLab w) as [w1 e] eqn:Hclose. rewrite IH. cbn.
  f_equal. destruct n as [|n].
  - cbn. by rewrite Hclose.
  - rewrite (Nat.iter_succ_r n). unfold close_round at 3.
    by rewrite Hclose.
Qed.

(** X20. [StartLab] when the session has no lab open, or has the lab
    to start open: no node is stopped, no lab is closed and nothing waits;
    the nodes are started right away and the start time is the clock after
    the start. A failed start is reported as "Failed to start nodes: ..."
    with time 0. *)
Theorem StartLab_without_other_lab (model : startNodesResourceModel)
  (w w1 : W) (auth : sdk.Auth) :
  svc_GetAuth w = (w1, Ok auth) ->
  sdk.Lab auth = ValueString (LabPath model) \/ sdk.Lab auth = "" ->
  StartLab model w =
    match svc_StartNodes (ValueString (LabPath model)) w1 with
    | (w2, Some e) =>
        (w2, [CallGetAuth; CallStartNodes (ValueString (LabPath model))],
         (0, Some ("Failed to start nodes: " +:+ e)))
    | (w2, None) =>
        (w2, [CallGetAuth; CallStartNodes (ValueString (LabPath model));
              CallNow],
         (svc_Now w2, None))
    end.
Proof.
  intros Hauth Hsame.
  assert (Hno : (String.eqb (sdk.Lab auth) (ValueString (LabPath model))
                 || String.eqb (sdk.Lab auth) "") = true).
  { apply orb_true_iff. by rewrite !String.eqb_eq. }
  assert (Hother : (negb (String.eqb (sdk.Lab auth) (ValueString (LabPath model)))
                    && negb (String.eqb (sdk.Lab auth) "")) = false).
  { rewrite <- negb_orb. by rewrite Hno. }
  unfold StartLab, ebind, ecall, eret. rewrite Hauth. cbn zeta.
  rewrite Hother, Hno. cbn [close_rounds]. unfold eret.
  destruct (svc_StartNodes _ w1) as [w2 [e|]]; done.
Qed.

(** X21. [StartLab] when the session has another lab open: that
    lab's nodes are stopped first (a failure ends the call there); then
    [CloseLab] is called five times, each followed by a 15 second sleep,
    whatever the calls answer; only the answer of the fifth call counts, so
    earlier failures are dropped and a last failure is reported even if an
    earlier call had succeeded; then the nodes are started. *)
Theorem StartLab_with_other_lab_open (model : startNodesResourceModel)
  (w w1 w2 : W) (auth : sdk.Auth) (stopped : error) :
  let lab := ValueString (LabPath model) in
  let closing := concat (replicate 5 [CallCloseLab; CallSleep 15]) in
  let closed := Nat.iter 5 (close_round 15) w2 in
  svc_GetAuth w = (w1, Ok auth) ->
  sdk.Lab auth <> lab ->
  sdk.Lab auth <> "" ->
  svc_StopNodes (sdk.Lab auth) w1 = (w2, stopped) ->
  StartLab model w =
    match stopped with
    | Some e =>
        (w2, [CallGetAuth; CallStopNodes (sdk.Lab auth)],
         (0, Some ("Failed to stop nodes: " +:+ e)))
    | None =>
        match snd (svc_CloseLab (Nat.iter 4 (close_round 15) w2)) with
        | Some e =>
            (closed, [CallGetAuth; CallStopNodes (sdk.Lab auth)] ++ closing,
             (0, Some ("Failed to close lab: " +:+ e)))
        | None =>
            match svc_StartNodes lab closed with
            | (w3, Some e) =>
                (w3,
                 [CallGetAuth; CallStopNodes (sdk.Lab auth)] ++ closing
                 ++ [CallStartNodes lab],
                 (0, Some ("Failed to start nodes: " +:+ e)))
            | (w3, None) =>
                (w3,
                 [CallGetAuth; CallStopNodes (sdk.Lab auth)] ++ closing
                 ++ [CallStartNodes lab; CallNow],
                 (svc_Now w3, None))
            end
        end
    end.
Proof.
  intros lab closing closed Hauth Hlab Hempty Hstop. subst lab closing closed.
  apply String.eqb_neq in Hlab, Hempty.
  unfold StartLab. unfold ebind at 1. unfold ecall at 1. rewrite Hauth.
  cbn zeta. rewrite Hlab, Hempty. cbn [negb andb orb].
  unfold ebind at 1. unfold ecall at 1. rewrite Hstop.
  destruct stopped as [e|]; [done|].
  unfold ebind at 1. rewrite close_rounds_run.
  destruct (snd (svc_CloseLab (Nat.iter 4 (close_round 15) w2))) as [e|]; [done|].
  unfold ebind, ecall, eret.
  destruct (svc_StartNodes _ _) as [w3 [e|]]; done.
Qed.

End LabServiceProperties.

Section LabResourceProperties.

Context {W : Type} `{SVC : !LabService W}.

Import labresource.

(** X22. [MoveLab] to another folder. If a lab already sits at the
    target path, no move is issued: with another id the call fails with
    "Lab already exists in the new folder" and the state is unchanged, with
    the lab's own id the state's path is set to the target path. If the
    lookup fails the move is issued; the state's path is set only if the
    move succeeds. *)
Theorem MoveLab_outcomes (plan state : labResourceModel) (w w1 : W)
  (found : result sdk.LabInfo) :
  let folder := ValueString (FolderPath plan) in
  let target := folder +:+ "/" +:+ Name state +:+ ".unl" in
  folder <> ValueString (FolderPath state) ->
  svc_GetLab target w = (w1, found) ->
  MoveLab plan state w =
    match found with
    | Ok other =>
        (w1, [CallGetLab target],
         if String.eqb (sdk.Id other) (ValueString (Id state))
         then (set_Path state (Known target), None)
         else (state, Some "Lab already exists in the new folder"))
    | Err _ =>
        match svc_MoveLab (ValueString (Path state)) folder w1 with
        | (w2, Some e) =>
            (w2, [CallGetLab target; CallMoveLab (ValueString (Path state)) folder],
             (state, Some e))
        | (w2, None) =>
            (w2, [CallGetLab target; CallMoveLab (ValueString (Path state)) folder],
             (set_Path state (Known target), None))
        end
    end.
Proof.
  intros folder target Hfolder Hget. subst folder target.
  apply String.eqb_neq in Hfolder.
  unfold MoveLab. rewrite Hfolder. cbn [negb].
  unfold ebind, ecall, eret. rewrite Hget.
  destruct found as [other|e].
  - by destruct (String.eqb (sdk.Id other) _).
  - by destruct (svc_MoveLab _ _ w1) as [w2 [e'|]].
Qed.

(** [MoveLab] within the same folder does nothing. *)
Lemma MoveLab_same_folder (plan state : labResourceModel) (w : W) :
  ValueString (FolderPath plan) = ValueString (FolderPath state) ->
  MoveLab plan state w = (w, [], (state, None)).
Proof.
  intros Hsame. unfold MoveLab. rewrite Hsame, String.eqb_refl. done.
Qed.

(** X23. The state Read of a lab stores never holds an empty string
    for the author, the body or the description (an empty answer is stored
    as null), holds the server's value otherwise, and keeps the persisted
    path, id, name and folder. *)
Theorem lab_Read_never_stores_empty_text (state s : labResourceModel) (w : W) :
  action_of (Read state w).2 = Put s ->
  exists lab,
    (svc_GetLab (ValueString (Path state)) w).2 = Ok lab
    /\ Author s <> Known "" /\ Body s <> Known "" /\ Description s <> Known ""
    /\ ValueString (Author s) = sdk.Author lab
    /\ ValueString (Body s) = sdk.Body lab
    /\ ValueString (Description s) = sdk.Description lab
    /\ (Path s, Id s, Name s, FolderPath s)
       = (Path state, Id state, Name state, FolderPath state)
    /\ (sdk.Author lab = "" -> Author s = Null)
    /\ (sdk.Body lab = "" -> Body s = Null)
    /\ (sdk.Description lab = "" -> Description s = Null).
Proof.
  unfold Read, ebind, ecall, eret.
  destruct (svc_GetLab _ w) as [w1 [lab|e]]; cbn; [|done].
  intros [= <-]. exists lab. cbn. unfold stringToBasetype.
  split; [done|].
  destruct (String.eqb_spec (sdk.Author lab) ""),
    (String.eqb_spec (sdk.Body lab) ""),
    (String.eqb_spec (sdk.Description lab) "");
    cbn; repeat split; congruence.
Qed.

End LabResourceProperties.

Section ProviderProperties.

Import provider.

Context {C : Type} (mk : string -> string -> string -> string -> result C).

Ltac configure_cases config :=
  unfold Configure;
  destruct (Host config) as [| |?], (Username config) as [| |?],
    (Password config) as [| |?]; cbn.

(** X24. With an unknown host, user name or password in the
    configuration, Configure makes no client, reports one "unknown value"
    diagnostic per unknown attribute and nothing else: the outcome depends
    neither on the environment nor on the client constructor, neither of
    which is consulted. *)
Theorem Configure_unknown_value_stops_before_environment
  (config : EvengProviderModel) (env : Environment) :
  IsUnknown (Host config) || IsUnknown (Username config)
  || IsUnknown (Password config) = true ->
  let resp := Configure mk config env in
  ResourceData resp = None
  /\ Diagnostics resp <> []
  /\ Forall (fun d => exists what variable,
               detail d = unknown_detail what variable) (Diagnostics resp)
  /\ (forall (C' : Type) mk' env',
        Diagnostics (Configure (C := C') mk' config env') = Diagnostics resp)
  /\ length (Diagnostics resp)
     = ((if IsUnknown (Host config) then 1 else 0)
        + (if IsUnknown (Username config) then 1 else 0)
        + (if IsUnknown (Password config) then 1 else 0))%nat.
Proof.
  configure_cases config; intros Hunknown; try discriminate;
    (split; [done|split; [done|split; [|done]]]);
    repeat constructor; eexists _, _; reflexivity.
Qed.

(** X25. Configure makes a client available exactly when no attribute
    is unknown, each of host, user name and password is non-empty once
    resolved (the configured value unless it is null, the environment
    variable otherwise), and the constructor accepts them; the client is
    the one built from the resolved values and API version "0". *)
Theorem Configure_client_iff (config : EvengProviderModel)
  (env : Environment) (client : C) :
  ResourceData (Configure mk config env) = Some client
  <->
  IsUnknown (Host config) = false
  /\ IsUnknown (Username config) = false
  /\ IsUnknown (Password config) = false
  /\ resolved (Host config) (EVE_HOST env) <> ""
  /\ resolved (Username config) (EVE_USER env) <> ""
  /\ resolved (Password config) (EVE_PASSWORD env) <> ""
  /\ mk (resolved (Username config) (EVE_USER env))
        (resolved (Password config) (EVE_PASSWORD env)) "0"
        (resolved (Host config) (EVE_HOST env)) = Ok client.
Proof.
  unfold resolved.
  configure_cases config;
    try (split; [done|by intros (?&?&?&?)]).
  all: repeat match goal with
         | |- context [String.eqb ?a ""] =>
             destruct (String.eqb_spec a ""); cbn
         end.
  all: try (split; [done|by intros (?&?&?&?&?&?&?)]).
  all: destruct (mk _ _ _ _) as [c|e]; cbn;
    (split; [intros [= <-] || done|intros (?&?&?&?&?&?&?); congruence]);
    done.
Qed.

(** X26. A host explicitly configured as the empty string is not
    replaced by EVE_HOST: with no unknown user name or password, whatever
    the environment holds, no client is made and the "Missing Eveng API
    Host" diagnostic is reported. *)
Theorem Configure_empty_setting_hides_environment
  (config : EvengProviderModel) (env : Environment) :
  Host config = Known "" ->
  IsUnknown (Username config) = false ->
  IsUnknown (Password config) = false ->
  let resp := Configure mk config env in
  ResourceData resp = None
  /\ AddAttributeError "host" "Missing Eveng API Host"
       (missing_detail "host" "EVE_HOST") ∈ Diagnostics resp.
Proof.
  unfold Configure. intros ->.
  destruct (Username config) as [| |?], (Password config) as [| |?]; cbn;
    try discriminate; intros _ _; split; try done; constructor.
Qed.

(** X27. Configure ends with no diagnostic exactly when it makes a
    client available: it never fails silently and never hands out a client
    along with an error. *)
Theorem Configure_client_or_diagnostics (config : EvengProviderModel)
  (env : Environment) :
  let resp := Configure mk config env in
  Diagnostics resp = [] <-> exists client, ResourceData resp = Some client.
Proof.
  configure_cases config;
    try (split; [done|by intros [? ?]]).
  all: repeat match goal with
         | |- context [String.eqb ?a ""] =>
             destruct (String.eqb_spec a ""); cbn
         end.
  all: try (split; [done|by intros [? ?]]).
  all: destruct (mk _ _ _ _) as [c|e]; cbn;
    (split; [done || by eexists|done || by intros [? ?]]).
Qed.

End ProviderProperties.

Section NetworkResourceProperties.

Context {W : Type} `{NET : !NetworkService W}.

Import netresource.

(** X28. A successful create of a network is followed by one lookup
    of the id the server assigned, and the state stored is what that lookup
    answered (position, name, type, icon), all attributes known, under the
    declared lab path; the declared values are not stored. A failed lookup
    is reported as "Unable to read network" and stores nothing, the network
    staying created. *)
Theorem network_Create_reads_back_assigned_id (plan : NetworkResourceModel)
  (w w1 : W) (created : evengsdk.Network) :
  let lab := ValueString (LabPath plan) in
  net_CreateNetwork lab (NewNode plan) w = (w1, (created, None)) ->
  match net_GetNetwork lab (evengsdk.Id created) w1 with
  | (w2, found) =>
      Create plan w =
        (w2,
         [NetCreateNetwork lab (NewNode plan);
          NetGetNetwork lab (evengsdk.Id created)],
         match found with
         | Err e => failure "Unable to read network" e
         | Ok net =>
             put {| LabPath := Known lab;
                    Id := Known (evengsdk.Id created);
                    Left := Known (evengsdk.Left net);
                    Name := Known (evengsdk.Name net);
                    Top := Known (evengsdk.Top net);
                    Type_ := Known (evengsdk.Type_ net);
                    Icon := Known (evengsdk.Icon net) |}
         end)
  end.
Proof.
  intros lab Hcreate. subst lab.
  unfold Create, NewModel, ebind, ecall, eret. rewrite Hcreate.
  by destruct (net_GetNetwork _ _ w1) as [w2 [net|e]].
Qed.

(** X29. Read of a network never reports an error and issues one
    lookup: a failed lookup removes the resource, a successful one stores a
    state from which [NewNode] rebuilds the server's record, but for the
    persisted id and the visibility flag "1". *)
Theorem network_Read_never_reports (state : NetworkResourceModel) (w : W) :
  errors (Read state w).2 = []
  /\ (Read state w).1.2
     = [NetGetNetwork (ValueString (LabPath state)) (ValueInt64 (Id state))]
  /\ match (net_GetNetwork (ValueString (LabPath state))
              (ValueInt64 (Id state)) w).2 with
     | Err _ => action_of (Read state w).2 = Remove
     | Ok net =>
         exists s, action_of (Read state w).2 = Put s
                   /\ NewNode s
                      = set_Visibility
                          (set_Id net (ValueInt64 (Id state))) "1"
     end.
Proof.
  unfold Read, NewModel, ebind, ecall, eret.
  destruct (net_GetNetwork _ _ w) as [w1 [net|e]]; cbn; [|done].
  repeat split. eexists; split; [done|]. by destruct net.
Qed.

(** X30. Update of a network sends the declared record under the
    persisted id, whatever id the plan carries, with the visibility flag
    "1"; the only other calls it makes are lookups. *)
Theorem network_Update_sends_persisted_id (plan state : NetworkResourceModel)
  (w : W) :
  exists sent rest,
    (Update plan state w).1.2
      = NetUpdateNetwork (ValueString (LabPath plan)) sent :: rest
    /\ evengsdk.Id sent = ValueInt64 (Id state)
    /\ evengsdk.Visibility sent = "1"
    /\ set_Id sent (evengsdk.Id (NewNode plan)) = NewNode plan
    /\ Forall (fun c => exists lab id, c = NetGetNetwork lab id) rest.
Proof.
  unfold Update, NewModel, ebind, ecall, eret.
  destruct (net_UpdateNetwork _ _ w) as [w1 [net [e|]]]; cbn.
  - eexists _, _; repeat split; constructor.
  - destruct (net_GetNetwork _ _ w1) as [w2 [net'|e]]; cbn;
      eexists _, _; repeat split; repeat constructor; by eexists _, _.
Qed.

End NetworkResourceProperties.

(** ** More runs on the reference systems *)

(** X1 on a reference system. *)
Lemma Read_network_gone_removes_resource_witness :
  Read (F32 := erased_float32) (CL := lab_client) (linked_state "e0" "e0")
    two_nodes =
    (two_nodes, [CallGetNetwork "/lab.unl" 1],
     Done {| Diagnostics := []; State := RemoveResource |}).
Proof.
  apply (Read_network_gone_removes_resource (F32 := erased_float32)
           (CL := lab_client) (linked_state "e0" "e0") two_nodes
           "network not found").
  reflexivity.
Defined.

(** X2 on a reference system. *)
Lemma Read_net_source_node_gone_witness :
  outcome_of (Read (F32 := erased_float32) (CL := lab_client)
                (net_link 1 "e0") (with_nodes net_lab []))
  = Done (failed "Failed to read node link" "source node 1 not found").
Proof.
  pose proof (Read_net_source_node_gone (F32 := erased_float32)
                (CL := lab_client) (net_link 1 "e0") (with_nodes net_lab [])
                "node not found" eq_refl eq_refl eq_refl) as [_ Hread].
  rewrite Hread. reflexivity.
Defined.

(** X3 on a reference system. *)
Lemma Read_node_endpoint_node_gone_witness :
  outcome_of (Read (F32 := erased_float32) (CL := lab_client)
                (linked_state "e0" "e0")
                (with_nodes linked_lab [(1, [("e0", 1)])]))
  = Done (failed "Failed to read node link" "node not found").
Proof.
  apply (Read_node_endpoint_node_gone (F32 := erased_float32)
           (CL := lab_client) (linked_state "e0" "e0")
           (with_nodes linked_lab [(1, [("e0", 1)])]) "node not found").
  - reflexivity.
  - reflexivity.
  - right. split; reflexivity.
Defined.

(** X4 on a reference system. *)
Lemma Read_consistent_link_keeps_state_witness :
  outcome_of (Read (F32 := erased_float32) (CL := lab_client)
                (linked_state "e0" "e0") linked_lab)
  = Done {| Diagnostics := []; State := SetState (linked_state "e0" "e0") |}.
Proof.
  pose proof (Read_consistent_link_keeps_state (F32 := erased_float32)
                (CL := lab_client) (linked_state "e0" "e0") linked_lab 0 0
                {| evengsdk.IfName := "e0"; evengsdk.NetworkId := 1 |}
                {| evengsdk.IfName := "e0"; evengsdk.NetworkId := 1 |}
                eq_refl eq_refl eq_refl eq_refl (or_introl eq_refl))
    as [_ Hnode].
  rewrite (Hnode eq_refl eq_refl eq_refl eq_refl). reflexivity.
Defined.

(** X5 on a reference system. *)
Lemma net_shape_never_calls_network_service_witness :
  Forall (fun c => is_network_call c = false)
    (calls_of (Create (F32 := erased_float32) (CL := lab_client)
                 (net_link 1 "e1") net_lab)).
Proof.
  apply (net_shape_never_calls_network_service (F32 := erased_float32)
           (CL := lab_client) (net_link 1 "e1") (net_link 1 "e1") net_lab).
  reflexivity.
Defined.

(** On the reference lab a binder call leaves the networks alone. *)
Lemma lab_bind_keeps_networks (lab lab' : string) (N node net : Z)
  (port : string) (x : Lab) :
  lab_GetNetwork lab N x = None ->
  lab_GetNetwork lab N (lab_UpdateNodeInterfaceName lab' node port net x).1
  = None.
Proof.
  intros Hx. unfold lab_UpdateNodeInterfaceName.
  by destruct (lab_GetNodeInterface lab' node port x).
Qed.

(** X7 on the linked lab: the source moves from port e0 to port e1 of node
    1, and network 1 is kept. *)
Lemma Update_live_network_is_renamed_in_place_witness :
  Forall (fun c => is_network_creation c = false /\ is_network_removal c = false)
    (calls_of (Update (F32 := erased_float32) (CL := lab_client)
                 (link_1_2 "e1" "e0") (linked_state "e0" "e0") linked_lab)).
Proof.
  apply (Update_live_network_is_renamed_in_place (F32 := erased_float32)
           (CL := lab_client)).
  - reflexivity.
  - reflexivity.
  - reflexivity.
  - intros node port net x. apply lab_bind_keeps_networks.
Defined.


(** X9 on a reference system. *)
Lemma community_edition_never_syncs_style_witness :
  Forall (fun c => is_style_call c = false)
    (calls_of (Create (F32 := erased_float32) (CL := community_client)
                 (set_NetworkId styled_link Unknown) two_nodes)).
Proof.
  apply (community_edition_never_syncs_style (F32 := erased_float32)
           (CL := community_client) (set_NetworkId styled_link Unknown)
           styled_link two_nodes).
  intros x. reflexivity.
Defined.

(** X10 on a reference system. *)
Lemma Create_lookup_failure_mutates_nothing_witness :
  Create (F32 := erased_float32) (CL := lab_client) (link_1_2 "e0" "e9")
    two_nodes =
    (two_nodes,
     [CallGetNodeInterface "/lab.unl" 1 "e0";
      CallGetNodeInterface "/lab.unl" 2 "e9"],
     Done (failed "Failed to create node link (isNet=true)"
             "interface not found")).
Proof.
  refine (proj2 (Create_lookup_failure_mutates_nothing (F32 := erased_float32)
                   (CL := lab_client) (link_1_2 "e0" "e9") two_nodes
                   "interface not found" eq_refl _)
            0 {| evengsdk.IfName := "e0"; evengsdk.NetworkId := 0 |}
            eq_refl eq_refl).
  vm_compute. discriminate.
Defined.

(** X11 on a reference system. *)
Lemma diagnostics_and_state_exclusive_witness :
  exists resp,
    outcome_of (Delete (F32 := erased_float32) (CL := lab_client)
                  (linked_state "e0" "e0") two_nodes) = Done resp
    /\ Diagnostics resp <> []
    /\ State resp = Untouched.
Proof.
  eexists. split; [reflexivity|].
  destruct (diagnostics_and_state_exclusive (F32 := erased_float32)
              (CL := lab_client) (linked_state "e0" "e0")
              (linked_state "e0" "e0") two_nodes
              (failed "Failed to delete node link" "network not found")
              (or_intror (or_intror (or_intror eq_refl))))
    as [[Hnone|Hkept] _].
  - discriminate Hnone.
  - split; [discriminate|exact Hkept].
Defined.

(** X12 on a reference system. *)
Lemma persisted_endpoints_are_the_declared_ones_witness :
  exists s,
    outcome_of (Create (F32 := erased_float32) (CL := lab_client)
                  (link_1_2 "e0" "e1") two_nodes)
    = Done {| Diagnostics := []; State := SetState s |}
    /\ SourcePort s = Known "e0"
    /\ TargetPort s = Known "e1".
Proof.
  eexists. split; [reflexivity|].
  edestruct (persisted_endpoints_are_the_declared_ones (F32 := erased_float32)
               (CL := lab_client) (link_1_2 "e0" "e1") (link_1_2 "e0" "e1")
               two_nodes) as (_ & _ & Hsp & _ & Htp & _).
  - left. reflexivity.
  - reflexivity.
  - split; [exact Hsp|exact Htp].
Defined.

(** X13 on a reference system. *)
Lemma GetTopologyForTargetNode_without_match_witness :
  GetTopologyForTargetNode (F32 := erased_float32) (CL := lab_client)
    (linked_state "e0" "e0") (styled_lab [foreign_entry; foreign_entry]) =
    (styled_lab [foreign_entry; foreign_entry], [CallGetTopology "/lab.unl"],
     Done emptyStyle).
Proof.
  apply (GetTopologyForTargetNode_without_match (F32 := erased_float32)
           (CL := lab_client) (linked_state "e0" "e0")
           (styled_lab [foreign_entry; foreign_entry])).
  repeat constructor; vm_compute; reflexivity.
Defined.

(** X14 on a reference system. *)
Lemma GetTopologyForTargetNode_first_match_witness :
  outcome_of
    (GetTopologyForTargetNode (F32 := erased_float32) (CL := lab_client)
       (linked_state "e0" "e0")
       (styled_lab [foreign_entry; unstyled_entry;
                    delete "width" unstyled_entry]))
  = styleOfEntry unstyled_entry.
Proof.
  rewrite (GetTopologyForTargetNode_first_match (F32 := erased_float32)
             (CL := lab_client) (linked_state "e0" "e0")
             (styled_lab [foreign_entry; unstyled_entry;
                          delete "width" unstyled_entry])
             [foreign_entry] [delete "width" unstyled_entry] unstyled_entry
             eq_refl).
  - reflexivity.
  - repeat constructor; vm_compute; reflexivity.
  - vm_compute. reflexivity.
Defined.

(** X15 on a reference system. *)
Lemma styleOfEntry_string_defaults_witness :
  exists st,
    styleOfEntry (F32 := erased_float32) unstyled_entry = Done st
    /\ Color st = Known "#3e7089"
    /\ Label st = Known "".
Proof.
  destruct (styleOfEntry (F32 := erased_float32) unstyled_entry) as [st|] eqn:Hst;
    [|vm_compute in Hst; discriminate].
  exists st. split; [reflexivity|].
  destruct (styleOfEntry_string_defaults (F32 := erased_float32) _ _ Hst)
    as (_ & Hcolor & _ & Hlabel).
  split; [rewrite Hcolor|rewrite Hlabel]; vm_compute; reflexivity.
Defined.

(** X17 on a reference system. *)
Lemma style_write_then_read_back_witness :
  exists payload : @evengsdk.Style erased_float32,
    MakeNodeStyle (CL := lab_client) styled_link (styled_lab []) =
      (styled_lab [],
       [CallUpdateNodeInterfaceStyleByName "/lab.unl" 2 "e0" payload], Done tt)
    /\ forall node st',
         styleOfEntry (F32 := erased_float32) node = Done st' ->
         node !! "width" = Some (JString (evengsdk.Width payload)) ->
         Width st' = Known 2.
Proof.
  destruct (style_write_then_read_back (CL := lab_client) styled_link
              dashed_style (styled_lab []) eq_refl) as (payload & Hrun & Hback).
  exists payload. split; [exact Hrun|].
  intros node st' Hst Hwidth.
  apply (Hback node st' Hst); [|exact Hwidth].
  unfold int32_range. cbn. lia.
Defined.

(** X18 on a reference system. *)
Lemma harmonizeMaps_uniform_keys_witness :
  match harmonizeMaps [ethernet_entry; coloured_entry] !! 0%nat with
  | Some m' =>
      dom m' = all_keys [ethernet_entry; coloured_entry]
      /\ m' !! "color" = Some (JString "")
  | None => False
  end.
Proof.
  destruct (harmonizeMaps [ethernet_entry; coloured_entry] !! 0%nat)
    as [m'|] eqn:Hm; [|vm_compute in Hm; discriminate].
  destruct (harmonizeMaps_uniform_keys _ _ _ Hm)
    as (Hdom & m & Hin & _ & Hfill & _).
  split; [exact Hdom|].
  injection Hin as <-. apply Hfill.
  - vm_compute. reflexivity.
  - apply elem_of_all_keys. exists 1%nat, coloured_entry.
    split; [reflexivity|]. apply elem_of_dom. eexists. vm_compute. reflexivity.
Defined.

(** X20 on a reference system. *)
Lemma StartLab_without_other_lab_witness :
  startnodes.StartLab (SVC := server_service) start_lab (server_with "" 0) =
    (server_with "/lab.unl" 0,
     [CallGetAuth; CallStartNodes "/lab.unl"; CallNow], (1000, None)).
Proof.
  apply (StartLab_without_other_lab (SVC := server_service) start_lab
           (server_with "" 0) (server_with "" 0) {| sdk.Lab := "" |}).
  - reflexivity.
  - right. reflexivity.
Defined.

(** X21 on a reference system. *)
Lemma StartLab_with_other_lab_open_witness :
  startnodes.StartLab (SVC := server_service) start_lab
    (server_with "/other.unl" 2) =
    ({| server_open := "/lab.unl"; server_busy := 0; server_clock := 1075;
        server_labs := [("/lab.unl", bare_lab)] |},
     [CallGetAuth; CallStopNodes "/other.unl";
      CallCloseLab; CallSleep 15; CallCloseLab; CallSleep 15;
      CallCloseLab; CallSleep 15; CallCloseLab; CallSleep 15;
      CallCloseLab; CallSleep 15;
      CallStartNodes "/lab.unl"; CallNow],
     (1075, None)).
Proof.
  apply (StartLab_with_other_lab_open (SVC := server_service) start_lab
           (server_with "/other.unl" 2) (server_with "/other.unl" 2)
           (server_with "/other.unl" 2) {| sdk.Lab := "/other.unl" |} None).
  - reflexivity.
  - vm_compute. discriminate.
  - vm_compute. discriminate.
  - reflexivity.
Defined.

(** X22 on a reference system. *)
Lemma MoveLab_outcomes_witness :
  labresource.MoveLab (SVC := server_service) (lab_state "/archive")
    (lab_state "") (server_with "" 0) =
    ({| server_open := ""; server_busy := 0; server_clock := 1000;
        server_labs := [("/archive/lab.unl", bare_lab)] |},
     [CallGetLab "/archive/lab.unl"; CallMoveLab "/lab.unl" "/archive"],
     (labresource.set_Path (lab_state "") (Known "/archive/lab.unl"), None)).
Proof.
  apply (MoveLab_outcomes (SVC := server_service) (lab_state "/archive")
           (lab_state "") (server_with "" 0) (server_with "" 0)
           (Err "lab not found")).
  - vm_compute. discriminate.
  - reflexivity.
Defined.

(** X23 on a reference system. *)
Lemma lab_Read_never_stores_empty_text_witness :
  exists s,
    action_of (labresource.Read (SVC := server_service) (lab_state "")
                 (server_with "" 0)).2 = Put s
    /\ labresource.Author s <> Known ""
    /\ labresource.Author s = Null.
Proof.
  eexists. split; [reflexivity|].
  destruct (lab_Read_never_stores_empty_text (SVC := server_service)
              (lab_state "") _ (server_with "" 0) eq_refl)
    as (lab & _ & Hauthor & _).
  split; [exact Hauthor|reflexivity].
Defined.

(** X24 on a reference system. *)
Lemma Configure_unknown_value_stops_before_environment_witness :
  provider.ResourceData
    (provider.Configure connect
       {| provider.Host := Unknown; provider.Username := Null;
          provider.Password := Null |} lab_environment) = None.
Proof.
  apply (Configure_unknown_value_stops_before_environment connect
           {| provider.Host := Unknown; provider.Username := Null;
              provider.Password := Null |} lab_environment).
  reflexivity.
Defined.

(** X26 on a reference system. *)
Lemma Configure_empty_setting_hides_environment_witness :
  provider.ResourceData
    (provider.Configure connect
       {| provider.Host := Known ""; provider.Username := Null;
          provider.Password := Null |} lab_environment) = None.
Proof.
  apply (Configure_empty_setting_hides_environment connect
           {| provider.Host := Known ""; provider.Username := Null;
              provider.Password := Null |} lab_environment);
    reflexivity.
Defined.

(** X28 on a reference system. *)
Lemma network_Create_reads_back_assigned_id_witness :
  netresource.Create (NET := lab_network_service) lan_plan two_nodes =
    (with_networks two_nodes
       [set_Id (netresource.NewNode lan_plan) 1],
     [NetCreateNetwork "/lab.unl" (netresource.NewNode lan_plan);
      NetGetNetwork "/lab.unl" 1],
     put {| netresource.LabPath := Known "/lab.unl";
            netresource.Id := Known 1;
            netresource.Left := Known 10;
            netresource.Name := Known "lan";
            netresource.Top := Known 20;
            netresource.Type_ := Known "bridge";
            netresource.Icon := Known "" |}).
Proof.
  exact (network_Create_reads_back_assigned_id (NET := lab_network_service)
           lan_plan two_nodes _ _ eq_refl).
Defined.

(** X6 on a reference system. *)
Lemma MakeNodeLinkNet_unbinds_before_binding_witness :
  calls_of (MakeNodeLinkNet (F32 := erased_float32) (CL := lab_client)
              (net_link 1 "e1") (net_link 1 "e0") net_lab) =
    [CallGetNodeInterface "/lab.unl" 1 "e0";
     CallUpdateNodeInterfaceName "/lab.unl" 1 "e0" 0;
     CallUpdateNodeInterfaceName "/lab.unl" 1 "e1" 1].
Proof.
  destruct (MakeNodeLinkNet_unbinds_before_binding (F32 := erased_float32)
              (CL := lab_client) (net_link 1 "e1") (net_link 1 "e0") net_lab)
    as [_ Hchanged].
  destruct (Hchanged eq_refl) as (_ & _ & _ & Hrebind).
  rewrite (Hrebind 0 {| evengsdk.IfName := "e0"; evengsdk.NetworkId := 1 |}
             eq_refl eq_refl eq_refl).
  reflexivity.
Defined.
